(** * Nintendo MP3 Player I/O (src/gba/nmp.cpp)

    A shallow embedding of [AGB_MMU::write_nmp], [AGB_MMU::read_nmp],
    [AGB_MMU::process_nmp_cmd] and [AGB_MMU::access_nmp_io], followed by the
    properties of the command protocol, the virtual SD card responder and
    the audio feeder.

    Conventions.
    - Machine integers are [Z]; every store into a narrower object is
      written with its wrap-around ([u8], [u16], [u32], [s16], [s32]).
    - [std::string] is [string]; [std::vector<u8>] and the fixed arrays are
      [list Z] read with [!!] and written with [<[_:=_]>].
    - Reads and pops outside a container are undefined in C++: the embedded
      functions return [None] there.
    - [float] and [double] are IEEE-754 binary32 and binary64, computed with
      the reference operations of [SpecFloat]. *)

From Stdlib Require Import ZArith Lia SpecFloat Ascii.
From stdpp Require Import base numbers option list strings.

Open Scope Z_scope.

(** ** Machine integers *)

Module Int.

Definition u8 (z : Z) : Z := z mod 2 ^ 8.
Definition u16 (z : Z) : Z := z mod 2 ^ 16.
Definition u32 (z : Z) : Z := z mod 2 ^ 32.

(** Two's complement reading of the low [w] bits. *)
Definition signed (w : Z) (z : Z) : Z :=
  let r := z mod 2 ^ w in
  if r <? 2 ^ (w - 1) then r else r - 2 ^ w.

Definition s16 : Z -> Z := signed 16.
Definition s32 : Z -> Z := signed 32.

#[global] Arguments u8 _ : simpl never.
#[global] Arguments u16 _ : simpl never.
#[global] Arguments u32 _ : simpl never.
#[global] Arguments s16 _ : simpl never.
#[global] Arguments s32 _ : simpl never.

End Int.

(** ** Floating point *)

Module Fp.

(** Value conversions: an integer to [double] / [float]. *)
Definition double_of_Z (z : Z) : spec_float := binary_normalize 53 1024 z 0 false.
Definition float_of_Z (z : Z) : spec_float := binary_normalize 24 128 z 0 false.

(** Re-rounding of a finite value into the format [(prec, emax)]. *)
Definition round_to (prec emax : Z) (x : spec_float) : spec_float :=
  match x with
  | S754_finite s m e => binary_normalize prec emax (if s then Zneg m else Zpos m) e s
  | _ => x
  end.

Definition double_of_float : spec_float -> spec_float := round_to 53 1024.
Definition float_of_double : spec_float -> spec_float := round_to 24 128.

Definition dmul : spec_float -> spec_float -> spec_float := SFmul 53 1024.
Definition ddiv : spec_float -> spec_float -> spec_float := SFdiv 53 1024.
Definition fdiv : spec_float -> spec_float -> spec_float := SFdiv 24 128.

(** [a >= b] on floats; false when either side is a NaN. *)
Definition fge (a b : spec_float) : bool := SFleb b a.

(** Truncation toward zero of a finite value. *)
Definition truncate (x : spec_float) : option Z :=
  match x with
  | S754_zero _ => Some 0
  | S754_finite s m e =>
      let a := match e with
               | Z0 => Zpos m
               | Zpos _ => Zpos m * 2 ^ e
               | Zneg p => Zpos m / 2 ^ Zpos p
               end in
      Some (if s then - a else a)
  | S754_infinity _ | S754_nan => None
  end.

(** Floating-integral conversion to an unsigned type of [w] bits. The
    conversion is defined when the truncated value fits the type; where it
    does not, C++ leaves the result undefined and [undef] stands for the
    value the platform produces. *)
Definition to_unsigned (undef : spec_float -> Z) (w : Z) (x : spec_float) : Z :=
  match truncate x with
  | Some t => if (0 <=? t) && (t <? 2 ^ w) then t else undef x mod 2 ^ w
  | None => undef x mod 2 ^ w
  end.

#[global] Arguments double_of_Z _ : simpl never.
#[global] Arguments float_of_Z _ : simpl never.
#[global] Arguments double_of_float _ : simpl never.
#[global] Arguments float_of_double _ : simpl never.
#[global] Arguments dmul _ _ : simpl never.
#[global] Arguments ddiv _ _ : simpl never.
#[global] Arguments fdiv _ _ : simpl never.
#[global] Arguments fge _ _ : simpl never.
#[global] Arguments to_unsigned _ _ _ : simpl never.

End Fp.

(** ** Data model *)

(** [play_yan.op_state]. *)
Inductive play_yan_state :=
  | PLAY_YAN_INIT
  | PLAY_YAN_BOOT_SEQUENCE
  | PLAY_YAN_WAIT
  | PLAY_YAN_PROCESS_CMD
  | PLAY_YAN_GET_SD_DATA.

#[global] Instance play_yan_state_eq_dec : EqDecision play_yan_state.
Proof. solve_decision. Defined.

(** The case labels of the [switch] in [process_nmp_cmd], in source order. *)
Inductive nmp_command :=
  | NMP_START_FILE_LIST
  | NMP_CONTINUE_FILE_LIST
  | NMP_SET_DIR
  | NMP_GET_ID3_DATA
  | NMP_PLAY_MUSIC
  | NMP_STOP_MUSIC
  | NMP_PAUSE
  | NMP_RESUME
  | NMP_SEEK
  | NMP_SET_VOLUME
  | NMP_PLAY_SFX
  | NMP_CHECK_FIRMWARE_FILE
  | NMP_READ_FIRMWARE_FILE
  | NMP_CLOSE_FIRMWARE_FILE
  | NMP_SLEEP
  | NMP_WAKE
  | NMP_INIT
  | NMP_UPDATE_AUDIO
  | NMP_HEADPHONE_STATUS.

#[global] Instance nmp_command_eq_dec : EqDecision nmp_command.
Proof. solve_decision. Defined.

Definition all_commands : list nmp_command :=
  [ NMP_START_FILE_LIST; NMP_CONTINUE_FILE_LIST; NMP_SET_DIR; NMP_GET_ID3_DATA;
    NMP_PLAY_MUSIC; NMP_STOP_MUSIC; NMP_PAUSE; NMP_RESUME; NMP_SEEK;
    NMP_SET_VOLUME; NMP_PLAY_SFX; NMP_CHECK_FIRMWARE_FILE;
    NMP_READ_FIRMWARE_FILE; NMP_CLOSE_FIRMWARE_FILE; NMP_SLEEP; NMP_WAKE;
    NMP_INIT; NMP_UPDATE_AUDIO; NMP_HEADPHONE_STATUS ].

(** The numeric constants of mmu.h, which is not among the sources: the
    value of every opcode and the four register addresses. They are kept as
    parameters of the development. *)
Record nmp_consts := {
  code : nmp_command -> Z;
  PY_NMP_CNT : Z;
  PY_NMP_PARAMETER : Z;
  PY_NMP_DATA_IN : Z;
  PY_NMP_DATA_OUT : Z
}.

(** A C++ [switch] needs pairwise different case labels. *)
Definition distinct_codes (K : nmp_consts) : Prop :=
  NoDup (code K <$> all_commands).

(** [switch(play_yan.cmd)]: the label that [z] selects, [None] for
    [default]. *)
Definition decode (K : nmp_consts) (z : Z) : option nmp_command :=
  List.find (fun o => code K o =? z) all_commands.

(** Modelled from the spec: the audio loader collaborator
    ([play_yan_load_audio] lives in play_yan.cpp), section 6:
    load(path) -> {pcm_buffer, sample_rate, channel_count, duration} or
    failure. [la_ok] is the returned flag; the other fields are what the
    loader leaves in the device. The PCM buffer is kept as the 16-bit
    samples [process_nmp_cmd] and [access_nmp_io] read through [e_stream]. *)
Record loaded_audio := {
  la_ok : bool;
  la_buffer : list Z;
  la_length : Z;
  la_sample_rate : Z;
  la_channels : Z;
  la_music_length : Z
}.

(** The collaborators outside nmp.cpp. *)
Record host := {
  (** [util::get_folders_in_dir(dir, out)] *)
  get_folders_in_dir : string -> list string;
  (** [util::get_files_in_dir(dir, ".mp3", out, false, false)] *)
  get_files_in_dir : string -> string -> list string;
  (** Modelled from the spec: the tag extractor collaborator
      ([play_yan_get_id3_data]), section 6: extract(path) -> {title, artist}. *)
  play_yan_get_id3_data : string -> string * string;
  (** [util::make_ascii_printable] *)
  make_ascii_printable : string -> string;
  play_yan_load_audio : string -> loaded_audio;
  (** [config::data_path] *)
  data_path : string;
  (** result of a floating-integral conversion C++ leaves undefined *)
  undefined_conversion : spec_float -> Z
}.

(** The device: the fields of [play_yan] that nmp.cpp touches, the fields of
    [apu_stat->ext_audio] (prefixed [ext_]) and [memory_map[REG_IF+1]].

    The structs are declared in headers that are not among the sources.
    The widths used below are those of the locals nmp.cpp copies the
    fields through: [u8 last_pos] for [nmp_seek_pos], [u32
    current_sample_pos] for the two cursors, [s32 new_pos], [s16 error]
    for the dither errors, [u16 stat_data]; counters are taken as [u32].
    [volume] and [ext_volume] are taken as 8-bit integers, which is what
    the volume examples of the specification (31 for 23) have. The PCM
    buffer [ext_buffer] is held as the 16-bit samples read through
    [e_stream]; [nmp_status_data] is the fixed array of 16 bytes. *)
Record AGB_MMU := mkMMU {
  access_mode : Z;
  access_param : Z;
  op_state : play_yan_state;
  firmware_addr : Z;
  firmware : list Z;
  command_stream : list Z;
  cmd : Z;
  nmp_cmd_status : Z;
  nmp_valid_command : bool;
  nmp_status_data : list Z;
  nmp_data_index : Z;
  card_data : list Z;
  current_dir : string;
  current_music_file : string;
  folders : list string;
  music_files : list string;
  nmp_entry_count : Z;
  nmp_title : string;
  nmp_artist : string;
  is_music_playing : bool;
  is_media_playing : bool;
  audio_sample_index : Z;
  audio_sample_rate : Z;
  audio_channels : Z;
  l_audio_dither_error : Z;
  r_audio_dither_error : Z;
  audio_buffer_size : Z;
  audio_frame_count : Z;
  tracker_update_size : Z;
  update_audio_stream : bool;
  update_trackbar_timestamp : bool;
  nmp_audio_index : Z;
  nmp_seek_pos : Z;
  nmp_seek_dir : Z;
  nmp_seek_count : Z;
  volume : Z;
  music_length : Z;
  cycles : Z;
  irq_delay : Z;
  last_delay : Z;
  nmp_manual_cmd : Z;
  nmp_manual_irq : bool;
  nmp_ticks : Z;
  nmp_init_stage : Z;
  nmp_boot_data : list Z;
  ext_playing : bool;
  ext_use_headphones : bool;
  ext_channels : Z;
  ext_frequency : Z;
  ext_sample_pos : Z;
  ext_last_pos : Z;
  ext_volume : Z;
  ext_length : Z;
  ext_buffer : list Z;
  reg_if_hi : Z
}.

(** Field assignment. [same m] spells [m] out field by field, and
    [assign p] replaces the one occurrence of [p m] in it. *)
Definition same (m : AGB_MMU) : AGB_MMU :=
  mkMMU (access_mode m) (access_param m) (op_state m) (firmware_addr m)
    (firmware m) (command_stream m) (cmd m) (nmp_cmd_status m)
    (nmp_valid_command m) (nmp_status_data m) (nmp_data_index m) (card_data m)
    (current_dir m) (current_music_file m) (folders m) (music_files m)
    (nmp_entry_count m) (nmp_title m) (nmp_artist m) (is_music_playing m)
    (is_media_playing m) (audio_sample_index m) (audio_sample_rate m)
    (audio_channels m) (l_audio_dither_error m) (r_audio_dither_error m)
    (audio_buffer_size m) (audio_frame_count m) (tracker_update_size m)
    (update_audio_stream m) (update_trackbar_timestamp m) (nmp_audio_index m)
    (nmp_seek_pos m) (nmp_seek_dir m) (nmp_seek_count m) (volume m)
    (music_length m) (cycles m) (irq_delay m) (last_delay m) (nmp_manual_cmd m)
    (nmp_manual_irq m) (nmp_ticks m) (nmp_init_stage m) (nmp_boot_data m)
    (ext_playing m) (ext_use_headphones m) (ext_channels m) (ext_frequency m)
    (ext_sample_pos m) (ext_last_pos m) (ext_volume m) (ext_length m)
    (ext_buffer m) (reg_if_hi m).

Ltac assign p :=
  let v := fresh "v" in
  let m := fresh "m" in
  intros v m;
  let whole := eval cbv beta delta [same] in (same m) in
  let shape := eval pattern (p m) in whole in
  lazymatch shape with
  | ?ctx _ => let t := eval cbv beta in (ctx v) in exact t
  end.

Class Assign {T : Type} (p : AGB_MMU -> T) := assign_field : T -> AGB_MMU -> AGB_MMU.
Arguments assign_field {T} p {_} _ _ /.

Notation "m <| p := v |>" := (assign_field p v m)
  (at level 1, left associativity, format "m  <| p  :=  v |>").

#[global] Instance set_access_mode : Assign access_mode := ltac:(assign access_mode).
#[global] Instance set_access_param : Assign access_param := ltac:(assign access_param).
#[global] Instance set_op_state : Assign op_state := ltac:(assign op_state).
#[global] Instance set_firmware_addr : Assign firmware_addr := ltac:(assign firmware_addr).
#[global] Instance set_firmware : Assign firmware := ltac:(assign firmware).
#[global] Instance set_command_stream : Assign command_stream := ltac:(assign command_stream).
#[global] Instance set_cmd : Assign cmd := ltac:(assign cmd).
#[global] Instance set_nmp_cmd_status : Assign nmp_cmd_status := ltac:(assign nmp_cmd_status).
#[global] Instance set_nmp_valid_command : Assign nmp_valid_command := ltac:(assign nmp_valid_command).
#[global] Instance set_nmp_status_data : Assign nmp_status_data := ltac:(assign nmp_status_data).
#[global] Instance set_nmp_data_index : Assign nmp_data_index := ltac:(assign nmp_data_index).
#[global] Instance set_card_data : Assign card_data := ltac:(assign card_data).
#[global] Instance set_current_dir : Assign current_dir := ltac:(assign current_dir).
#[global] Instance set_current_music_file : Assign current_music_file := ltac:(assign current_music_file).
#[global] Instance set_folders : Assign folders := ltac:(assign folders).
#[global] Instance set_music_files : Assign music_files := ltac:(assign music_files).
#[global] Instance set_nmp_entry_count : Assign nmp_entry_count := ltac:(assign nmp_entry_count).
#[global] Instance set_nmp_title : Assign nmp_title := ltac:(assign nmp_title).
#[global] Instance set_nmp_artist : Assign nmp_artist := ltac:(assign nmp_artist).
#[global] Instance set_is_music_playing : Assign is_music_playing := ltac:(assign is_music_playing).
#[global] Instance set_is_media_playing : Assign is_media_playing := ltac:(assign is_media_playing).
#[global] Instance set_audio_sample_index : Assign audio_sample_index := ltac:(assign audio_sample_index).
#[global] Instance set_audio_sample_rate : Assign audio_sample_rate := ltac:(assign audio_sample_rate).
#[global] Instance set_audio_channels : Assign audio_channels := ltac:(assign audio_channels).
#[global] Instance set_l_audio_dither_error : Assign l_audio_dither_error := ltac:(assign l_audio_dither_error).
#[global] Instance set_r_audio_dither_error : Assign r_audio_dither_error := ltac:(assign r_audio_dither_error).
#[global] Instance set_audio_buffer_size : Assign audio_buffer_size := ltac:(assign audio_buffer_size).
#[global] Instance set_audio_frame_count : Assign audio_frame_count := ltac:(assign audio_frame_count).
#[global] Instance set_tracker_update_size : Assign tracker_update_size := ltac:(assign tracker_update_size).
#[global] Instance set_update_audio_stream : Assign update_audio_stream := ltac:(assign update_audio_stream).
#[global] Instance set_update_trackbar_timestamp : Assign update_trackbar_timestamp := ltac:(assign update_trackbar_timestamp).
#[global] Instance set_nmp_audio_index : Assign nmp_audio_index := ltac:(assign nmp_audio_index).
#[global] Instance set_nmp_seek_pos : Assign nmp_seek_pos := ltac:(assign nmp_seek_pos).
#[global] Instance set_nmp_seek_dir : Assign nmp_seek_dir := ltac:(assign nmp_seek_dir).
#[global] Instance set_nmp_seek_count : Assign nmp_seek_count := ltac:(assign nmp_seek_count).
#[global] Instance set_volume : Assign volume := ltac:(assign volume).
#[global] Instance set_music_length : Assign music_length := ltac:(assign music_length).
#[global] Instance set_cycles : Assign cycles := ltac:(assign cycles).
#[global] Instance set_irq_delay : Assign irq_delay := ltac:(assign irq_delay).
#[global] Instance set_last_delay : Assign last_delay := ltac:(assign last_delay).
#[global] Instance set_nmp_manual_cmd : Assign nmp_manual_cmd := ltac:(assign nmp_manual_cmd).
#[global] Instance set_nmp_manual_irq : Assign nmp_manual_irq := ltac:(assign nmp_manual_irq).
#[global] Instance set_nmp_ticks : Assign nmp_ticks := ltac:(assign nmp_ticks).
#[global] Instance set_nmp_init_stage : Assign nmp_init_stage := ltac:(assign nmp_init_stage).
#[global] Instance set_ext_playing : Assign ext_playing := ltac:(assign ext_playing).
#[global] Instance set_ext_use_headphones : Assign ext_use_headphones := ltac:(assign ext_use_headphones).
#[global] Instance set_ext_channels : Assign ext_channels := ltac:(assign ext_channels).
#[global] Instance set_ext_frequency : Assign ext_frequency := ltac:(assign ext_frequency).
#[global] Instance set_ext_sample_pos : Assign ext_sample_pos := ltac:(assign ext_sample_pos).
#[global] Instance set_ext_last_pos : Assign ext_last_pos := ltac:(assign ext_last_pos).
#[global] Instance set_ext_volume : Assign ext_volume := ltac:(assign ext_volume).
#[global] Instance set_ext_length : Assign ext_length := ltac:(assign ext_length).
#[global] Instance set_ext_buffer : Assign ext_buffer := ltac:(assign ext_buffer).
#[global] Instance set_reg_if_hi : Assign reg_if_hi := ltac:(assign reg_if_hi).

(** ** Helpers shared by the command handlers *)

Import Int.

(** [vec.size()] as an integer. *)
Definition size {A : Type} (l : list A) : Z := Z.of_nat (length l).

(** [vec[i]] for an index held in an integer; [None] outside the vector. *)
Definition at_index {A : Type} (l : list A) (i : Z) : option A :=
  if 0 <=? i then l !! Z.to_nat i else None.

(** [vec[i] = v] inside the vector. *)
Definition store (i : Z) (v : Z) (l : list Z) : list Z := <[Z.to_nat i := v]> l.

Definition chr_of (b : Z) : ascii := ascii_of_N (Z.to_N b).
Definition byte_of (c : ascii) : Z := Z.of_N (N_of_ascii c).

Definition str_bytes (s : string) : list Z := byte_of <$> String.list_ascii_of_string s.

(** [play_yan.nmp_status_data[i] = v] *)
Definition status_write (i : Z) (v : Z) (m : AGB_MMU) : AGB_MMU :=
  m <| nmp_status_data := store i (u8 v) (nmp_status_data m) |>.

(** The loop that reads a name out of the command stream:
    [for(u32 x = 3; x < size; x += 2)]. [l] is the stream from index [x]
    on and [first] tells whether [x == 3]. *)
Fixpoint grab_name (first : bool) (l : list Z) : list ascii :=
  match l with
  | [] => []
  | chr :: rest =>
      let next (fst' : bool) :=
        match rest with
        | _ :: rest' => grab_name fst' rest'
        | [] => []
        end in
      if chr =? 0 then []
      else if first && ((chr =? 1) || (chr =? 2)) then next false
      else chr_of chr :: next false
  end.

Definition stream_name (stream : list Z) : string :=
  String.string_of_list_ascii (grab_name true (drop 3 stream)).

(** The loop of SET_DIR that moves one directory up, on the reversed
    characters of [current_dir]: [back()] is the head, [pop_back()] drops
    it. Reading [back()] of an empty string is the underflow. *)
Fixpoint trim_to_slash (rev_dir : list ascii) : option (list ascii) :=
  match rev_dir with
  | [] => None
  | chr :: rest =>
      if Ascii.eqb chr "/"%char then Some rest
      else trim_to_slash rest
  end.

Definition parent_dir (dir : string) : option string :=
  r ← trim_to_slash (rev (String.list_ascii_of_string dir));
  Some (String.string_of_list_ascii (rev r)).

(** What [play_yan_load_audio] leaves in the device. *)
Definition store_loaded (a : loaded_audio) (m : AGB_MMU) : AGB_MMU :=
  m <| ext_buffer := la_buffer a |> <| ext_length := la_length a |>
    <| audio_sample_rate := la_sample_rate a |>
    <| audio_channels := la_channels a |>
    <| music_length := la_music_length a |>.

(** [for(x = 0; x < 16; x++) nmp_status_data[x] = 0;] and the opcode echo. *)
Definition default_status (c : Z) : list Z :=
  store 1 (u8 (Z.land c 0xFF)) (store 0 (u8 (Z.shiftr c 8)) (replicate 16 0)).

(** [s32 seek_shift = 2 + (play_yan.nmp_seek_count / 10)] *)
Definition seek_shift (count : Z) : Z := s32 (2 + count / 10).

(** [float progress] of the trackbar update, from [tracker_update_size]
    and [music_length]. *)
Definition progress (tracker len : Z) : spec_float :=
  let p := Fp.float_of_Z tracker in
  let p := Fp.fdiv p (Fp.float_of_Z (u32 (len - 1))) in
  Fp.float_of_double (Fp.dmul (Fp.double_of_float p) (Fp.double_of_Z 100)).

(** ** [AGB_MMU::process_nmp_cmd] *)

(** Truth value of an integer in a condition. *)
Definition nz (z : Z) : bool := negb (z =? 0).

Section Device.

Variable K : nmp_consts.
Variable H : host.

(** [process_play_yan_irq], defined in play_yan.cpp. *)
Variable process_play_yan_irq : AGB_MMU -> option AGB_MMU.

(** [nmp_manual_irq = true; process_play_yan_irq(); nmp_manual_irq = false;] *)
Definition manual_irq (m : AGB_MMU) : option AGB_MMU :=
  m' ← process_play_yan_irq (m <| nmp_manual_irq := true |>);
  Some (m' <| nmp_manual_irq := false |>).

(** The state SEEK has built when it raises its interrupt. *)
Definition seek_prepare (m : AGB_MMU) : AGB_MMU :=
  let m := m <| nmp_seek_count := u32 (nmp_seek_count m + 1) |> in
  let shift := seek_shift (nmp_seek_count m) in
  let m :=
    if nmp_seek_dir m =? 0xFF then
      let last_pos := u8 (nmp_seek_pos m) in
      let m := m <| nmp_seek_pos := u8 (default 0 (at_index (command_stream m) 3)) |> in
      if nz last_pos && nz (nmp_seek_pos m) then
        if nmp_seek_pos m <? last_pos then m <| nmp_seek_dir := 0 |>
        else m <| nmp_seek_dir := 1 |>
      else m
    else if negb (nz (nmp_seek_dir m)) then
      if ext_use_headphones m then
        let new_pos := s32 (ext_sample_pos m - audio_sample_rate m * shift) in
        let new_pos := if new_pos <? 0 then 0 else new_pos in
        m <| ext_sample_pos := new_pos |>
      else
        let new_pos := s32 (audio_sample_index m - 16384 * shift) in
        let new_pos := if new_pos <? 0 then 0 else new_pos in
        m <| audio_sample_index := new_pos |>
    else
      if ext_use_headphones m then
        m <| ext_sample_pos := u32 (ext_sample_pos m + audio_sample_rate m * shift) |>
      else
        m <| audio_sample_index := u32 (audio_sample_index m + 16384 * shift) |>
  in
  m <| nmp_manual_cmd := code K NMP_UPDATE_AUDIO |>
    <| update_audio_stream := false |>
    <| update_trackbar_timestamp := true |>
    <| irq_delay := 0 |>.

(** The state PLAY_SFX has built when it raises its interrupt. *)
Definition sfx_prepare (m : AGB_MMU) : AGB_MMU :=
  let m := m <| nmp_valid_command := true |>
             <| is_music_playing := true |> <| is_media_playing := true |>
             <| audio_sample_index := 0 |>
             <| l_audio_dither_error := 0 |> <| r_audio_dither_error := 0 |>
             <| tracker_update_size := 0 |>
             <| ext_last_pos := 0 |> <| ext_sample_pos := 0 |>
             <| update_audio_stream := true |>
             <| update_trackbar_timestamp := false |> in
  let sfx_file := data_path H +:+ "play_yan/sfx.wav" in
  let m := store_loaded (play_yan_load_audio H sfx_file) m in
  m <| nmp_manual_cmd := code K NMP_UPDATE_AUDIO |>.

(** The body of [case NMP_UPDATE_AUDIO] under [if(is_music_playing)]. *)
Definition update_audio_playing (m : AGB_MMU) : AGB_MMU :=
  let m := m <| nmp_manual_cmd := code K NMP_UPDATE_AUDIO |>
             <| audio_buffer_size := 0x480 |> in
  let start_output (m : AGB_MMU) : AGB_MMU :=
    if negb (ext_playing m) && nz (audio_sample_rate m) && nz (audio_channels m) then
      m <| ext_channels := audio_channels m |>
        <| ext_frequency := audio_sample_rate m |>
        <| ext_sample_pos := 0 |>
        <| ext_playing := true |>
    else m in
  if update_audio_stream m && negb (ext_use_headphones m) then
    let m := status_write 2 (Z.shiftr (audio_buffer_size m) 8) m in
    let m := status_write 3 (Z.land (audio_buffer_size m) 0xFF) m in
    let m := status_write 4 0x02 m in
    let m := status_write 5 0x02 m in
    let m := m <| nmp_audio_index := 0x202 + audio_buffer_size m / 4 |> in
    start_output m
  else if update_trackbar_timestamp m then
    let m := m <| update_audio_stream := true |>
               <| update_trackbar_timestamp := false |>
               <| audio_frame_count := 0 |> in
    let current_sample_pos :=
      if ext_use_headphones m then ext_sample_pos m else audio_sample_index m in
    let current_sample_rate :=
      if ext_use_headphones m then audio_sample_rate m else 16384 in
    let m :=
      if nz current_sample_rate then
        m <| tracker_update_size := current_sample_pos / current_sample_rate |>
      else m in
    let finish (m : AGB_MMU) : AGB_MMU :=
      let m := status_write 12 (Z.land (Z.shiftr (tracker_update_size m) 8) 0xFF) m in
      let m := status_write 13 (Z.land (tracker_update_size m) 0xFF) m in
      let m :=
        if ext_use_headphones m then
          m <| irq_delay := 60 |> <| update_audio_stream := false |>
            <| update_trackbar_timestamp := true |>
        else m in
      start_output m in
    if nz (u32 (music_length m - 1)) then
      let progress := progress (tracker_update_size m) (music_length m) in
      let m' := status_write 8
                  (Fp.to_unsigned (undefined_conversion H) 8 progress) m in
      if Fp.fge progress (Fp.float_of_Z 100) then
        m' <| nmp_manual_cmd := code K NMP_STOP_MUSIC |> <| irq_delay := 1 |>
      else finish m'
    else finish m
  else start_output m.

(** The body of [case NMP_HEADPHONE_STATUS] after the status reply. *)
Definition headphone_toggle (m : AGB_MMU) : AGB_MMU :=
  let m := m <| ext_use_headphones := negb (ext_use_headphones m) |> in
  if ext_use_headphones m then
    let m := status_write 2 0 m in
    let m := status_write 3 1 m in
    let m := m <| update_audio_stream := false |>
               <| update_trackbar_timestamp := true |> in
    let m :=
      if nz (audio_channels m) then
        m <| ext_sample_pos := ext_last_pos m / audio_channels m |>
      else m in
    if ext_playing m then
      m <| nmp_manual_cmd := code K NMP_UPDATE_AUDIO |> <| irq_delay := 1 |>
    else m
  else
    let m := m <| update_audio_stream := true |>
               <| update_trackbar_timestamp := false |> in
    let m :=
      if nz (audio_channels m) then
        let ratio := Fp.ddiv (Fp.double_of_Z (audio_sample_rate m))
                             (Fp.double_of_Z 16384) in
        let index := ext_last_pos m / audio_channels m in
        let index := Fp.to_unsigned (undefined_conversion H) 32
                       (Fp.ddiv (Fp.double_of_Z index) ratio) in
        m <| audio_sample_index := Z.land index (Z.lnot 0x01) |>
      else m in
    m <| nmp_manual_cmd := 0 |> <| irq_delay := 0 |>.

Definition process_nmp_cmd (m : AGB_MMU) : option AGB_MMU :=
  let done (m : AGB_MMU) (status : Z) : AGB_MMU :=
    m <| nmp_cmd_status := status |> <| nmp_valid_command := true |> in
  let list_done (m : AGB_MMU) : AGB_MMU :=
    if size (music_files m) + size (folders m) <=? nmp_entry_count m then
      status_write 3 1 (status_write 2 0 m)
    else m in
  let m := m <| nmp_status_data := default_status (cmd m) |> in
  match decode K (cmd m) with
  | Some NMP_START_FILE_LIST =>
      let m := done m (Z.lor (code K NMP_START_FILE_LIST) 0x4000) in
      let m := status_write 3 0 (status_write 2 0 m) in
      let m := m <| nmp_entry_count := 0 |>
                 <| music_files := [] |> <| folders := [] |> in
      let m := m <| folders := get_folders_in_dir H (current_dir m) |> in
      let m := m <| music_files := get_files_in_dir H (current_dir m) ".mp3" |> in
      let m := list_done m in
      Some (m <| nmp_entry_count := u32 (nmp_entry_count m + 1) |>)
  | Some NMP_CONTINUE_FILE_LIST =>
      let m := done m (Z.lor (code K NMP_CONTINUE_FILE_LIST) 0x4000) in
      let m := list_done m in
      Some (m <| nmp_entry_count := u32 (nmp_entry_count m + 1) |>)
  | Some NMP_SET_DIR =>
      let m := done m (Z.lor (code K NMP_SET_DIR) 0x4000) in
      let new_dir := stream_name (command_stream m) in
      if String.eqb new_dir ".." then
        up ← parent_dir (current_dir m);
        Some (m <| current_dir := up |>)
      else if negb (String.eqb new_dir "") then
        Some (m <| current_dir := current_dir m +:+ ("/" +:+ new_dir) |>)
      else Some m
  | Some NMP_GET_ID3_DATA =>
      let m := done m (Z.lor (code K NMP_GET_ID3_DATA) 0x4000) in
      let m := m <| current_music_file := stream_name (command_stream m) |> in
      let m := status_write 7 0x1 (status_write 6 0x1 m) in
      let tags := play_yan_get_id3_data H
                    (current_dir m +:+ "/" +:+ current_music_file m) in
      let m := m <| nmp_title := tags.1 |> <| nmp_artist := tags.2 |> in
      let m := m <| nmp_title := make_ascii_printable H (nmp_title m) |> in
      Some (m <| nmp_artist := make_ascii_printable H (nmp_artist m) |>)
  | Some NMP_PLAY_MUSIC =>
      let m := done m (Z.lor (code K NMP_PLAY_MUSIC) 0x4000) in
      let m := m <| is_music_playing := true |> <| is_media_playing := true |>
                 <| audio_sample_index := 0 |>
                 <| l_audio_dither_error := 0 |> <| r_audio_dither_error := 0 |>
                 <| tracker_update_size := 0 |>
                 <| ext_last_pos := 0 |> <| ext_sample_pos := 0 |>
                 <| nmp_seek_pos := 0 |> <| nmp_seek_dir := 0xFF |>
                 <| nmp_seek_count := 0 |> in
      let m :=
        if ext_use_headphones m then
          m <| update_audio_stream := false |>
            <| update_trackbar_timestamp := true |>
            <| nmp_manual_cmd := 0x8100 |> <| irq_delay := 10 |>
        else
          m <| update_audio_stream := true |>
            <| update_trackbar_timestamp := false |> in
      let m := m <| current_music_file := stream_name (command_stream m) |> in
      let a := play_yan_load_audio H
                 (current_dir m +:+ "/" +:+ current_music_file m) in
      let m := store_loaded a m in
      let m := if negb (la_ok a) then m <| music_length := 2 |> else m in
      Some (m <| cycles := 0 |>)
  | Some NMP_STOP_MUSIC =>
      let m := done m (Z.lor (code K NMP_STOP_MUSIC) 0x4000) in
      Some (m <| is_music_playing := false |> <| is_media_playing := false |>
              <| ext_playing := false |>
              <| audio_frame_count := 0 |> <| tracker_update_size := 0 |>
              <| update_audio_stream := false |>
              <| update_trackbar_timestamp := false |>
              <| nmp_seek_pos := 0 |> <| nmp_seek_dir := 0xFF |>
              <| nmp_seek_count := 0 |>
              <| nmp_manual_cmd := 0 |> <| irq_delay := 0 |>
              <| last_delay := 0 |> <| nmp_manual_irq := false |>)
  | Some NMP_PAUSE =>
      let m := done m (Z.lor (code K NMP_PAUSE) 0x4000) in
      let m := m <| is_music_playing := false |> <| is_media_playing := false |>
                 <| ext_playing := false |>
                 <| nmp_seek_pos := 0 |> <| nmp_seek_dir := 0xFF |>
                 <| nmp_seek_count := 0 |> in
      let m := m <| last_delay := irq_delay m |> in
      Some (m <| nmp_manual_cmd := 0 |> <| irq_delay := 0 |>
              <| nmp_manual_irq := false |>)
  | Some NMP_RESUME =>
      let m := done m (Z.lor (code K NMP_PAUSE) 0x4000) in
      let m := m <| is_music_playing := true |> <| is_media_playing := true |> in
      let m :=
        if nz (audio_sample_rate m) && nz (audio_channels m) then
          m <| ext_playing := true |>
        else m in
      if ext_use_headphones m then
        let m := m <| update_audio_stream := false |>
                   <| update_trackbar_timestamp := true |>
                   <| nmp_manual_cmd := code K NMP_UPDATE_AUDIO |> in
        let m := m <| irq_delay := last_delay m |> in
        Some (m <| last_delay := 0 |>)
      else
        Some (m <| update_audio_stream := true |>
                <| update_trackbar_timestamp := false |>)
  | Some NMP_SEEK =>
      let m := done m (Z.lor (code K NMP_SEEK) 0x4000) in
      if 4 <=? size (command_stream m) then manual_irq (seek_prepare m)
      else Some m
  | Some NMP_SET_VOLUME =>
      let m :=
        if 4 <=? size (command_stream m) then
          let m := m <| volume := u8 (default 0 (at_index (command_stream m) 3)) |> in
          m <| ext_volume :=
                 Fp.to_unsigned (undefined_conversion H) 8
                   (Fp.dmul (Fp.ddiv (Fp.double_of_Z (volume m)) (Fp.double_of_Z 46))
                            (Fp.double_of_Z 63)) |>
        else m in
      Some (m <| nmp_seek_pos := 0 |> <| nmp_seek_dir := 0xFF |>)
  | Some NMP_PLAY_SFX => manual_irq (sfx_prepare m)
  | Some NMP_CHECK_FIRMWARE_FILE => Some (done m (Z.lor (code K NMP_CHECK_FIRMWARE_FILE) 0x4000))
  | Some NMP_READ_FIRMWARE_FILE => Some (done m (Z.lor (code K NMP_READ_FIRMWARE_FILE) 0x4000))
  | Some NMP_CLOSE_FIRMWARE_FILE =>
      Some ((done m (Z.lor (code K NMP_CLOSE_FIRMWARE_FILE) 0x4000)) <| cmd := 0 |>)
  | Some NMP_SLEEP => Some (done m (Z.lor (code K NMP_SLEEP) 0x8000))
  | Some NMP_WAKE => Some (done m (Z.lor (code K NMP_WAKE) 0x8000))
  | Some NMP_INIT => Some (done m (code K NMP_INIT))
  | Some NMP_UPDATE_AUDIO =>
      let m := m <| nmp_cmd_status := code K NMP_UPDATE_AUDIO |>
                 <| nmp_valid_command := false |>
                 <| nmp_data_index := 0 |> in
      if is_music_playing m then Some (update_audio_playing m) else Some m
  | Some NMP_HEADPHONE_STATUS =>
      let m := m <| nmp_cmd_status := code K NMP_HEADPHONE_STATUS |>
                 <| nmp_valid_command := true |> in
      Some (headphone_toggle m)
  | None =>
      Some (m <| nmp_valid_command := false |> <| nmp_cmd_status := 0 |>)
  end.

(** ** [AGB_MMU::access_nmp_io] *)

(** [card_data[pos++] = 0x00; card_data[pos++] = chr;] for each character. *)
Fixpoint write_text (pos : Z) (chars : list Z) (data : list Z) : list Z :=
  match chars with
  | [] => data
  | chr :: rest => write_text (pos + 2) rest (store (pos + 1) chr (store pos 0x00 data))
  end.

(** The 528-byte block of the file and folder list. *)
Definition list_block (m : AGB_MMU) : option (list Z) :=
  let data := replicate 528 0x00 in
  if nz (nmp_entry_count m) then
    let folder_limit := u32 (size (folders m)) in
    let real_entry := u32 (nmp_entry_count m - 1) in
    '(list_entry, is_folder) ←
      (if real_entry <? folder_limit then
         e ← at_index (folders m) real_entry; Some (e, true)
       else
         let real_entry := u32 (real_entry - folder_limit) in
         e ← at_index (music_files m) real_entry; Some (e, false));
    let str_len := if 255 <? size (str_bytes list_entry) then 255
                   else size (str_bytes list_entry) in
    let flag := if is_folder : bool then 0x01 else 0x02 in
    let data := store 1 flag (store 0 0x00 data) in
    let data := write_text 2 (take (Z.to_nat str_len) (str_bytes list_entry)) data in
    Some (store 525 flag data)
  else Some data.

(** The 272-byte block of the ID3 data. *)
Definition id3_block (m : AGB_MMU) : list Z :=
  let data := replicate 272 0x00 in
  let data := write_text 4 (take 66 (str_bytes (nmp_title m))) data in
  write_text 136 (take 68 (str_bytes (nmp_artist m))) data.

(** 8-bit quantisation of one source sample with the carried error. *)
Definition dither_sample (src : Z) (error : Z) : Z :=
  let sample := s32 (src + Z.shiftr error 4 * 7) in
  let sample := Z.shiftr sample 8 in
  if 127 <? sample then 127
  else if sample <? -128 then -128
  else sample.

(** The locals of the resampling loop that outlive one iteration. *)
Record chunk := {
  dev : AGB_MMU;
  index : Z;
  sample_count : Z;
  trigger_timestamp : bool
}.

(** [index = (ratio * audio_sample_index); index *= audio_channels;
    index += index_shift;] *)
Definition source_index (is_left_channel : bool) (m : AGB_MMU) : Z :=
  let ratio := Fp.ddiv (Fp.double_of_Z (audio_sample_rate m)) (Fp.double_of_Z 16384) in
  let index_shift := if is_left_channel then 0 else 1 in
  let index := Fp.to_unsigned (undefined_conversion H) 32
                 (Fp.dmul ratio (Fp.double_of_Z (audio_sample_index m))) in
  let index := u32 (index * audio_channels m) in
  u32 (index + index_shift).

(** The rest of an iteration once [e_stream[index]] has been read as
    [src]: dithering, the new error, the output byte, the counters. *)
Definition emit (is_left_channel : bool) (x : Z) (src : Z) (index : Z)
    (c : chunk) (m : AGB_MMU) : chunk :=
  let error := s16 (if is_left_channel then l_audio_dither_error m
                    else r_audio_dither_error m) in
  let sample := dither_sample src error in
  let error := s16 (Z.land src 0xFF) in
  let m := if is_left_channel then m <| l_audio_dither_error := error |>
           else m <| r_audio_dither_error := error |> in
  let offset := if nz (Z.land (audio_sample_index m) 0x01) then x - 1 else x + 1 in
  let m := m <| card_data := store offset (u8 (Z.land sample 0xFF)) (card_data m) |> in
  let m := m <| audio_sample_index := u32 (audio_sample_index m + 1) |> in
  let trigger :=
    if (audio_sample_index m mod 16384 =? 0) && negb is_left_channel then true
    else trigger_timestamp c in
  {| dev := m; index := index; sample_count := u32 (sample_count c + 1);
     trigger_timestamp := trigger |}.

(** One iteration of [for(u32 x = 2; x < limit; x++)]. *)
Definition audio_step (is_left_channel : bool) (x : Z) (c : chunk) : option chunk :=
  let m := dev c in
  let stream_size := u32 (ext_length m / 2) in
  let index := source_index is_left_channel m in
  let at_end := stream_size <=? index in
  let index := if at_end then u32 (stream_size - 1) else index in
  let m := if at_end
           then m <| is_music_playing := false |> <| is_media_playing := false |>
           else m in
  src ← s16 <$> at_index (ext_buffer m) index;
  Some (emit is_left_channel x src index c m).

(** [n] iterations starting with loop variable [x]. *)
Fixpoint audio_loop (is_left_channel : bool) (n : nat) (x : Z) (c : chunk)
  : option chunk :=
  match n with
  | O => Some c
  | S n' =>
      c' ← audio_step is_left_channel x c;
      audio_loop is_left_channel n' (x + 1) c'
  end.

(** The music data block, up to the test of [trigger_timestamp]. *)
Definition audio_block (m : AGB_MMU) : option (AGB_MMU * bool) :=
  let m := m <| card_data := resize (Z.to_nat (audio_buffer_size m + 2)) 0x00 (card_data m) |>
             <| nmp_data_index := 0 |>
             <| audio_frame_count := u32 (audio_frame_count m + 1) |> in
  if nz (audio_sample_rate m) then
    let is_left_channel := nz (Z.land (audio_frame_count m) 0x01) in
    let trigger := negb (nz (audio_sample_index m)) && negb is_left_channel in
    let limit := u32 (audio_buffer_size m / 2 + 2) in
    c ← audio_loop is_left_channel (Z.to_nat (limit - 2)) 2
          {| dev := m; index := 0; sample_count := 0; trigger_timestamp := trigger |};
    let m := dev c in
    let m :=
      if is_left_channel then
        m <| audio_sample_index := u32 (audio_sample_index m - sample_count c) |>
      else m <| ext_last_pos := index c |> in
    Some (m, trigger_timestamp c)
  else Some (m, false).

(** The [else] branch of [access_nmp_io]: access SD card data. *)
Definition access_card_data (m : AGB_MMU) : option AGB_MMU :=
  let m := m <| card_data := [] |> <| op_state := PLAY_YAN_GET_SD_DATA |> in
  if (cmd m =? code K NMP_START_FILE_LIST) || (cmd m =? code K NMP_CONTINUE_FILE_LIST) then
    let m := m <| nmp_data_index := 0 |> in
    data ← list_block m;
    Some (m <| card_data := data |>)
  else if cmd m =? code K NMP_GET_ID3_DATA then
    let m := m <| nmp_data_index := 0 |> in
    Some (m <| card_data := id3_block m |>)
  else if cmd m =? code K NMP_UPDATE_AUDIO then
    if update_audio_stream m then
      '(m, trigger) ← audio_block m;
      if trigger : bool then
        manual_irq (m <| update_audio_stream := false |>
                      <| update_trackbar_timestamp := true |>
                      <| irq_delay := 0 |>)
      else Some m
    else Some m
  else Some m.

(** The first branch of [access_nmp_io]: cart status, command window,
    busy flag. *)
Definition access_status (m : AGB_MMU) : option AGB_MMU :=
  let m := m <| firmware_addr := u32 (Z.shiftl (access_param m) 1) |> in
  '(m, stat_data) ←
    (if access_param m =? 0x100 then
       if nmp_init_stage m <? 4 then
         stat_data ← at_index (nmp_boot_data m) (Z.shiftr (nmp_init_stage m) 1);
         let m := m <| nmp_init_stage := nmp_init_stage m + 1 |> in
         let m := if nmp_init_stage m =? 2
                  then m <| reg_if_hi := Z.lor (reg_if_hi m) 0x20 |> else m in
         Some (m, stat_data)
       else if nz (nmp_cmd_status m) then Some (m, nmp_cmd_status m)
       else Some (m, 0)
     else if access_param m =? 0x10F then
       let m := m <| op_state := PLAY_YAN_PROCESS_CMD |>
                  <| firmware_addr := 0 |>
                  <| command_stream := [] |> in
       let m := if nmp_valid_command m
                then m <| reg_if_hi := Z.lor (reg_if_hi m) 0x20 |>
                       <| nmp_valid_command := false |>
                else m in
       let m := m <| nmp_ticks := u32 (nmp_ticks m + 6) |> in
       Some (m, nmp_ticks m)
     else if access_param m =? 0x110 then
       Some (m <| op_state := PLAY_YAN_WAIT |>, 0)
     else Some (m, 0));
  let stat_data := u16 stat_data in
  let m := status_write 0 (Z.shiftr stat_data 8) m in
  let m := status_write 1 (Z.land stat_data 0xFF) m in
  Some (m <| nmp_data_index := 0 |> <| access_param := 0 |>).

Definition access_nmp_io (m : AGB_MMU) : option AGB_MMU :=
  let m := m <| firmware_addr := 0 |> in
  if nz (access_param m) && negb (access_param m =? 0x101)
     && negb (access_param m =? 0x202)
     && negb (access_param m =? nmp_audio_index m)
  then access_status m
  else access_card_data m.

(** ** [AGB_MMU::write_nmp] and [AGB_MMU::read_nmp] *)

Definition write_nmp (address : Z) (value : Z) (m : AGB_MMU) : option AGB_MMU :=
  if address =? PY_NMP_CNT K then
    let m := m <| access_mode := Z.land (access_mode m) (Z.lnot 0xFF00) |> in
    Some (m <| access_mode := Z.lor (access_mode m) (Z.shiftl value 8) |>)
  else if address =? PY_NMP_CNT K + 1 then
    let m := m <| access_mode := Z.land (access_mode m) (Z.lnot 0xFF) |> in
    let m := m <| access_mode := Z.lor (access_mode m) value |> in
    if (access_mode m =? 0x0808) && bool_decide (op_state m = PLAY_YAN_INIT) then
      Some (m <| irq_delay := 30 |> <| op_state := PLAY_YAN_BOOT_SEQUENCE |>)
    else if (access_mode m =? 0x0404) && bool_decide (op_state m = PLAY_YAN_PROCESS_CMD) then
      match command_stream m with
      | b0 :: b1 :: _ =>
          process_nmp_cmd (m <| cmd := Z.lor (Z.shiftl b0 8) b1 |>)
      | _ => Some m
      end
    else Some m
  else if address =? PY_NMP_PARAMETER K then
    let m := m <| access_param := Z.land (access_param m) (Z.lnot 0xFF00) |> in
    Some (m <| access_param := Z.lor (access_param m) (Z.shiftl value 8) |>)
  else if address =? PY_NMP_PARAMETER K + 1 then
    let m := m <| access_param := Z.land (access_param m) (Z.lnot 0xFF) |> in
    let m := m <| access_param := Z.lor (access_param m) value |> in
    if access_mode m =? 0x1010 then
      Some (m <| access_param := u32 (Z.shiftl (access_param m) 16) |>)
    else if access_mode m =? 0 then access_nmp_io m
    else Some m
  else if (address =? PY_NMP_DATA_IN K) || (address =? PY_NMP_DATA_IN K + 1) then
    if nz (firmware_addr m) then
      if (0 <=? firmware_addr m) && (firmware_addr m <? size (firmware m)) then
        let m := m <| firmware := store (firmware_addr m) value (firmware m) |> in
        Some (m <| firmware_addr := u32 (firmware_addr m + 1) |>)
      else None
    else if bool_decide (op_state m = PLAY_YAN_PROCESS_CMD) then
      Some (m <| command_stream := command_stream m ++ [value] |>)
    else Some m
  else Some m.

(** The byte read and the device after the read. *)
Definition read_nmp (address : Z) (m : AGB_MMU) : option (Z * AGB_MMU) :=
  if (address =? PY_NMP_DATA_OUT K) || (address =? PY_NMP_DATA_OUT K + 1) then
    if bool_decide (op_state m = PLAY_YAN_GET_SD_DATA) then
      if nmp_data_index m <? size (card_data m) then
        result ← at_index (card_data m) (nmp_data_index m);
        Some (result, m <| nmp_data_index := nmp_data_index m + 1 |>)
      else Some (0, m)
    else if nmp_data_index m <? 16 then
      result ← at_index (nmp_status_data m) (nmp_data_index m);
      Some (result, m <| nmp_data_index := nmp_data_index m + 1 |>)
    else Some (0, m)
  else Some (0, m).

End Device.

(** ** The interrupt scheduler *)

(** Modelled from the spec: the interrupt collaborator
    ([process_play_yan_irq] of play_yan.cpp is not among the sources).
    Section 5: a delay counter, decremented once per call, reaches zero and
    asserts the interrupt; a manual interrupt bypasses the delay. Sections
    4.2 and 4.4: the pending command [nmp_manual_cmd] is then re-invoked
    through the dispatcher (the UPDATE_AUDIO tick, the automatic
    STOP_MUSIC). [fuel] bounds the nesting of dispatcher and scheduler. *)
Fixpoint scheduler (K : nmp_consts) (H : host) (fuel : nat) (m : AGB_MMU)
  : option AGB_MMU :=
  match fuel with
  | O => None
  | S fuel' =>
      let fire (m : AGB_MMU) : option AGB_MMU :=
        m' ← process_nmp_cmd K H (scheduler K H fuel') (m <| cmd := nmp_manual_cmd m |>);
        Some (m' <| reg_if_hi := Z.lor (reg_if_hi m') 0x20 |>) in
      if nmp_manual_irq m then fire m
      else if nz (irq_delay m) then
        let m := m <| irq_delay := irq_delay m - 1 |> in
        if nz (irq_delay m) then Some m else fire m
      else Some m
  end.

(** ** A concrete configuration

    One assignment of the constants and collaborators, used to run the
    model. Of the opcode values only 0x8100 occurs in nmp.cpp itself (the
    pending command PLAY_MUSIC sets in headphone mode). *)
Module Sample.

Definition opcode (o : nmp_command) : Z :=
  match o with
  | NMP_START_FILE_LIST => 0x10
  | NMP_CONTINUE_FILE_LIST => 0x11
  | NMP_SET_DIR => 0x20
  | NMP_GET_ID3_DATA => 0x40
  | NMP_PLAY_MUSIC => 0x50
  | NMP_STOP_MUSIC => 0x51
  | NMP_PAUSE => 0x52
  | NMP_RESUME => 0x53
  | NMP_SEEK => 0x60
  | NMP_SET_VOLUME => 0x80
  | NMP_PLAY_SFX => 0x200
  | NMP_CHECK_FIRMWARE_FILE => 0x300
  | NMP_READ_FIRMWARE_FILE => 0x301
  | NMP_CLOSE_FIRMWARE_FILE => 0x303
  | NMP_SLEEP => 0x500
  | NMP_WAKE => 0x501
  | NMP_INIT => 0x8001
  | NMP_UPDATE_AUDIO => 0x8100
  | NMP_HEADPHONE_STATUS => 0x8600
  end.

Definition consts : nmp_consts :=
  {| code := opcode;
     PY_NMP_CNT := 0xE000000;
     PY_NMP_PARAMETER := 0xE004000;
     PY_NMP_DATA_IN := 0xE006000;
     PY_NMP_DATA_OUT := 0xE008000 |}.

(** A card with two folders and one track in every directory; a loader
    that always yields the same four mono samples at 8192 Hz. *)
Definition machine : host :=
  {| get_folders_in_dir := fun _ => ["rock"; "jazz"]%string;
     get_files_in_dir := fun _ _ => ["a.mp3"]%string;
     play_yan_get_id3_data := fun _ => ("Title", "Artist")%string;
     make_ascii_printable := fun s => s;
     play_yan_load_audio := fun _ =>
       {| la_ok := true; la_buffer := [0x1234; -2; 0x7FFF; -0x8000];
          la_length := 8; la_sample_rate := 8192; la_channels := 1;
          la_music_length := 3 |};
     data_path := "/data/";
     undefined_conversion := fun _ => 0 |}.

(** The device before any access. *)
Definition power_on : AGB_MMU :=
  {| access_mode := 0; access_param := 0; op_state := PLAY_YAN_INIT;
     firmware_addr := 0; firmware := replicate 1024 0; command_stream := [];
     cmd := 0; nmp_cmd_status := 0; nmp_valid_command := false;
     nmp_status_data := replicate 16 0; nmp_data_index := 0; card_data := [];
     current_dir := "/music"; current_music_file := "";
     folders := []; music_files := []; nmp_entry_count := 0;
     nmp_title := ""; nmp_artist := "";
     is_music_playing := false; is_media_playing := false;
     audio_sample_index := 0; audio_sample_rate := 0; audio_channels := 0;
     l_audio_dither_error := 0; r_audio_dither_error := 0;
     audio_buffer_size := 0; audio_frame_count := 0; tracker_update_size := 0;
     update_audio_stream := false; update_trackbar_timestamp := false;
     nmp_audio_index := 0; nmp_seek_pos := 0; nmp_seek_dir := 0xFF;
     nmp_seek_count := 0; volume := 0; music_length := 0; cycles := 0;
     irq_delay := 0; last_delay := 0; nmp_manual_cmd := 0;
     nmp_manual_irq := false; nmp_ticks := 0; nmp_init_stage := 0;
     nmp_boot_data := [0x8001; 0x8600];
     ext_playing := false; ext_use_headphones := false; ext_channels := 0;
     ext_frequency := 0; ext_sample_pos := 0; ext_last_pos := 0;
     ext_volume := 0; ext_length := 0; ext_buffer := []; reg_if_hi := 0 |}.

(** The scheduler of the previous section as the interrupt handler. *)
Definition irq : AGB_MMU -> option AGB_MMU := scheduler consts machine 4.

(** A command stream: the opcode in bytes 0-1, then one 16-bit unit per
    character with the character in the low byte. *)
Definition stream_of (op : Z) (arg : list Z) : list Z :=
  [Z.shiftr op 8; Z.land op 0xFF] ++ flat_map (fun c => [0; c]) arg.

(** A sequence of register writes. *)
Fixpoint writes (ws : list (Z * Z)) (m : AGB_MMU) : option AGB_MMU :=
  match ws with
  | [] => Some m
  | (a, v) :: rest => m' ← write_nmp consts machine irq a v m; writes rest m'
  end.

(** Writing a 16-bit register: high byte, then low byte. *)
Definition reg16 (a : Z) (v : Z) : list (Z * Z) :=
  [(a, Z.shiftr v 8); (a + 1, Z.land v 0xFF)].

(** The guest's transaction for one command: open the command window
    (parameter 0x10F under mode 0), send the stream, close with mode
    0x0404. *)
Definition send (stream : list Z) : list (Z * Z) :=
  reg16 (PY_NMP_CNT consts) 0 ++ reg16 (PY_NMP_PARAMETER consts) 0x10F
  ++ ((fun b => (PY_NMP_DATA_IN consts, b)) <$> stream)
  ++ reg16 (PY_NMP_CNT consts) 0x0404.

(** An access trigger: parameter [p] under mode 0. *)
Definition access (p : Z) : list (Z * Z) :=
  reg16 (PY_NMP_CNT consts) 0 ++ reg16 (PY_NMP_PARAMETER consts) p.

End Sample.

(** ** Vocabulary of the properties *)

(** Every field but [nmp_valid_command], [nmp_cmd_status] and
    [nmp_status_data] has the same value in [m'] as in [m]. *)
Definition same_outside_status (m m' : AGB_MMU) : Prop :=
  access_mode m' = access_mode m /\
  access_param m' = access_param m /\
  op_state m' = op_state m /\
  firmware_addr m' = firmware_addr m /\
  firmware m' = firmware m /\
  command_stream m' = command_stream m /\
  cmd m' = cmd m /\
  nmp_data_index m' = nmp_data_index m /\
  card_data m' = card_data m /\
  current_dir m' = current_dir m /\
  current_music_file m' = current_music_file m /\
  folders m' = folders m /\
  music_files m' = music_files m /\
  nmp_entry_count m' = nmp_entry_count m /\
  nmp_title m' = nmp_title m /\
  nmp_artist m' = nmp_artist m /\
  is_music_playing m' = is_music_playing m /\
  is_media_playing m' = is_media_playing m /\
  audio_sample_index m' = audio_sample_index m /\
  audio_sample_rate m' = audio_sample_rate m /\
  audio_channels m' = audio_channels m /\
  l_audio_dither_error m' = l_audio_dither_error m /\
  r_audio_dither_error m' = r_audio_dither_error m /\
  audio_buffer_size m' = audio_buffer_size m /\
  audio_frame_count m' = audio_frame_count m /\
  tracker_update_size m' = tracker_update_size m /\
  update_audio_stream m' = update_audio_stream m /\
  update_trackbar_timestamp m' = update_trackbar_timestamp m /\
  nmp_audio_index m' = nmp_audio_index m /\
  nmp_seek_pos m' = nmp_seek_pos m /\
  nmp_seek_dir m' = nmp_seek_dir m /\
  nmp_seek_count m' = nmp_seek_count m /\
  volume m' = volume m /\
  music_length m' = music_length m /\
  cycles m' = cycles m /\
  irq_delay m' = irq_delay m /\
  last_delay m' = last_delay m /\
  nmp_manual_cmd m' = nmp_manual_cmd m /\
  nmp_manual_irq m' = nmp_manual_irq m /\
  nmp_ticks m' = nmp_ticks m /\
  nmp_init_stage m' = nmp_init_stage m /\
  nmp_boot_data m' = nmp_boot_data m /\
  ext_playing m' = ext_playing m /\
  ext_use_headphones m' = ext_use_headphones m /\
  ext_channels m' = ext_channels m /\
  ext_frequency m' = ext_frequency m /\
  ext_sample_pos m' = ext_sample_pos m /\
  ext_last_pos m' = ext_last_pos m /\
  ext_volume m' = ext_volume m /\
  ext_length m' = ext_length m /\
  ext_buffer m' = ext_buffer m /\
  reg_if_hi m' = reg_if_hi m.

(** [(volume / 46.0) * 63.0] converted to the 8-bit output volume. *)
Definition scaled_volume (H : host) (v : Z) : Z :=
  Fp.to_unsigned (undefined_conversion H) 8
    (Fp.dmul (Fp.ddiv (Fp.double_of_Z v) (Fp.double_of_Z 46)) (Fp.double_of_Z 63)).

(** [nmp_status_data[0..1]] hold the high and the low byte of [c]. *)
Definition echoes (c : Z) (m : AGB_MMU) : Prop :=
  take 2 (nmp_status_data m) = [u8 (Z.shiftr c 8); u8 (Z.land c 0xFF)].

(** What an iteration of the resampling loop keeps: the size of the block
    and the protocol state. *)
Definition block_shape (m : AGB_MMU) : nat * play_yan_state :=
  (length (card_data m), op_state m).

(** The listing calls of the guest. *)
Section ListingCalls.

Variables (K : nmp_consts) (H : host) (irq : AGB_MMU -> option AGB_MMU).

(** One listing command: the dispatch of [o]. *)
Definition list_command (o : nmp_command) (m : AGB_MMU) : option AGB_MMU :=
  process_nmp_cmd K H irq (m <| cmd := code K o |>).

(** [n] CONTINUE_FILE_LIST commands. *)
Fixpoint continue_list (n : nat) (m : AGB_MMU) : option AGB_MMU :=
  match n with
  | O => Some m
  | S n' => m' ← continue_list n' m; list_command NMP_CONTINUE_FILE_LIST m'
  end.

(** START_FILE_LIST and then CONTINUE_FILE_LIST, [S n] calls in all. *)
Definition listing (n : nat) (m : AGB_MMU) : option AGB_MMU :=
  m' ← list_command NMP_START_FILE_LIST m; continue_list n m'.

(** The block of one entry: the type tag in bytes 0-1, the name from byte
    2 on, the flag at byte 525. *)
Definition entry_block (name : string) (is_folder : bool) : list Z :=
  let flag := if is_folder then 0x01 else 0x02 in
  store 525 flag
    (write_text 2 (take 255 (str_bytes name))
       (store 1 flag (store 0 0x00 (replicate 528 0x00)))).

(** The device between two listing calls: the snapshot and the cursor. *)
Record listed (F M : list string) (j : nat) (m : AGB_MMU) : Prop := {
  listed_folders : folders m = F;
  listed_files : music_files m = M;
  listed_count : nmp_entry_count m = Z.of_nat j;
  listed_cmd : cmd m = code K NMP_START_FILE_LIST
               \/ cmd m = code K NMP_CONTINUE_FILE_LIST;
  listed_more : nmp_status_data m !! 2%nat = Some 0;
  listed_done : nmp_status_data m !! 3%nat
                = Some (if bool_decide (length M + length F < j)%nat then 1 else 0)
}.

End ListingCalls.

(** The playback cursor SEEK moves and the unit it moves by: the output
    position and the sample rate in headphone mode, the sample index and
    16384 otherwise. *)
Definition seek_cursor (m : AGB_MMU) : Z :=
  if ext_use_headphones m then ext_sample_pos m else audio_sample_index m.

Definition seek_unit (m : AGB_MMU) : Z :=
  if ext_use_headphones m then audio_sample_rate m else 16384.

(** The direction chosen from the previous and the current position byte. *)
Definition seek_direction (last_pos pos : Z) : Z :=
  if nz last_pos && nz pos then (if pos <? last_pos then 0 else 1) else 0xFF.

(** [tracker_update_size] as the trackbar update recomputes it. *)
Definition elapsed (m : AGB_MMU) : Z :=
  let current_sample_pos :=
    if ext_use_headphones m then ext_sample_pos m else audio_sample_index m in
  let current_sample_rate :=
    if ext_use_headphones m then audio_sample_rate m else 16384 in
  if nz current_sample_rate then current_sample_pos / current_sample_rate
  else tracker_update_size m.

(** The quantisation rule: the source sample plus 7/16 of the carried
    error, shifted down to 8 bits and clipped. *)
Definition quantise (src residual : Z) : Z :=
  let q := Z.shiftr (src + Z.shiftr residual 4 * 7) 8 in
  if 127 <? q then 127 else if q <? -128 then -128 else q.

(** The error carried for a channel. *)
Definition residual (is_left_channel : bool) (m : AGB_MMU) : Z :=
  if is_left_channel then l_audio_dither_error m else r_audio_dither_error m.

(** Where an iteration stores its output byte. *)
Definition output_offset (x : Z) (m : AGB_MMU) : Z :=
  if nz (Z.land (audio_sample_index m) 0x01) then x - 1 else x + 1.

(** The part of the device the resampling loop computes with. *)
Record audio_view := {
  v_left_error : Z;
  v_right_error : Z;
  v_sample_index : Z;
  v_sample_rate : Z;
  v_channels : Z;
  v_length : Z;
  v_buffer : list Z;
  v_block : list Z
}.

Definition view_of (m : AGB_MMU) : audio_view :=
  {| v_left_error := l_audio_dither_error m;
     v_right_error := r_audio_dither_error m;
     v_sample_index := audio_sample_index m;
     v_sample_rate := audio_sample_rate m;
     v_channels := audio_channels m;
     v_length := ext_length m;
     v_buffer := ext_buffer m;
     v_block := card_data m |}.

(** ** Bus traffic *)

(** The case labels of the [switch] in [write_nmp] are pairwise different. *)
Definition distinct_registers (K : nmp_consts) : Prop :=
  NoDup [ PY_NMP_CNT K; PY_NMP_CNT K + 1;
          PY_NMP_PARAMETER K; PY_NMP_PARAMETER K + 1;
          PY_NMP_DATA_IN K; PY_NMP_DATA_IN K + 1 ].

Section Bus.

Variables (K : nmp_consts) (H : host) (irq : AGB_MMU -> option AGB_MMU).

(** Register writes, one after the other. *)
Fixpoint write_seq (ws : list (Z * Z)) (m : AGB_MMU) : option AGB_MMU :=
  match ws with
  | [] => Some m
  | (a, v) :: rest => m' ← write_nmp K H irq a v m; write_seq rest m'
  end.

(** [n] reads of the register at [a]: the bytes read and the device left. *)
Fixpoint read_seq (a : Z) (n : nat) (m : AGB_MMU) : option (list Z * AGB_MMU) :=
  match n with
  | O => Some ([], m)
  | S n' =>
      '(b, m1) ← read_nmp K a m;
      '(bs, m2) ← read_seq a n' m1;
      Some (b :: bs, m2)
  end.

(** The two byte writes of a 16-bit register: high byte, then low byte. *)
Definition write16 (a v : Z) : list (Z * Z) :=
  [(a, Z.shiftr v 8); (a + 1, Z.land v 0xFF)].

(** The bytes of a command sent through the data-in register. *)
Definition data_in (stream : list Z) : list (Z * Z) :=
  (fun b => (PY_NMP_DATA_IN K, b)) <$> stream.

(** One command as the guest issues it: the command window is opened by
    parameter 0x10F under mode 0, the stream is written to data-in, and
    mode 0x0404 ends the input. *)
Definition command_transaction (stream : list Z) : list (Z * Z) :=
  write16 (PY_NMP_CNT K) 0 ++ write16 (PY_NMP_PARAMETER K) 0x10F
  ++ data_in stream ++ write16 (PY_NMP_CNT K) 0x0404.

End Bus.

(** A dispatch with [o] as the opcode. *)
Definition dispatch (K : nmp_consts) (H : host) (irq : AGB_MMU -> option AGB_MMU)
    (o : nmp_command) (m : AGB_MMU) : option AGB_MMU :=
  process_nmp_cmd K H irq (m <| cmd := code K o |>).

(** The commands whose case calls [process_play_yan_irq]. *)
Definition raises_interrupt (o : nmp_command) : bool :=
  match o with
  | NMP_SEEK | NMP_PLAY_SFX => true
  | _ => false
  end.

(** The fields of the register interface and of the responder, which the
    command cases have no assignment to. *)
Definition same_bus_state (m m' : AGB_MMU) : Prop :=
  access_mode m' = access_mode m /\
  access_param m' = access_param m /\
  op_state m' = op_state m /\
  firmware_addr m' = firmware_addr m /\
  firmware m' = firmware m /\
  command_stream m' = command_stream m /\
  card_data m' = card_data m /\
  nmp_ticks m' = nmp_ticks m /\
  nmp_init_stage m' = nmp_init_stage m /\
  nmp_boot_data m' = nmp_boot_data m /\
  reg_if_hi m' = reg_if_hi m.

(** The fields of the player (navigation, playback, interrupt intent,
    external output), which the register interface and the status
    accesses have no assignment to. *)
Definition same_player_state (m m' : AGB_MMU) : Prop :=
  nmp_cmd_status m' = nmp_cmd_status m /\
  current_dir m' = current_dir m /\
  current_music_file m' = current_music_file m /\
  folders m' = folders m /\
  music_files m' = music_files m /\
  nmp_entry_count m' = nmp_entry_count m /\
  nmp_title m' = nmp_title m /\
  nmp_artist m' = nmp_artist m /\
  is_music_playing m' = is_music_playing m /\
  is_media_playing m' = is_media_playing m /\
  audio_sample_index m' = audio_sample_index m /\
  audio_sample_rate m' = audio_sample_rate m /\
  audio_channels m' = audio_channels m /\
  l_audio_dither_error m' = l_audio_dither_error m /\
  r_audio_dither_error m' = r_audio_dither_error m /\
  audio_buffer_size m' = audio_buffer_size m /\
  audio_frame_count m' = audio_frame_count m /\
  tracker_update_size m' = tracker_update_size m /\
  update_audio_stream m' = update_audio_stream m /\
  update_trackbar_timestamp m' = update_trackbar_timestamp m /\
  nmp_audio_index m' = nmp_audio_index m /\
  nmp_seek_pos m' = nmp_seek_pos m /\
  nmp_seek_dir m' = nmp_seek_dir m /\
  nmp_seek_count m' = nmp_seek_count m /\
  volume m' = volume m /\
  music_length m' = music_length m /\
  cycles m' = cycles m /\
  irq_delay m' = irq_delay m /\
  last_delay m' = last_delay m /\
  nmp_manual_cmd m' = nmp_manual_cmd m /\
  nmp_manual_irq m' = nmp_manual_irq m /\
  ext_playing m' = ext_playing m /\
  ext_use_headphones m' = ext_use_headphones m /\
  ext_channels m' = ext_channels m /\
  ext_frequency m' = ext_frequency m /\
  ext_sample_pos m' = ext_sample_pos m /\
  ext_last_pos m' = ext_last_pos m /\
  ext_volume m' = ext_volume m /\
  ext_length m' = ext_length m /\
  ext_buffer m' = ext_buffer m.

(** What the data-out register reads from: the card data while the
    responder is in GET_SD_DATA, the 16 status bytes otherwise. *)
Definition out_buffer (m : AGB_MMU) : list Z :=
  if bool_decide (op_state m = PLAY_YAN_GET_SD_DATA) then card_data m
  else take 16 (nmp_status_data m).

(** A cartridge status poll: an access with parameter 0x100. *)
Definition status_poll (K : nmp_consts) (H : host) (irq : AGB_MMU -> option AGB_MMU)
    (m : AGB_MMU) : option AGB_MMU :=
  access_nmp_io K H irq (m <| access_param := 0x100 |>).

(** The source stream has at least one sample and the buffer holds as
    many samples as [ext_audio.length] announces. *)
Definition source_backed (m : AGB_MMU) : Prop :=
  0 < u32 (ext_length m / 2) <= size (ext_buffer m).

(** The number of iterations of the resampling loop for one chunk. *)
Definition chunk_samples (m : AGB_MMU) : nat :=
  Z.to_nat (u32 (audio_buffer_size m / 2 + 2) - 2).

(** The channel of the chunk an access is about to build. *)
Definition next_is_left (m : AGB_MMU) : bool :=
  nz (Z.land (u32 (audio_frame_count m + 1)) 0x01).

(** What the resampling loop keeps of the device, and the two playing
    flags, which it may clear but never sets. *)
Record loop_frame (m m' : AGB_MMU) : Prop := {
  frame_length : ext_length m' = ext_length m;
  frame_buffer : ext_buffer m' = ext_buffer m;
  frame_rate : audio_sample_rate m' = audio_sample_rate m;
  frame_channels : audio_channels m' = audio_channels m;
  frame_count : audio_frame_count m' = audio_frame_count m;
  frame_cursor : nmp_data_index m' = nmp_data_index m;
  frame_state : op_state m' = op_state m;
  frame_status : nmp_status_data m' = nmp_status_data m;
  frame_music : is_music_playing m' = true -> is_music_playing m = true;
  frame_media : is_media_playing m' = true -> is_media_playing m = true
}.

(** The snapshot of the directory listing and the listing cursor. *)
Definition same_listing (m m' : AGB_MMU) : Prop :=
  folders m' = folders m /\
  music_files m' = music_files m /\
  nmp_entry_count m' = nmp_entry_count m.

(** The status word a status access reports: the boot word while the
    boot handshake is under way, the command status afterwards, the
    advanced tick counter at the command window, and 0 for everything
    else. *)
Definition status_word (m : AGB_MMU) : option Z :=
  if access_param m =? 0x100 then
    if nmp_init_stage m <? 4 then
      at_index (nmp_boot_data m) (Z.shiftr (nmp_init_stage m) 1)
    else Some (nmp_cmd_status m)
  else if access_param m =? 0x10F then Some (u32 (nmp_ticks m + 6))
  else Some 0.

(** Where the iteration with loop variable [x] at sample position [i]
    stores its output byte: the two bytes of a pair are swapped. *)
Definition offset_at (x i : Z) : Z :=
  if nz (Z.land i 0x01) then x - 1 else x + 1.

Section Chunk.

Variables (H : host) (is_left_channel : bool) (m : AGB_MMU).

(** The index into the source stream the iteration at sample position [i]
    reads from: the resampled index, held at the last sample once it has
    run past the end. *)
Definition read_index (i : Z) : Z :=
  let stream_size := u32 (ext_length m / 2) in
  let index := source_index H is_left_channel (m <| audio_sample_index := i |>) in
  if stream_size <=? index then u32 (stream_size - 1) else index.

(** The 16-bit source sample read at sample position [i]. *)
Definition source_sample (i : Z) : Z :=
  default 0 (s16 <$> at_index (ext_buffer m) (read_index i)).

(** The error carried into the [k]-th iteration of a chunk that starts at
    sample position [s]: the channel's stored error for the first
    iteration, the low byte of the previous source sample afterwards. *)
Definition carried (s : Z) (k : nat) : Z :=
  match k with
  | O => s16 (residual is_left_channel m)
  | S k' => Z.land (source_sample (s + Z.of_nat k')) 0xFF
  end.

(** The byte the [k]-th iteration of that chunk is to store. *)
Definition chunk_byte (s : Z) (k : nat) : Z :=
  u8 (Z.land (quantise (source_sample (s + Z.of_nat k)) (carried s k)) 0xFF).

End Chunk.

(** * Properties *)

(** ** Machine integers and containers *)

Lemma u8_range z : 0 <= u8 z < 256.
Proof. unfold u8. change (2 ^ 8) with 256. apply Z.mod_pos_bound. lia. Qed.

Lemma u32_small z : 0 <= z < 2 ^ 32 -> u32 z = z.
Proof. intros Hz. unfold u32. now apply Z.mod_small. Qed.

Lemma u8_small z : 0 <= z < 256 -> u8 z = z.
Proof. intros Hz. unfold u8. now apply Z.mod_small. Qed.

Lemma s32_small z : - 2 ^ 31 <= z < 2 ^ 31 -> s32 z = z.
Proof.
  intros Hz. unfold s32, signed. change (32 - 1) with 31.
  destruct (Z.neg_nonneg_cases z) as [Hneg | Hpos].
  - replace (z mod 2 ^ 32) with (z + 2 ^ 32).
    + destruct (Z.ltb_spec (z + 2 ^ 32) (2 ^ 31)); lia.
    + symmetry. rewrite <- (Z.mod_add z 1 (2 ^ 32)) by lia.
      rewrite Z.mul_1_l. apply Z.mod_small. lia.
  - rewrite Z.mod_small by lia.
    destruct (Z.ltb_spec z (2 ^ 31)); lia.
Qed.

Lemma at_index_nat {A : Type} (l : list A) (n : nat) :
  at_index l (Z.of_nat n) = l !! n.
Proof.
  unfold at_index. destruct (Z.leb_spec 0 (Z.of_nat n)); [| lia].
  now rewrite Nat2Z.id.
Qed.

Example assign_reads_back (m : AGB_MMU) :
  cmd (m <| cmd := 7 |>) = 7 /\ irq_delay (m <| cmd := 7 |>) = irq_delay m.
Proof. split; reflexivity. Qed.

Example name_skips_marker :
  stream_name [0; 0x20; 0; 1; 0; 0x61; 0; 0x62; 0; 0] = "ab"%string
  /\ stream_name [0; 0x20; 0; 0x2E; 0; 0x2E] = ".."%string
  /\ stream_name [0; 0x20; 0] = ""%string.
Proof. repeat split; reflexivity. Qed.

Example parent_dir_examples :
  parent_dir "/music/rock" = Some "/music"%string
  /\ parent_dir "/music" = Some ""%string
  /\ parent_dir "" = None /\ parent_dir "music" = None.
Proof. repeat split; reflexivity. Qed.

(** ** Decoding the opcode *)

Section Decode.

Context {A : Type} (f : A -> Z).

Lemma find_code_none (z : Z) (l : list A) :
  (forall a, a ∈ l -> f a <> z) -> List.find (fun a => f a =? z) l = None.
Proof.
  induction l as [| a l IH]; intros Hne; simpl; [reflexivity |].
  destruct (Z.eqb_spec (f a) z) as [Heq | _].
  - exfalso. apply (Hne a); [left | exact Heq].
  - apply IH. intros b Hb. apply Hne. now right.
Qed.

Lemma find_code_some (a : A) (l : list A) :
  NoDup (f <$> l) -> a ∈ l -> List.find (fun b => f b =? f a) l = Some a.
Proof.
  induction l as [| b l IH]; intros Hnd Hin; [inversion Hin |].
  simpl. rewrite fmap_cons in Hnd. apply NoDup_cons in Hnd as [Hfresh Hnd].
  destruct (Z.eqb_spec (f b) (f a)) as [Heq | Hne].
  - apply elem_of_cons in Hin as [-> | Hin]; [reflexivity |].
    exfalso. apply Hfresh. rewrite Heq. apply list_elem_of_fmap. eauto.
  - apply elem_of_cons in Hin as [-> | Hin]; [congruence |]. now apply IH.
Qed.

End Decode.

Lemma all_commands_complete (o : nmp_command) : o ∈ all_commands.
Proof. destruct o; unfold all_commands; repeat constructor. Qed.

Lemma decode_code (K : nmp_consts) (o : nmp_command) :
  distinct_codes K -> decode K (code K o) = Some o.
Proof.
  intros Hd. apply find_code_some; [exact Hd | apply all_commands_complete].
Qed.

Lemma decode_unknown (K : nmp_consts) (z : Z) :
  (forall o, code K o <> z) -> decode K z = None.
Proof. intros Hne. apply find_code_none. intros o _. apply Hne. Qed.

Lemma code_inj (K : nmp_consts) (a b : nmp_command) :
  distinct_codes K -> code K a = code K b -> a = b.
Proof.
  intros Hd Heq. pose proof (decode_code K a Hd) as Ha.
  rewrite Heq, (decode_code K b Hd) in Ha. congruence.
Qed.

Lemma sample_codes_distinct : distinct_codes Sample.consts.
Proof. apply (bool_decide_unpack _). vm_compute. reflexivity. Qed.

(** ** Proof tools *)

(** Selects the case of [process_nmp_cmd] for the opcode in [Hcmd]. *)
Ltac enter_case Hd Hcmd :=
  unfold process_nmp_cmd; cbv zeta; simpl (cmd _);
  rewrite Hcmd, (decode_code _ _ Hd); cbv iota beta.

(** Splits on the conditions left in the goal. *)
Ltac split_ifs :=
  repeat match goal with
         | |- context [if ?b then _ else _] => destruct b
         end.

(** Equations between options and pairs of devices, taken apart without
    looking into the device. *)
Ltac unsome H := apply (inj Some) in H.
Ltac unpair H E1 E2 :=
  pose proof (f_equal fst H) as E1; pose proof (f_equal snd H) as E2;
  cbn [fst snd] in E1, E2; clear H.

(** Closed comparisons between integers, by evaluation. *)
Ltac evaluate := vm_compute; repeat split; (discriminate || reflexivity).

(** ** Unrecognised opcodes *)

(** C10. For an opcode that is none of the case labels, dispatch sets
    [nmp_valid_command] to false, [nmp_cmd_status] to 0 and the status
    buffer to the opcode echo followed by fourteen zero bytes, and leaves
    every other field of the device as it was. *)
Theorem unknown_opcode_frame (K : nmp_consts) (H : host)
    (irq : AGB_MMU -> option AGB_MMU) (m : AGB_MMU) :
  (forall o, code K o <> cmd m) ->
  exists m',
    process_nmp_cmd K H irq m = Some m'
    /\ nmp_valid_command m' = false
    /\ nmp_cmd_status m' = 0
    /\ nmp_status_data m'
       = u8 (Z.shiftr (cmd m) 8) :: u8 (Z.land (cmd m) 0xFF) :: replicate 14 0
    /\ same_outside_status m m'.
Proof.
  intros Hnew. unfold process_nmp_cmd. cbv zeta. simpl (cmd _).
  rewrite (decode_unknown K (cmd m) Hnew).
  eexists. split; [reflexivity |].
  split; [reflexivity |]. split; [reflexivity |].
  split.
  - reflexivity.
  - unfold same_outside_status. repeat split.
Qed.

Lemma unknown_opcode_frame_witness :
  exists m',
    process_nmp_cmd Sample.consts Sample.machine Sample.irq
      (Sample.power_on <| cmd := 0x1234 |>) = Some m'
    /\ nmp_valid_command m' = false
    /\ nmp_cmd_status m' = 0
    /\ nmp_status_data m' = 0x12 :: 0x34 :: replicate 14 0
    /\ same_outside_status (Sample.power_on <| cmd := 0x1234 |>) m'.
Proof.
  refine (unknown_opcode_frame Sample.consts Sample.machine Sample.irq
            (Sample.power_on <| cmd := 0x1234 |>) _).
  intros o. destruct o; vm_compute; discriminate.
Defined.

(** ** Status reply of the completion-tracked commands *)

Lemma seek_prepare_cmd_status (K : nmp_consts) (m : AGB_MMU) :
  nmp_cmd_status (seek_prepare K m) = nmp_cmd_status m.
Proof. unfold seek_prepare. cbv zeta beta. split_ifs; reflexivity. Qed.

(** C1. The status reply of the completion-tracked commands. START_FILE_LIST,
    CONTINUE_FILE_LIST, GET_ID3_DATA, PLAY_MUSIC, STOP_MUSIC, PAUSE and the
    three firmware commands reply their own opcode OR 0x4000; so does
    SET_DIR whenever it returns, and SEEK in the device it returns or
    hands to the interrupt handler. RESUME does not: it replies the
    opcode of PAUSE OR 0x4000. *)
Theorem tracked_status_reply (K : nmp_consts) (H : host)
    (irq : AGB_MMU -> option AGB_MMU) :
  distinct_codes K ->
  (forall o m,
      o ∈ [NMP_START_FILE_LIST; NMP_CONTINUE_FILE_LIST; NMP_GET_ID3_DATA;
           NMP_PLAY_MUSIC; NMP_STOP_MUSIC; NMP_PAUSE; NMP_CHECK_FIRMWARE_FILE;
           NMP_READ_FIRMWARE_FILE; NMP_CLOSE_FIRMWARE_FILE] ->
      cmd m = code K o ->
      exists m', process_nmp_cmd K H irq m = Some m'
                 /\ nmp_cmd_status m' = Z.lor (code K o) 0x4000)
  /\ (forall m m',
         cmd m = code K NMP_SET_DIR ->
         process_nmp_cmd K H irq m = Some m' ->
         nmp_cmd_status m' = Z.lor (code K NMP_SET_DIR) 0x4000)
  /\ (forall m,
         cmd m = code K NMP_SEEK ->
         exists p,
           process_nmp_cmd K H irq m
           = (if 4 <=? size (command_stream m) then manual_irq irq p else Some p)
           /\ nmp_cmd_status p = Z.lor (code K NMP_SEEK) 0x4000)
  /\ (forall m,
         cmd m = code K NMP_RESUME ->
         exists m', process_nmp_cmd K H irq m = Some m'
                    /\ nmp_cmd_status m' = Z.lor (code K NMP_PAUSE) 0x4000).
Proof.
  intros Hd. split; [| split; [| split]].
  - intros o m Ho Hcmd.
    repeat (apply elem_of_cons in Ho as [-> | Ho]);
      [ .. | inversion Ho ];
      enter_case Hd Hcmd; eexists; (split; [reflexivity |]);
      simpl; split_ifs; reflexivity.
  - intros m m' Hcmd Hrun. unfold process_nmp_cmd in Hrun. cbv zeta in Hrun.
    simpl (cmd _) in Hrun. rewrite Hcmd, (decode_code _ _ Hd) in Hrun.
    cbv iota beta in Hrun.
    destruct (String.eqb _ _) in Hrun;
      [ destruct (parent_dir _) in Hrun; [| discriminate]
      | destruct (negb _) in Hrun ];
      cbn [mbind option_bind] in Hrun; unsome Hrun; subst m'; reflexivity.
  - intros m Hcmd. enter_case Hd Hcmd. simpl (command_stream _).
    destruct (4 <=? size (command_stream m)).
    + eexists. split; [reflexivity |]. now rewrite seek_prepare_cmd_status.
    + eexists. split; [reflexivity |]. reflexivity.
  - intros m Hcmd. enter_case Hd Hcmd. simpl.
    split_ifs; eexists; (split; [reflexivity |]); reflexivity.
Qed.

Lemma tracked_status_reply_witness :
  exists m',
    process_nmp_cmd Sample.consts Sample.machine Sample.irq
      (Sample.power_on <| cmd := 0x53 |>) = Some m'
    /\ nmp_cmd_status m' = 0x4052.
Proof.
  destruct (tracked_status_reply Sample.consts Sample.machine Sample.irq
              sample_codes_distinct) as (_ & _ & _ & Hresume).
  exact (Hresume (Sample.power_on <| cmd := 0x53 |>) eq_refl).
Defined.

(** RESUME (0x53 in the sample configuration) replies 0x4052, not 0x4053. *)
Example resume_status_sample :
  nmp_cmd_status <$>
    process_nmp_cmd Sample.consts Sample.machine Sample.irq
      (Sample.power_on <| cmd := 0x53 |>) = Some 0x4052.
Proof. reflexivity. Qed.

(** ** SET_DIR with the name ".." *)

Lemma trim_to_slash_none (r : list ascii) :
  "/"%char ∉ r -> trim_to_slash r = None.
Proof.
  induction r as [| c r IH]; intros Hno; simpl; [reflexivity |].
  destruct (Ascii.eqb_spec c "/"%char) as [-> | _].
  - exfalso. apply Hno. left.
  - apply IH. intros Hin. apply Hno. now right.
Qed.

Lemma parent_dir_none (dir : string) :
  "/"%char ∉ String.list_ascii_of_string dir -> parent_dir dir = None.
Proof.
  intros Hno. unfold parent_dir. rewrite trim_to_slash_none; [reflexivity |].
  intros Hin. apply Hno. apply list_elem_of_In, in_rev.
  now apply list_elem_of_In.
Qed.

(** SET_DIR with the name ".." is [parent_dir] on [current_dir]. *)
Lemma set_dir_up (K : nmp_consts) (H : host) (irq : AGB_MMU -> option AGB_MMU)
    (m : AGB_MMU) :
  distinct_codes K ->
  cmd m = code K NMP_SET_DIR ->
  stream_name (command_stream m) = ".."%string ->
  process_nmp_cmd K H irq m
  = up ← parent_dir (current_dir m);
    Some (m <| nmp_status_data := default_status (cmd m) |>
            <| nmp_cmd_status := Z.lor (code K NMP_SET_DIR) 0x4000 |>
            <| nmp_valid_command := true |>
            <| current_dir := up |>).
Proof.
  intros Hd Hcmd Hname. enter_case Hd Hcmd. simpl (command_stream _).
  rewrite Hname. simpl (String.eqb _ _). cbv iota. reflexivity.
Qed.

(** C3. SET_DIR ".." goes from "/music/rock" to "/music" and from "/music"
    to the empty string. The loop is not protected against underflow: on
    an empty [current_dir], and on any [current_dir] without a '/', it
    reads [back()] of an empty string; the empty [current_dir] is what
    SET_DIR ".." itself leaves behind from "/music", so a second ".."
    underflows. *)
Theorem set_dir_up_underflow (K : nmp_consts) (H : host)
    (irq : AGB_MMU -> option AGB_MMU) (m : AGB_MMU) :
  distinct_codes K ->
  cmd m = code K NMP_SET_DIR ->
  stream_name (command_stream m) = ".."%string ->
  (current_dir m = "/music/rock"%string ->
     current_dir <$> process_nmp_cmd K H irq m = Some "/music"%string)
  /\ (current_dir m = "/music"%string ->
        current_dir <$> process_nmp_cmd K H irq m = Some ""%string
        /\ (process_nmp_cmd K H irq m ≫= process_nmp_cmd K H irq) = None)
  /\ ("/"%char ∉ String.list_ascii_of_string (current_dir m) ->
        process_nmp_cmd K H irq m = None).
Proof.
  intros Hd Hcmd Hname. rewrite (set_dir_up K H irq m Hd Hcmd Hname).
  split; [| split].
  - intros ->. reflexivity.
  - intros ->. split; [reflexivity |]. simpl.
    rewrite set_dir_up; [reflexivity | exact Hd | exact Hcmd | exact Hname].
  - intros Hno. rewrite parent_dir_none by exact Hno. reflexivity.
Qed.

Lemma set_dir_up_underflow_witness :
  let m := Sample.power_on <| cmd := 0x20 |>
             <| command_stream := Sample.stream_of 0x20 [0x2E; 0x2E] |> in
  current_dir <$> process_nmp_cmd Sample.consts Sample.machine Sample.irq m
  = Some ""%string
  /\ (process_nmp_cmd Sample.consts Sample.machine Sample.irq m
      ≫= process_nmp_cmd Sample.consts Sample.machine Sample.irq) = None.
Proof.
  intros m.
  refine (proj1 (proj2 (set_dir_up_underflow Sample.consts Sample.machine
                          Sample.irq m sample_codes_distinct _ _)) _);
    reflexivity.
Defined.

(** ** SET_VOLUME *)

(** On the device range the double arithmetic and the truncation give the
    integer quotient [63 * v / 46]; checked value by value. *)
Lemma scaled_volume_table (H : host) :
  forallb (fun n => scaled_volume H (Z.of_nat n) =? 63 * Z.of_nat n / 46)
          (seq 0 47) = true.
Proof. vm_compute. reflexivity. Qed.

Lemma scaled_volume_floor (H : host) (v : Z) :
  0 <= v <= 46 -> scaled_volume H v = 63 * v / 46.
Proof.
  intros Hv. pose proof (scaled_volume_table H) as Ht.
  rewrite forallb_forall in Ht.
  specialize (Ht (Z.to_nat v)). rewrite Z2Nat.id in Ht by lia.
  apply Z.eqb_eq, Ht. apply in_seq. lia.
Qed.

(** The device after SET_VOLUME on a stream of four bytes or more. *)
Lemma set_volume_result (K : nmp_consts) (H : host)
    (irq : AGB_MMU -> option AGB_MMU) (m : AGB_MMU) :
  distinct_codes K ->
  cmd m = code K NMP_SET_VOLUME ->
  4 <= size (command_stream m) ->
  process_nmp_cmd K H irq m
  = let v := u8 (default 0 (at_index (command_stream m) 3)) in
    Some (m <| nmp_status_data := default_status (cmd m) |>
            <| volume := v |> <| ext_volume := scaled_volume H v |>
            <| nmp_seek_pos := 0 |> <| nmp_seek_dir := 0xFF |>).
Proof.
  intros Hd Hcmd Hsize. apply Z.leb_le in Hsize.
  enter_case Hd Hcmd. simpl (command_stream _). rewrite Hsize. reflexivity.
Qed.

(** C4. SET_VOLUME with volume byte [v] in [0,46] sets the external volume
    to [v] scaled linearly from [0,46] to [0,63], the fraction dropped:
    31 for 23, 63 for 46, 0 for 0. No interrupt is issued: the interrupt
    handler is not entered, and the pending-interrupt fields, the
    completion flag, the status reply and the interrupt flag register keep
    their values. *)
Theorem set_volume_scaling (K : nmp_consts) (H : host)
    (irq : AGB_MMU -> option AGB_MMU) (m : AGB_MMU) (v : Z) :
  distinct_codes K ->
  cmd m = code K NMP_SET_VOLUME ->
  command_stream m !! 3%nat = Some v ->
  0 <= v <= 46 ->
  exists m',
    process_nmp_cmd K H irq m = Some m'
    /\ ext_volume m' = 63 * v / 46
    /\ (v = 23 -> ext_volume m' = 31)
    /\ (v = 46 -> ext_volume m' = 63)
    /\ (v = 0 -> ext_volume m' = 0)
    /\ process_nmp_cmd K H (fun _ => None) m = Some m'
    /\ irq_delay m' = irq_delay m
    /\ nmp_manual_cmd m' = nmp_manual_cmd m
    /\ nmp_manual_irq m' = nmp_manual_irq m
    /\ nmp_valid_command m' = nmp_valid_command m
    /\ nmp_cmd_status m' = nmp_cmd_status m
    /\ reg_if_hi m' = reg_if_hi m.
Proof.
  intros Hd Hcmd Hv Hrange.
  assert (Hsize : 4 <= size (command_stream m)).
  { unfold size. apply lookup_lt_Some in Hv. lia. }
  rewrite !(set_volume_result K H _ m Hd Hcmd Hsize).
  rewrite (at_index_nat _ 3), Hv. cbv zeta. simpl (default _ _).
  rewrite u8_small by lia.
  eexists. split; [reflexivity |].
  assert (Hvol : scaled_volume H v = 63 * v / 46) by now apply scaled_volume_floor.
  split; [exact Hvol |].
  split; [intros ->; exact Hvol |].
  split; [intros ->; exact Hvol |].
  split; [intros ->; exact Hvol |].
  repeat split.
Qed.

Lemma set_volume_scaling_witness :
  exists m',
    process_nmp_cmd Sample.consts Sample.machine Sample.irq
      (Sample.power_on <| cmd := 0x80 |>
         <| command_stream := Sample.stream_of 0x80 [23] |>) = Some m'
    /\ ext_volume m' = 31.
Proof.
  destruct (set_volume_scaling Sample.consts Sample.machine Sample.irq
              (Sample.power_on <| cmd := 0x80 |>
                 <| command_stream := Sample.stream_of 0x80 [23] |>) 23)
    as (m' & Hrun & _ & Hvol & _);
    [exact sample_codes_distinct | reflexivity | reflexivity | lia |].
  exists m'. split; [exact Hrun | exact (Hvol eq_refl)].
Defined.

(** ** The opcode echo in the status buffer *)

Lemma take2_store (i v : Z) (l : list Z) :
  2 <= i -> take 2 (store i v l) = take 2 l.
Proof. intros Hi. unfold store. apply take_insert_ge. lia. Qed.

Lemma echoes_status_write (c i v : Z) (m : AGB_MMU) :
  2 <= i -> echoes c m -> echoes c (status_write i v m).
Proof.
  unfold echoes, status_write. simpl. intros Hi He. now rewrite take2_store.
Qed.

Lemma echoes_default (c : Z) (m : AGB_MMU) :
  nmp_status_data m = default_status c -> echoes c m.
Proof. unfold echoes. intros ->. reflexivity. Qed.

(** [echoes] only looks at the status buffer. *)
Lemma echoes_same_status (c : Z) (m m' : AGB_MMU) :
  nmp_status_data m' = nmp_status_data m -> echoes c m -> echoes c m'.
Proof. unfold echoes. now intros ->. Qed.

(** Simplifies the status buffer of a device built by field assignments
    and status writes at offsets from 2 on. *)
Ltac status_prefix :=
  cbv zeta beta; split_ifs; unfold status_write; simpl;
  rewrite ?take2_store by lia; try reflexivity.

Lemma update_audio_playing_prefix (K : nmp_consts) (H : host) (m : AGB_MMU) :
  take 2 (nmp_status_data (update_audio_playing K H m)) = take 2 (nmp_status_data m).
Proof. unfold update_audio_playing. status_prefix. Qed.

Lemma headphone_toggle_prefix (K : nmp_consts) (H : host) (m : AGB_MMU) :
  take 2 (nmp_status_data (headphone_toggle K H m)) = take 2 (nmp_status_data m).
Proof. unfold headphone_toggle. status_prefix. Qed.

Lemma seek_prepare_status (K : nmp_consts) (m : AGB_MMU) :
  nmp_status_data (seek_prepare K m) = nmp_status_data m.
Proof. unfold seek_prepare. status_prefix. Qed.

Lemma sfx_prepare_status (K : nmp_consts) (H : host) (m : AGB_MMU) :
  nmp_status_data (sfx_prepare K H m) = nmp_status_data m.
Proof. unfold sfx_prepare. status_prefix. Qed.

#[local] Arguments update_audio_playing : simpl never.
#[local] Arguments headphone_toggle : simpl never.
#[local] Arguments seek_prepare : simpl never.
#[local] Arguments sfx_prepare : simpl never.
#[local] Arguments default_status : simpl never.
#[local] Arguments manual_irq : simpl never.

Lemma take2_default (c : Z) :
  take 2 (default_status c) = [u8 (Z.shiftr c 8); u8 (Z.land c 0xFF)].
Proof. unfold default_status, store. simpl. reflexivity. Qed.

(** After a dispatch that raises no interrupt the echo is in place. *)
Lemma dispatch_echo (K : nmp_consts) (H : host) (irq : AGB_MMU -> option AGB_MMU)
    (m m' : AGB_MMU) :
  process_nmp_cmd K H irq m = Some m' ->
  decode K (cmd m) <> Some NMP_PLAY_SFX ->
  (decode K (cmd m) = Some NMP_SEEK -> size (command_stream m) < 4) ->
  echoes (cmd m) m'.
Proof.
  intros Hrun Hsfx Hseek. unfold echoes. rewrite <- take2_default.
  unfold process_nmp_cmd in Hrun. cbv zeta in Hrun. simpl (cmd _) in Hrun.
  destruct (decode K (cmd m)) as [[] |] eqn:Hdec;
    try congruence;
    try (apply (inj Some) in Hrun; subst m'; status_prefix; fail).
  - (* SET_DIR *)
    destruct (String.eqb _ _) in Hrun;
      [ destruct (parent_dir _) in Hrun; [simpl in Hrun | discriminate]
      | destruct (negb _) in Hrun ];
      apply (inj Some) in Hrun; subst m'; status_prefix.
  - (* RESUME *)
    repeat case_match; apply (inj Some) in Hrun; subst m'; status_prefix.
  - (* SEEK *)
    specialize (Hseek eq_refl). simpl (command_stream _) in Hrun.
    destruct (Z.leb_spec 4 (size (command_stream m))) as [Hge | _]; [lia |].
    apply (inj Some) in Hrun; subst m'; status_prefix.
  - (* UPDATE_AUDIO *)
    case_match; apply (inj Some) in Hrun; subst m'.
    + rewrite update_audio_playing_prefix. status_prefix.
    + status_prefix.
  - (* HEADPHONE_STATUS *)
    apply (inj Some) in Hrun; subst m'.
    rewrite headphone_toggle_prefix. status_prefix.
Qed.

Lemma take2_store01 (a b : Z) (l : list Z) :
  (2 <= length l)%nat -> take 2 (store 1 b (store 0 a l)) = [a; b].
Proof.
  intros Hl. destruct l as [| x [| y l]]; simpl in Hl; try lia. reflexivity.
Qed.

(** The tail of [access_status]: the two leading status bytes are replaced
    by the bytes of the 16-bit status word. *)
Lemma status_word_echo (stat : Z) (m : AGB_MMU) :
  (2 <= length (nmp_status_data m))%nat ->
  echoes (u16 stat)
    ((status_write 1 (Z.land (u16 stat) 0xFF)
        (status_write 0 (Z.shiftr (u16 stat) 8) m))
       <| nmp_data_index := 0 |> <| access_param := 0 |>).
Proof.
  intros Hl. unfold echoes, status_write. simpl. now apply take2_store01.
Qed.

Lemma read_keeps_status (K : nmp_consts) (a r : Z) (m m' : AGB_MMU) :
  read_nmp K a m = Some (r, m') -> nmp_status_data m' = nmp_status_data m.
Proof.
  unfold read_nmp. intros Hrun.
  repeat case_match;
    try (destruct (at_index _ _) in Hrun; [simpl in Hrun | discriminate]);
    unsome Hrun; unpair Hrun E1 E2; subst m'; reflexivity.
Qed.

Lemma emit_status (left : bool) (x src i : Z) (c : chunk) (m : AGB_MMU) :
  nmp_status_data (dev (emit left x src i c m)) = nmp_status_data m.
Proof. unfold emit. cbv zeta. simpl. destruct left; reflexivity. Qed.

Lemma audio_step_status (H : host) (left : bool) (x : Z) (c c' : chunk) :
  audio_step H left x c = Some c' ->
  nmp_status_data (dev c') = nmp_status_data (dev c).
Proof.
  unfold audio_step. cbv zeta. intros Hs.
  match type of Hs with
  | (?e ≫= _) = _ => destruct e as [src |]; [| discriminate]
  end.
  simpl in Hs. unsome Hs. subst c'. rewrite emit_status.
  case_match; reflexivity.
Qed.

Lemma audio_loop_status (H : host) (left : bool) (n : nat) (x : Z) (c c' : chunk) :
  audio_loop H left n x c = Some c' ->
  nmp_status_data (dev c') = nmp_status_data (dev c).
Proof.
  revert x c. induction n as [| n IH]; intros x c Hl; simpl in Hl.
  - unsome Hl. now subst.
  - destruct (audio_step H left x c) as [c1 |] eqn:Hs; [| discriminate].
    simpl in Hl. rewrite (IH _ _ Hl). now apply audio_step_status in Hs.
Qed.

Lemma audio_block_status (H : host) (m m1 : AGB_MMU) (t : bool) :
  audio_block H m = Some (m1, t) -> nmp_status_data m1 = nmp_status_data m.
Proof.
  unfold audio_block. cbv zeta. intros Hb.
  destruct (nz _) in Hb.
  - match type of Hb with
    | (?e ≫= _) = _ => destruct e as [c |] eqn:Hl; [| discriminate]
    end.
    cbn [mbind option_bind] in Hb. unsome Hb. unpair Hb E1 E2. subst m1.
    apply audio_loop_status in Hl. simpl in Hl.
    destruct (nz (Z.land _ _)); simpl; exact Hl.
  - unsome Hb. unpair Hb E1 E2. subst m1. reflexivity.
Qed.

(** A register write keeps the status buffer unless it ends a command or
    triggers an access. *)
Lemma write_keeps_status (K : nmp_consts) (H : host)
    (irq : AGB_MMU -> option AGB_MMU) (a v : Z) (m m' : AGB_MMU) :
  write_nmp K H irq a v m = Some m' ->
  nmp_status_data m' = nmp_status_data m
  \/ (exists b0 b1 rest,
        a = PY_NMP_CNT K + 1
        /\ Z.lor (Z.land (access_mode m) (Z.lnot 0xFF)) v = 0x0404
        /\ op_state m = PLAY_YAN_PROCESS_CMD
        /\ command_stream m = b0 :: b1 :: rest
        /\ process_nmp_cmd K H irq
             (m <| access_mode := 0x0404 |> <| cmd := Z.lor (Z.shiftl b0 8) b1 |>)
           = Some m')
  \/ (a = PY_NMP_PARAMETER K + 1
      /\ access_mode m = 0
      /\ access_nmp_io K H irq
           (m <| access_param := Z.lor (Z.land (access_param m) (Z.lnot 0xFF)) v |>)
         = Some m').
Proof.
  unfold write_nmp. intros Hw.
  destruct (Z.eqb_spec a (PY_NMP_CNT K)) as [_ | _].
  { unsome Hw. subst m'. left. reflexivity. }
  destruct (Z.eqb_spec a (PY_NMP_CNT K + 1)) as [Ha | _].
  { cbv zeta in Hw. simpl (access_mode _) in Hw. simpl (op_state _) in Hw.
    simpl (command_stream _) in Hw.
    destruct (_ && _) in Hw; [unsome Hw; subst m'; left; reflexivity |].
    destruct (Z.eqb_spec (Z.lor (Z.land (access_mode m) (Z.lnot 0xFF)) v) 0x0404)
      as [Hmode | _]; [| unsome Hw; subst m'; left; reflexivity].
    destruct (decide (op_state m = PLAY_YAN_PROCESS_CMD)) as [Hop | Hop];
      [ rewrite bool_decide_eq_true_2 in Hw by exact Hop
      | rewrite bool_decide_eq_false_2 in Hw by exact Hop;
        unsome Hw; subst m'; left; reflexivity ].
    cbn [andb] in Hw.
    destruct (command_stream m) as [| b0 [| b1 rest]] eqn:Hcs;
      try (unsome Hw; subst m'; left; reflexivity).
    right. left. exists b0, b1, rest.
    rewrite Hmode in Hw.
    split; [exact Ha |]. split; [exact Hmode |]. split; [exact Hop |].
    split; [reflexivity |]. rewrite <- Hw. reflexivity. }
  destruct (Z.eqb_spec a (PY_NMP_PARAMETER K)) as [_ | _].
  { unsome Hw. subst m'. left. reflexivity. }
  destruct (Z.eqb_spec a (PY_NMP_PARAMETER K + 1)) as [Ha | _].
  { cbv zeta in Hw. simpl (access_mode _) in Hw. simpl (access_param _) in Hw.
    destruct (access_mode m =? 0x1010); [unsome Hw; subst m'; left; reflexivity |].
    destruct (Z.eqb_spec (access_mode m) 0) as [Hmode | _];
      [| unsome Hw; subst m'; left; reflexivity].
    right. right. split; [exact Ha |]. split; [exact Hmode |].
    rewrite <- Hw. reflexivity. }
  destruct (_ || _) in Hw; [| unsome Hw; subst m'; left; reflexivity].
  destruct (nz _) in Hw.
  - destruct (_ && _) in Hw; [| discriminate].
    unsome Hw. subst m'. left. reflexivity.
  - destruct (bool_decide _) in Hw; unsome Hw; subst m'; left; reflexivity.
Qed.

(** A data block access keeps the status buffer, in the device it returns
    or in the one it hands to the interrupt handler. *)
Lemma card_access_keeps_status (K : nmp_consts) (H : host)
    (irq : AGB_MMU -> option AGB_MMU) (m m' : AGB_MMU) :
  access_card_data K H irq m = Some m' ->
  nmp_status_data m' = nmp_status_data m
  \/ (exists mb,
        cmd m = code K NMP_UPDATE_AUDIO
        /\ update_audio_stream m = true
        /\ audio_block H (m <| card_data := [] |> <| op_state := PLAY_YAN_GET_SD_DATA |>)
           = Some (mb, true)
        /\ nmp_status_data mb = nmp_status_data m
        /\ manual_irq irq (mb <| update_audio_stream := false |>
                              <| update_trackbar_timestamp := true |>
                              <| irq_delay := 0 |>) = Some m').
Proof.
  unfold access_card_data. cbv zeta. simpl (cmd _). simpl (update_audio_stream _).
  intros Hrun.
  destruct (_ || _) in Hrun.
  { match type of Hrun with
    | (?e ≫= _) = _ => destruct e as [data |]; [| discriminate]
    end.
    cbn [mbind option_bind] in Hrun. unsome Hrun. subst m'. left. reflexivity. }
  destruct (cmd m =? code K NMP_GET_ID3_DATA).
  { unsome Hrun. subst m'. left. reflexivity. }
  destruct (Z.eqb_spec (cmd m) (code K NMP_UPDATE_AUDIO)) as [Hcmd | _];
    [| unsome Hrun; subst m'; left; reflexivity].
  destruct (update_audio_stream m) eqn:Hstream;
    [| unsome Hrun; subst m'; left; reflexivity].
  match type of Hrun with
  | (?e ≫= _) = _ => destruct e as [[mb t] |] eqn:Hb; [| discriminate]
  end.
  cbn [mbind option_bind] in Hrun.
  pose proof (audio_block_status _ _ _ _ Hb) as Hst. simpl in Hst.
  destruct t.
  - right. exists mb. repeat split; assumption.
  - unsome Hrun. subst m'. left. exact Hst.
Qed.

(** A status access returns and leaves the bytes of its status word in
    front of the status buffer. *)
Lemma status_access_word (m : AGB_MMU) (w : Z) :
  (2 <= length (nmp_status_data m))%nat ->
  status_word m = Some w ->
  exists m', access_status m = Some m' /\ echoes (u16 w) m'.
Proof.
  intros Hl Hw. unfold status_word in Hw. unfold access_status. cbv zeta.
  simpl (access_param _). simpl (nmp_init_stage _). simpl (nmp_boot_data _).
  simpl (nmp_cmd_status _). simpl (nmp_valid_command _).
  destruct (access_param m =? 0x100).
  - destruct (nmp_init_stage m <? 4).
    + rewrite Hw. cbn [mbind option_bind].
      destruct (_ =? 2); cbn [mbind option_bind];
        (eexists; split; [reflexivity |]); apply status_word_echo; exact Hl.
    + unsome Hw. subst w. unfold nz.
      destruct (Z.eqb_spec (nmp_cmd_status m) 0) as [Hz | _]; cbn [negb mbind option_bind];
        rewrite ?Hz; (eexists; split; [reflexivity |]); apply status_word_echo; exact Hl.
  - destruct (access_param m =? 0x10F).
    + unsome Hw. subst w.
      destruct (nmp_valid_command m); cbn [mbind option_bind];
        (eexists; split; [reflexivity |]); apply status_word_echo; exact Hl.
    + unsome Hw. subst w.
      destruct (access_param m =? 0x110); cbn [mbind option_bind];
        (eexists; split; [reflexivity |]); apply status_word_echo; exact Hl.
Qed.

(** C5 (as amended). The opcode echo is in [nmp_status_data[0..1]] right
    after the dispatch: in the device returned by every command that
    raises no interrupt, and in the device SEEK and PLAY_SFX hand to the
    interrupt handler. From there on it is kept by every read; by every
    register write, unless that write ends a command (the access-mode
    write that completes 0x0404 in PROCESS_CMD on a stream of two bytes
    or more, which dispatches the next opcode) or triggers an access (the
    low-byte parameter write under mode 0); and by every data block
    access, in the device it returns or in the one it hands to the
    interrupt handler with a chunk that asks for a timestamp. It is not an
    invariant of the device: a status access (a parameter other than 0,
    0x101, 0x202 and the audio index) returns and replaces the two bytes
    by the bytes of the 16-bit status word it reports, which is the boot
    word while the init stage is below 4 and the command status from then
    on for parameter 0x100, the tick counter advanced by 6 for 0x10F, and
    0 for every other parameter. *)
Theorem status_echo_until_poll (K : nmp_consts) (H : host)
    (irq : AGB_MMU -> option AGB_MMU) (m : AGB_MMU) :
  (forall m',
      process_nmp_cmd K H irq m = Some m' ->
      decode K (cmd m) <> Some NMP_PLAY_SFX ->
      (decode K (cmd m) = Some NMP_SEEK -> size (command_stream m) < 4) ->
      echoes (cmd m) m')
  /\ (decode K (cmd m) = Some NMP_SEEK ->
      4 <= size (command_stream m) ->
      exists p, process_nmp_cmd K H irq m = manual_irq irq p /\ echoes (cmd m) p)
  /\ (decode K (cmd m) = Some NMP_PLAY_SFX ->
      exists p, process_nmp_cmd K H irq m = manual_irq irq p /\ echoes (cmd m) p)
  /\ (forall a r m',
         read_nmp K a m = Some (r, m') -> nmp_status_data m' = nmp_status_data m)
  /\ (forall a v m',
         write_nmp K H irq a v m = Some m' ->
         nmp_status_data m' = nmp_status_data m
         \/ (exists b0 b1 rest,
               a = PY_NMP_CNT K + 1
               /\ Z.lor (Z.land (access_mode m) (Z.lnot 0xFF)) v = 0x0404
               /\ op_state m = PLAY_YAN_PROCESS_CMD
               /\ command_stream m = b0 :: b1 :: rest
               /\ process_nmp_cmd K H irq
                    (m <| access_mode := 0x0404 |>
                       <| cmd := Z.lor (Z.shiftl b0 8) b1 |>)
                  = Some m')
         \/ (a = PY_NMP_PARAMETER K + 1
             /\ access_mode m = 0
             /\ access_nmp_io K H irq
                  (m <| access_param :=
                          Z.lor (Z.land (access_param m) (Z.lnot 0xFF)) v |>)
                = Some m'))
  /\ (access_nmp_io K H irq m
      = if nz (access_param m) && negb (access_param m =? 0x101)
           && negb (access_param m =? 0x202)
           && negb (access_param m =? nmp_audio_index m)
        then access_status (m <| firmware_addr := 0 |>)
        else access_card_data K H irq (m <| firmware_addr := 0 |>))
  /\ (forall m',
         access_card_data K H irq m = Some m' ->
         nmp_status_data m' = nmp_status_data m
         \/ (exists mb,
               cmd m = code K NMP_UPDATE_AUDIO
               /\ update_audio_stream m = true
               /\ audio_block H
                    (m <| card_data := [] |> <| op_state := PLAY_YAN_GET_SD_DATA |>)
                  = Some (mb, true)
               /\ nmp_status_data mb = nmp_status_data m
               /\ manual_irq irq (mb <| update_audio_stream := false |>
                                     <| update_trackbar_timestamp := true |>
                                     <| irq_delay := 0 |>) = Some m'))
  /\ ((2 <= length (nmp_status_data m))%nat ->
      (forall d,
          access_param m = 0x100 -> nmp_init_stage m < 4 ->
          at_index (nmp_boot_data m) (Z.shiftr (nmp_init_stage m) 1) = Some d ->
          exists m', access_status m = Some m' /\ echoes (u16 d) m')
      /\ (access_param m = 0x100 -> 4 <= nmp_init_stage m ->
          exists m', access_status m = Some m' /\ echoes (u16 (nmp_cmd_status m)) m')
      /\ (access_param m = 0x10F ->
          exists m', access_status m = Some m'
                     /\ echoes (u16 (u32 (nmp_ticks m + 6))) m')
      /\ (access_param m <> 0x100 -> access_param m <> 0x10F ->
          exists m', access_status m = Some m' /\ echoes 0 m')).
Proof.
  split; [| split; [| split; [| split; [| split; [| split; [| split]]]]]].
  - intros m'. apply dispatch_echo.
  - intros Hdec Hsize. apply Z.leb_le in Hsize.
    unfold process_nmp_cmd. cbv zeta. simpl (cmd _). rewrite Hdec.
    cbv iota beta. simpl (command_stream _). rewrite Hsize.
    eexists. split; [reflexivity |].
    unfold echoes. rewrite seek_prepare_status. simpl. apply take2_default.
  - intros Hdec.
    unfold process_nmp_cmd. cbv zeta. simpl (cmd _). rewrite Hdec.
    cbv iota beta. eexists. split; [reflexivity |].
    unfold echoes. rewrite sfx_prepare_status. simpl. apply take2_default.
  - intros a r m'. apply read_keeps_status.
  - intros a v m'. apply write_keeps_status.
  - reflexivity.
  - intros m'. apply card_access_keeps_status.
  - intros Hl. split; [| split; [| split]].
    + intros d Hp Hstage Hd. apply status_access_word; [exact Hl |].
      unfold status_word. rewrite Hp. cbn [Z.eqb Pos.eqb].
      destruct (Z.ltb_spec (nmp_init_stage m) 4); [exact Hd | lia].
    + intros Hp Hstage. apply status_access_word; [exact Hl |].
      unfold status_word. rewrite Hp. cbn [Z.eqb Pos.eqb].
      destruct (Z.ltb_spec (nmp_init_stage m) 4); [lia | reflexivity].
    + intros Hp. apply status_access_word; [exact Hl |].
      unfold status_word. rewrite Hp. reflexivity.
    + intros H100 H10F. apply (status_access_word m 0 Hl).
      unfold status_word.
      destruct (Z.eqb_spec (access_param m) 0x100); [contradiction |].
      destruct (Z.eqb_spec (access_param m) 0x10F); [contradiction |].
      reflexivity.
Qed.

Lemma status_echo_until_poll_witness :
  match process_nmp_cmd Sample.consts Sample.machine Sample.irq
          (Sample.power_on <| cmd := 0x8001 |>) with
  | Some m' => echoes 0x8001 m'
  | None => False
  end
  /\ (exists m',
        access_status (Sample.power_on <| nmp_cmd_status := 0xC001 |>
                         <| nmp_init_stage := 4 |> <| access_param := 0x100 |>)
        = Some m'
        /\ echoes 0xC001 m')
  /\ (exists m',
        access_status (Sample.power_on <| access_param := 0x110 |>) = Some m'
        /\ echoes 0 m').
Proof.
  pose proof (status_echo_until_poll Sample.consts Sample.machine Sample.irq
                (Sample.power_on <| cmd := 0x8001 |>)) as (Hecho & _).
  pose proof (status_echo_until_poll Sample.consts Sample.machine Sample.irq
                (Sample.power_on <| nmp_cmd_status := 0xC001 |>
                   <| nmp_init_stage := 4 |> <| access_param := 0x100 |>))
    as (_ & _ & _ & _ & _ & _ & _ & Hpoll).
  pose proof (status_echo_until_poll Sample.consts Sample.machine Sample.irq
                (Sample.power_on <| access_param := 0x110 |>))
    as (_ & _ & _ & _ & _ & _ & _ & Hbusy).
  split; [| split].
  - destruct (process_nmp_cmd _ _ _ _) as [m' |] eqn:Hrun.
    + apply (Hecho m' eq_refl); vm_compute; discriminate.
    + vm_compute in Hrun. discriminate.
  - destruct (Hpoll ltac:(simpl; lia)) as (_ & Hstat & _).
    apply Hstat; [reflexivity | simpl; lia].
  - destruct (Hbusy ltac:(simpl; lia)) as (_ & _ & _ & Hother).
    apply Hother; vm_compute; discriminate.
Defined.

(** The guest sends INIT (0x8001) and then polls the busy flag: the last
    dispatched opcode is still 0x8001 and the two status bytes are 0. *)
Lemma status_echo_not_invariant :
  exists m,
    Sample.writes (Sample.send (Sample.stream_of 0x8001 []) ++ Sample.access 0x110)
      Sample.power_on = Some m
    /\ cmd m = 0x8001
    /\ take 2 (nmp_status_data m) = [0; 0]
    /\ ~ echoes 0x8001 m.
Proof.
  eexists. split; [vm_compute; reflexivity |].
  split; [reflexivity |]. split; [reflexivity |].
  unfold echoes. vm_compute. discriminate.
Qed.

(** ** The data block and reads past its end *)

Lemma length_store (i v : Z) (l : list Z) : length (store i v l) = length l.
Proof. unfold store. apply length_insert. Qed.

Lemma length_write_text (chars : list Z) (pos : Z) (data : list Z) :
  length (write_text pos chars data) = length data.
Proof.
  revert pos data. induction chars as [| c chars IH]; intros pos data; simpl.
  - reflexivity.
  - now rewrite IH, !length_store.
Qed.

Lemma length_list_block (m : AGB_MMU) (data : list Z) :
  list_block m = Some data -> length data = 528%nat.
Proof.
  unfold list_block. cbv zeta. intros Hb.
  destruct (nz (nmp_entry_count m)).
  - match type of Hb with
    | (?e ≫= _) = _ => destruct e as [[name is_folder] |]; [| discriminate]
    end.
    cbn [mbind option_bind] in Hb. unsome Hb. subst data.
    now rewrite length_store, length_write_text, !length_store, length_replicate.
  - unsome Hb. subst data. apply length_replicate.
Qed.

Lemma length_id3_block (m : AGB_MMU) : length (id3_block m) = 272%nat.
Proof.
  unfold id3_block. cbv zeta. now rewrite !length_write_text, length_replicate.
Qed.

Lemma emit_shape (left : bool) (x src i : Z) (c : chunk) (m : AGB_MMU) :
  block_shape (dev (emit left x src i c m)) = block_shape m.
Proof.
  unfold emit, block_shape. cbv zeta. simpl.
  rewrite length_store. destruct left; reflexivity.
Qed.

Lemma audio_step_shape (H : host) (left : bool) (x : Z) (c c' : chunk) :
  audio_step H left x c = Some c' -> block_shape (dev c') = block_shape (dev c).
Proof.
  unfold audio_step. cbv zeta. intros Hs.
  match type of Hs with
  | (?e ≫= _) = _ => destruct e as [src |]; [| discriminate]
  end.
  simpl in Hs. unsome Hs. subst c'. rewrite emit_shape.
  case_match; reflexivity.
Qed.

Lemma audio_loop_shape (H : host) (left : bool) (n : nat) (x : Z) (c c' : chunk) :
  audio_loop H left n x c = Some c' -> block_shape (dev c') = block_shape (dev c).
Proof.
  revert x c. induction n as [| n IH]; intros x c Hl; simpl in Hl.
  - unsome Hl. now subst.
  - destruct (audio_step H left x c) as [c1 |] eqn:Hs; [| discriminate].
    simpl in Hl. rewrite (IH _ _ Hl). now apply audio_step_shape in Hs.
Qed.

Lemma audio_block_shape (H : host) (m m1 : AGB_MMU) (t : bool) :
  audio_block H m = Some (m1, t) ->
  length (card_data m1) = Z.to_nat (audio_buffer_size m + 2)
  /\ op_state m1 = op_state m.
Proof.
  unfold audio_block. cbv zeta. intros Hb.
  destruct (nz _) in Hb.
  - match type of Hb with
    | (?e ≫= _) = _ => destruct e as [c |] eqn:Hl; [| discriminate]
    end.
    cbn [mbind option_bind] in Hb. unsome Hb. unpair Hb E1 E2. subst m1.
    apply audio_loop_shape in Hl. unfold block_shape in Hl. simpl in Hl.
    rewrite length_resize in Hl. 
    assert (E1 : length (card_data (dev c)) = Z.to_nat (audio_buffer_size m + 2)) by congruence.
    assert (E3 : op_state (dev c) = op_state m) by congruence.
    destruct (nz (Z.land _ _)); simpl; auto.
  - unsome Hb. unpair Hb E1 E2. subst m1. simpl. rewrite length_resize. auto.
Qed.


(** ** Listing a directory *)

Section Listing.

Variables (K : nmp_consts) (H : host) (irq : AGB_MMU -> option AGB_MMU).

Hypothesis Hd : distinct_codes K.

Lemma start_listed (m : AGB_MMU) :
  exists m', list_command K H irq NMP_START_FILE_LIST m = Some m'
    /\ listed K (get_folders_in_dir H (current_dir m))
              (get_files_in_dir H (current_dir m) ".mp3") 1 m'.
Proof.
  unfold list_command, process_nmp_cmd. cbv zeta. simpl (cmd _).
  rewrite (decode_code K _ Hd). cbv iota beta.
  eexists. split; [reflexivity |].
  set (F := get_folders_in_dir H (current_dir m)).
  set (M := get_files_in_dir H (current_dir m) ".mp3").
  simpl. fold F. fold M.
  unfold size.
  destruct (Z.leb_spec (Z.of_nat (length M) + Z.of_nat (length F)) 0) as [Hz | Hz].
  - split; simpl; try reflexivity; [now left |].
    rewrite bool_decide_eq_true_2 by lia. reflexivity.
  - split; simpl; try reflexivity; [now left |].
    rewrite bool_decide_eq_false_2 by lia. reflexivity.
Qed.

Lemma continue_listed (F M : list string) (j : nat) (m : AGB_MMU) :
  listed K F M j m -> Z.of_nat j + 1 < 2 ^ 32 ->
  exists m', list_command K H irq NMP_CONTINUE_FILE_LIST m = Some m'
    /\ listed K F M (S j) m'.
Proof.
  intros [HF HM Hc _ _ _] Hsmall.
  unfold list_command, process_nmp_cmd. cbv zeta. simpl (cmd _).
  rewrite (decode_code K _ Hd). cbv iota beta.
  eexists. split; [reflexivity |].
  simpl. rewrite HF, HM, Hc. unfold size.
  assert (Hu : u32 (Z.of_nat j + 1) = Z.of_nat (S j)).
  { rewrite u32_small by (change (2 ^ 32) with 4294967296 in *; lia). lia. }
  destruct (Z.leb_spec (Z.of_nat (length M) + Z.of_nat (length F)) (Z.of_nat j))
    as [Hz | Hz].
  - split; simpl; rewrite ?Hc, ?Hu; try reflexivity; try assumption;
      [now right |].
    rewrite bool_decide_eq_true_2 by lia. reflexivity.
  - split; simpl; rewrite ?Hc, ?Hu; try reflexivity; try assumption;
      [now right |].
    rewrite bool_decide_eq_false_2 by lia. reflexivity.
Qed.

Lemma listing_listed (m : AGB_MMU) (n : nat) :
  let F := get_folders_in_dir H (current_dir m) in
  let M := get_files_in_dir H (current_dir m) ".mp3" in
  Z.of_nat n + 1 < 2 ^ 32 ->
  exists m', listing K H irq n m = Some m' /\ listed K F M (S n) m'.
Proof.
  intros F M. unfold listing.
  destruct (start_listed m) as (m1 & -> & H1). cbn [mbind option_bind].
  fold F M in H1. clearbody F M.
  induction n as [| n IH]; intros Hsmall; simpl.
  - eauto.
  - destruct IH as (m' & -> & Hn); [lia |]. cbn [mbind option_bind].
    apply (continue_listed F M (S n) m' Hn). lia.
Qed.

Lemma take_str_len (b : list Z) :
  take (Z.to_nat (if 255 <? Z.of_nat (length b) then 255
                  else Z.of_nat (length b))) b = take 255 b.
Proof.
  destruct (Z.ltb_spec 255 (Z.of_nat (length b))) as [Hlt | Hge].
  - reflexivity.
  - rewrite Nat2Z.id, firstn_all. symmetry. apply take_ge. lia.
Qed.

Lemma list_block_entry (F M : list string) (j : nat) (m : AGB_MMU) (name : string) :
  folders m = F -> music_files m = M -> nmp_entry_count m = Z.of_nat j ->
  (1 <= j)%nat -> Z.of_nat j < 2 ^ 32 -> Z.of_nat (length F) < 2 ^ 32 ->
  (F ++ M) !! (j - 1)%nat = Some name ->
  list_block m = Some (entry_block name (bool_decide (j <= length F)%nat)).
Proof.
  intros HF HM Hc Hj Hsmall HFsmall Hname.
  change (2 ^ 32) with 4294967296 in Hsmall, HFsmall.
  unfold list_block. cbv zeta. rewrite HF, HM, Hc.
  unfold nz. destruct (Z.eqb_spec (Z.of_nat j) 0) as [| _]; [lia |].
  cbn [negb]. unfold size.
  rewrite (u32_small (Z.of_nat j - 1)) by (change (2 ^ 32) with 4294967296; lia).
  rewrite (u32_small (Z.of_nat (length F)))
    by (change (2 ^ 32) with 4294967296; lia).
  replace (Z.of_nat j - 1) with (Z.of_nat (j - 1)) by lia.
  destruct (decide (j <= length F)%nat) as [Hin | Hout].
  - rewrite bool_decide_eq_true_2 by exact Hin.
    destruct (Z.ltb_spec (Z.of_nat (j - 1)) (Z.of_nat (length F))); [| lia].
    rewrite at_index_nat. rewrite lookup_app_l in Hname by lia.
    rewrite Hname. cbn [mbind option_bind].
    rewrite take_str_len. reflexivity.
  - rewrite bool_decide_eq_false_2 by exact Hout.
    destruct (Z.ltb_spec (Z.of_nat (j - 1)) (Z.of_nat (length F))); [lia |].
    rewrite u32_small by (change (2 ^ 32) with 4294967296; lia).
    replace (Z.of_nat (j - 1) - Z.of_nat (length F))
      with (Z.of_nat (j - 1 - length F)) by lia.
    rewrite at_index_nat. rewrite lookup_app_r in Hname by lia.
    rewrite Hname. cbn [mbind option_bind].
    rewrite take_str_len. reflexivity.
Qed.

End Listing.


(** The three entries of the sample card in the order they are delivered. *)
Example listing_sample :
  (fun j => (fun m => (take 12 (card_data m), card_data m !! 525%nat))
            <$> (listing Sample.consts Sample.machine Sample.irq j Sample.power_on
                 ≫= access_card_data Sample.consts Sample.machine Sample.irq))
    <$> [0; 1; 2]%nat
  = [ Some ([0; 1; 0; 114; 0; 111; 0; 99; 0; 107; 0; 0], Some 1);
      Some ([0; 1; 0; 106; 0; 97; 0; 122; 0; 122; 0; 0], Some 1);
      Some ([0; 2; 0; 97; 0; 46; 0; 109; 0; 112; 0; 51], Some 2) ].
Proof. vm_compute. reflexivity. Qed.

(** ** SEEK *)

Lemma seek_shift_count (c : Z) :
  0 <= c < 2 ^ 32 -> seek_shift c = 2 + c / 10.
Proof.
  intros Hc. unfold seek_shift. change (2 ^ 32) with 4294967296 in Hc.
  apply s32_small. change (2 ^ 31) with 2147483648.
  assert (0 <= c / 10) by (apply Z.div_pos; lia).
  assert (c / 10 < 429496730) by (apply Z.div_lt_upper_bound; lia).
  lia.
Qed.

Lemma s32_high (z : Z) : 2 ^ 31 <= z < 2 ^ 32 -> s32 z = z - 2 ^ 32.
Proof.
  intros Hz. unfold s32, signed. change (32 - 1) with 31.
  rewrite Z.mod_small by lia.
  destruct (Z.ltb_spec z (2 ^ 31)); lia.
Qed.

Lemma seek_prepare_spec (K : nmp_consts) (m : AGB_MMU) (b : Z) :
  command_stream m !! 3%nat = Some b ->
  0 <= b < 256 -> 0 <= nmp_seek_pos m < 256 ->
  0 <= nmp_seek_count m < 2 ^ 32 ->
  let p := seek_prepare K m in
  let step := seek_unit m * (2 + nmp_seek_count p / 10) in
  nmp_manual_cmd p = code K NMP_UPDATE_AUDIO
  /\ irq_delay p = 0
  /\ nmp_seek_count p = (nmp_seek_count m + 1) mod 2 ^ 32
  /\ (nmp_seek_dir m = 0xFF ->
      seek_cursor p = seek_cursor m
      /\ nmp_seek_pos p = b
      /\ nmp_seek_dir p = seek_direction (nmp_seek_pos m) b)
  /\ (nmp_seek_dir m = 0 ->
      seek_cursor p = Z.max 0 (s32 (seek_cursor m - step)))
  /\ (nmp_seek_dir m <> 0xFF -> nmp_seek_dir m <> 0 ->
      seek_cursor p = (seek_cursor m + step) mod 2 ^ 32).
Proof.
  intros Hb Hbr Hlast Hcount p step.
  assert (Hc1 : 0 <= u32 (nmp_seek_count m + 1) < 2 ^ 32).
  { unfold u32. apply Z.mod_pos_bound. reflexivity. }
  pose proof (seek_shift_count _ Hc1) as Hshift.
  subst p step. unfold seek_prepare. cbv zeta. simpl (nmp_seek_count _).
  simpl (nmp_seek_dir _). simpl (nmp_seek_pos _). simpl (command_stream _).
  simpl (ext_use_headphones _). simpl (ext_sample_pos _). simpl (audio_sample_rate _).
  simpl (audio_sample_index _).
  rewrite Hshift, (at_index_nat _ 3), Hb. cbn [default from_option id].
  rewrite !u8_small by lia. fold (u32 (nmp_seek_count m + 1)).
  unfold seek_cursor, seek_unit, seek_direction in *.
  destruct (Z.eqb_spec (nmp_seek_dir m) 0xFF) as [Hff | Hnff].
  - destruct (nz (nmp_seek_pos m) && nz b);
      [destruct (b <? nmp_seek_pos m) |];
      simpl; (repeat split); intros; try congruence; try lia;
      destruct (ext_use_headphones m); reflexivity.
  - unfold nz. destruct (Z.eqb_spec (nmp_seek_dir m) 0) as [Hz | Hnz]; cbn [negb].
    + destruct (ext_use_headphones m) eqn:Hhp; simpl; rewrite ?Hhp;
        (repeat split); intros; try congruence;
        match goal with
        | |- context [?x <? 0] => destruct (Z.ltb_spec x 0)
        end; lia.
    + destruct (ext_use_headphones m) eqn:Hhp; simpl; rewrite ?Hhp;
        (repeat split); intros; try congruence; reflexivity.
Qed.

(** A SEEK on four bytes or more hands the prepared state to the
    interrupt handler. *)
Lemma seek_dispatch (K : nmp_consts) (H : host)
    (irq : AGB_MMU -> option AGB_MMU) (m : AGB_MMU) :
  distinct_codes K ->
  cmd m = code K NMP_SEEK ->
  4 <= size (command_stream m) ->
  process_nmp_cmd K H irq m
  = manual_irq irq
      (seek_prepare K
         (m <| nmp_status_data := default_status (cmd m) |>
            <| nmp_cmd_status := Z.lor (code K NMP_SEEK) 0x4000 |>
            <| nmp_valid_command := true |>)).
Proof.
  intros Hd Hcmd Hsize. apply Z.leb_le in Hsize.
  unfold process_nmp_cmd. cbv zeta. simpl (cmd _).
  rewrite Hcmd, (decode_code _ _ Hd). cbv iota beta.
  simpl (command_stream _). rewrite Hsize. reflexivity.
Qed.

(** C8 (as amended). A SEEK on a stream of four bytes or more counts
    the call in a 32-bit counter, and: while the direction is undetermined
    (0xFF) it records the position byte and, once the recorded and the new
    byte are both non-zero, fixes the direction: rewind when the new byte
    is smaller (200 then 50), fast-forward otherwise (50 then 200), the
    cursor staying put; with the direction fixed it moves the cursor by
    [step], the rate unit times [2 + seek_count / 10] with this call
    counted, in 32-bit arithmetic. A rewind stores [cursor - step] read
    as a signed 32-bit number, and 0 when that is negative: this is
    [max 0 (cursor - step)] while the cursor is below 2^31 and the step
    at most 2^31, and it is 0 when [cursor - step] is 2^31 or more. A
    fast-forward stores [cursor + step] modulo 2^32, which is
    [cursor + step] while that is below 2^32. Ten calls later the factor
    of the step is one larger. In every case the SEEK then enters the
    interrupt handler at once, with the manual flag set, no delay and
    UPDATE_AUDIO pending. *)
Theorem seek_behaviour (K : nmp_consts) (H : host)
    (irq : AGB_MMU -> option AGB_MMU) (m : AGB_MMU) (b : Z) :
  distinct_codes K ->
  cmd m = code K NMP_SEEK ->
  command_stream m !! 3%nat = Some b ->
  0 <= b < 256 -> 0 <= nmp_seek_pos m < 256 ->
  0 <= nmp_seek_count m < 2 ^ 32 ->
  0 <= seek_cursor m < 2 ^ 32 -> 0 <= seek_unit m ->
  exists p,
    let step := seek_unit m * (2 + nmp_seek_count p / 10) in
    process_nmp_cmd K H irq m
    = (m' ← irq (p <| nmp_manual_irq := true |>);
       Some (m' <| nmp_manual_irq := false |>))
    /\ nmp_manual_cmd p = code K NMP_UPDATE_AUDIO
    /\ irq_delay p = 0
    /\ nmp_seek_count p = (nmp_seek_count m + 1) mod 2 ^ 32
    /\ (nmp_seek_dir m = 0xFF ->
        seek_cursor p = seek_cursor m
        /\ nmp_seek_pos p = b
        /\ nmp_seek_dir p = seek_direction (nmp_seek_pos m) b)
    /\ (nmp_seek_dir m = 0 ->
        seek_cursor p = Z.max 0 (s32 (seek_cursor m - step))
        /\ (seek_cursor m < 2 ^ 31 -> step <= 2 ^ 31 ->
            seek_cursor p = Z.max 0 (seek_cursor m - step))
        /\ (2 ^ 31 <= seek_cursor m - step -> seek_cursor p = 0))
    /\ (nmp_seek_dir m <> 0xFF -> nmp_seek_dir m <> 0 ->
        seek_cursor p = (seek_cursor m + step) mod 2 ^ 32
        /\ (seek_cursor m + step < 2 ^ 32 -> seek_cursor p = seek_cursor m + step))
    /\ seek_direction 200 50 = 0
    /\ seek_direction 50 200 = 1
    /\ seek_shift (nmp_seek_count p + 10) = seek_shift (nmp_seek_count p) + 1.
Proof.
  intros Hd Hcmd Hb Hbr Hlast Hcount Hcur Hunit.
  assert (Hsize : 4 <= size (command_stream m)).
  { unfold size. apply lookup_lt_Some in Hb. lia. }
  rewrite (seek_dispatch K H irq m Hd Hcmd Hsize). unfold manual_irq.
  eexists. split; [reflexivity |].
  match goal with
  | |- context [seek_prepare K ?m0] =>
      pose proof (seek_prepare_spec K m0 b Hb Hbr Hlast Hcount)
        as (Hcmd' & Hdelay & Hcnt & Hundet & Hrew & Hfwd);
      change (seek_cursor m0) with (seek_cursor m) in *;
      change (seek_unit m0) with (seek_unit m) in *;
      change (nmp_seek_dir m0) with (nmp_seek_dir m) in *;
      change (nmp_seek_pos m0) with (nmp_seek_pos m) in *;
      change (nmp_seek_count m0) with (nmp_seek_count m) in *;
      set (p := seek_prepare K m0) in *
  end.
  assert (Hcp : 0 <= nmp_seek_count p < 2 ^ 32).
  { rewrite Hcnt. apply Z.mod_pos_bound. reflexivity. }
  assert (Hq : 0 <= nmp_seek_count p / 10) by (apply Z.div_pos; lia).
  assert (Hstep : 0 <= seek_unit m * (2 + nmp_seek_count p / 10))
    by (apply Z.mul_nonneg_nonneg; lia).
  split; [exact Hcmd' |]. split; [exact Hdelay |]. split; [exact Hcnt |].
  split; [exact Hundet |].
  split.
  { intros Hdir. specialize (Hrew Hdir). split; [exact Hrew |]. split.
    - intros Hc Hs. rewrite Hrew, s32_small; [reflexivity |].
      change (2 ^ 31) with 2147483648 in *. lia.
    - intros Hbig. rewrite Hrew, s32_high by lia.
      change (2 ^ 32) with 4294967296 in *. lia. }
  split.
  { intros Hff Hz. specialize (Hfwd Hff Hz). split; [exact Hfwd |].
    intros Hsum. rewrite Hfwd. apply Z.mod_small. lia. }
  split; [reflexivity |]. split; [reflexivity |].
  assert (Hq10 : (nmp_seek_count p + 10) / 10 = nmp_seek_count p / 10 + 1).
  { replace (nmp_seek_count p + 10) with (nmp_seek_count p + 1 * 10) by lia.
    apply Z.div_add. lia. }
  assert (Hlt : nmp_seek_count p / 10 < 429496730).
  { apply Z.div_lt_upper_bound; change (2 ^ 32) with 4294967296 in Hcp; lia. }
  unfold seek_shift. rewrite Hq10, !s32_small by (change (2 ^ 31) with 2147483648; lia).
  lia.
Qed.

Lemma seek_behaviour_witness :
  exists p,
    process_nmp_cmd Sample.consts Sample.machine Sample.irq
      (Sample.power_on <| cmd := 0x60 |>
         <| command_stream := Sample.stream_of 0x60 [50] |>
         <| nmp_seek_dir := 0 |>
         <| audio_sample_index := 0x80100000 |>)
    = (m' ← Sample.irq (p <| nmp_manual_irq := true |>);
       Some (m' <| nmp_manual_irq := false |>))
    /\ nmp_seek_count p = 1
    /\ seek_cursor p = 0.
Proof.
  destruct (seek_behaviour Sample.consts Sample.machine Sample.irq
              (Sample.power_on <| cmd := 0x60 |>
                 <| command_stream := Sample.stream_of 0x60 [50] |>
                 <| nmp_seek_dir := 0 |>
                 <| audio_sample_index := 0x80100000 |>) 50)
    as (p & Hrun & _ & _ & Hcnt & _ & Hrew & _);
    [ exact sample_codes_distinct | reflexivity | reflexivity
    | evaluate | evaluate | evaluate | evaluate | evaluate | ].
  exists p. split; [exact Hrun |]. split; [exact Hcnt |].
  destruct (Hrew eq_refl) as (_ & _ & Hz). apply Hz.
  rewrite Hcnt. vm_compute. discriminate.
Defined.

(** A rewind from a cursor at or above 2^31 lands on 0, not on the cursor
    less the step; a fast-forward past 2^32 wraps around. *)
Lemma seek_cursor_wraps :
  let rewind :=
    Sample.power_on <| cmd := 0x60 |>
      <| command_stream := Sample.stream_of 0x60 [50] |>
      <| nmp_seek_dir := 0 |> <| audio_sample_index := 0x80100000 |> in
  let forward :=
    Sample.power_on <| cmd := 0x60 |>
      <| command_stream := Sample.stream_of 0x60 [50] |>
      <| nmp_seek_dir := 1 |> <| audio_sample_index := 0xFFFFF000 |> in
  (exists p,
     process_nmp_cmd Sample.consts Sample.machine Sample.irq rewind
     = (m' ← Sample.irq (p <| nmp_manual_irq := true |>);
        Some (m' <| nmp_manual_irq := false |>))
     /\ seek_unit rewind * (2 + nmp_seek_count p / 10) = 32768
     /\ seek_cursor rewind = 0x80100000
     /\ seek_cursor p = 0
     /\ seek_cursor p <> Z.max 0 (seek_cursor rewind - 32768))
  /\ (exists p,
        process_nmp_cmd Sample.consts Sample.machine Sample.irq forward
        = (m' ← Sample.irq (p <| nmp_manual_irq := true |>);
           Some (m' <| nmp_manual_irq := false |>))
        /\ seek_unit forward * (2 + nmp_seek_count p / 10) = 32768
        /\ seek_cursor forward = 0xFFFFF000
        /\ seek_cursor p = 0x7000
        /\ seek_cursor p <> seek_cursor forward + 32768).
Proof.
  cbv zeta. split.
  - rewrite seek_dispatch by (exact sample_codes_distinct || reflexivity || evaluate).
    eexists. split; [reflexivity |]. vm_compute. repeat split; discriminate.
  - rewrite seek_dispatch by (exact sample_codes_distinct || reflexivity || evaluate).
    eexists. split; [reflexivity |]. vm_compute. repeat split; discriminate.
Qed.

(** ** The end of a track *)

(** The UPDATE_AUDIO tick that finds the track at its end: STOP_MUSIC is
    left pending with a delay of 1; of the status buffer only byte 8 (the
    trackbar position) is written, and the external output is not touched. *)
Lemma update_audio_at_end (K : nmp_consts) (H : host) (m : AGB_MMU) :
  update_audio_stream m && negb (ext_use_headphones m) = false ->
  update_trackbar_timestamp m = true ->
  u32 (music_length m - 1) <> 0 ->
  Fp.fge (progress (elapsed m) (music_length m)) (Fp.float_of_Z 100) = true ->
  let m1 := update_audio_playing K H m in
  nmp_manual_cmd m1 = code K NMP_STOP_MUSIC
  /\ irq_delay m1 = 1
  /\ nmp_manual_irq m1 = nmp_manual_irq m
  /\ tracker_update_size m1 = elapsed m
  /\ nmp_status_data m1
     = store 8 (u8 (Fp.to_unsigned (undefined_conversion H) 8
                      (progress (elapsed m) (music_length m))))
         (nmp_status_data m)
  /\ ext_playing m1 = ext_playing m
  /\ ext_sample_pos m1 = ext_sample_pos m
  /\ is_music_playing m1 = is_music_playing m.
Proof.
  intros Hprio Htrack Hlen Hend.
  unfold update_audio_playing. cbv zeta.
  simpl (update_audio_stream _). simpl (ext_use_headphones _).
  simpl (update_trackbar_timestamp _). rewrite Hprio, Htrack.
  simpl (music_length _). simpl (ext_sample_pos _). simpl (audio_sample_index _).
  simpl (audio_sample_rate _).
  unfold elapsed in *. cbv zeta in *.
  assert (Hnz : nz (u32 (music_length m - 1)) = true).
  { unfold nz. now destruct (Z.eqb_spec (u32 (music_length m - 1)) 0). }
  destruct (nz (if ext_use_headphones m then audio_sample_rate m else 16384));
    simpl (music_length _); simpl (tracker_update_size _);
    rewrite Hnz, Hend; repeat split; reflexivity.
Qed.

(** One call of the scheduler on a device with STOP_MUSIC pending after a
    delay of 1: the delay expires and STOP_MUSIC is dispatched. *)
Lemma scheduler_fires_stop (K : nmp_consts) (H : host) (fuel : nat) (m : AGB_MMU) :
  distinct_codes K ->
  nmp_manual_irq m = false -> irq_delay m = 1 ->
  nmp_manual_cmd m = code K NMP_STOP_MUSIC ->
  exists m', scheduler K H (S fuel) m = Some m'
    /\ cmd m' = code K NMP_STOP_MUSIC
    /\ nmp_cmd_status m' = Z.lor (code K NMP_STOP_MUSIC) 0x4000
    /\ is_music_playing m' = false
    /\ is_media_playing m' = false
    /\ ext_playing m' = false
    /\ update_audio_stream m' = false
    /\ nmp_manual_cmd m' = 0
    /\ irq_delay m' = 0.
Proof.
  intros Hd Hman Hdelay Hpending.
  cbn [scheduler]. cbv zeta. rewrite Hman, Hdelay. simpl (nz 1). cbv iota.
  simpl (irq_delay _). simpl (nz (1 - 1)). cbv iota.
  simpl (nmp_manual_cmd _). rewrite Hpending.
  unfold process_nmp_cmd. cbv zeta. simpl (cmd _).
  rewrite (decode_code _ _ Hd). cbv iota beta. cbn [mbind option_bind].
  eexists. split; [reflexivity |]. repeat split.
Qed.



(** ** Dithering *)

Lemma s16_range (z : Z) : - 2 ^ 15 <= s16 z < 2 ^ 15.
Proof.
  unfold s16, signed. change (16 - 1) with 15.
  pose proof (Z.mod_pos_bound z (2 ^ 16) ltac:(lia)) as Hm.
  change (2 ^ 16) with 65536 in *. change (2 ^ 15) with 32768 in *.
  destruct (Z.ltb_spec (z mod 65536) 32768); lia.
Qed.

Lemma quantise_range (src residual : Z) : -128 <= quantise src residual <= 127.
Proof.
  unfold quantise. cbv zeta.
  destruct (Z.ltb_spec 127 (Z.shiftr (src + Z.shiftr residual 4 * 7) 8)); [lia |].
  destruct (Z.ltb_spec (Z.shiftr (src + Z.shiftr residual 4 * 7) 8) (-128)); lia.
Qed.

(** In the 16-bit range of the samples the 32-bit sum does not wrap. *)
Lemma dither_sample_quantise (src residual : Z) :
  - 2 ^ 15 <= src < 2 ^ 15 -> - 2 ^ 15 <= residual < 2 ^ 15 ->
  dither_sample src residual = quantise src residual.
Proof.
  intros Hs Hr. unfold dither_sample, quantise. cbv zeta.
  rewrite s32_small; [reflexivity |].
  rewrite Z.shiftr_div_pow2 by lia.
  change (2 ^ 15) with 32768 in *. change (2 ^ 4) with 16. change (2 ^ 31) with 2147483648.
  assert (-2048 <= residual / 16 <= 2048).
  { split; [apply Z.div_le_lower_bound | apply Z.div_le_upper_bound]; lia. }
  lia.
Qed.

(** The stored byte read back as a signed 8-bit sample. *)
Lemma signed8_byte (q : Z) :
  -128 <= q <= 127 -> signed 8 (u8 (Z.land q 0xFF)) = q.
Proof.
  intros Hq. change 0xFF with (Z.ones 8). rewrite Z.land_ones by lia.
  unfold u8. rewrite Z.mod_mod by lia. unfold signed. rewrite Z.mod_mod by lia.
  change (8 - 1) with 7. change (2 ^ 8) with 256. change (2 ^ 7) with 128.
  destruct (Z.neg_nonneg_cases q) as [Hneg | Hpos].
  - replace (q mod 256) with (q + 256).
    + destruct (Z.ltb_spec (q + 256) 128); lia.
    + symmetry. rewrite <- (Z.mod_add q 1 256) by lia.
      rewrite Z.mul_1_l. apply Z.mod_small. lia.
  - rewrite Z.mod_small by lia. destruct (Z.ltb_spec q 128); lia.
Qed.

Lemma low_byte_s16 (src : Z) : s16 (Z.land src 0xFF) = Z.land src 0xFF.
Proof.
  change 0xFF with (Z.ones 8). rewrite Z.land_ones by lia.
  pose proof (Z.mod_pos_bound src (2 ^ 8) ltac:(lia)) as Hm.
  change (2 ^ 8) with 256 in *.
  unfold s16, signed. change (16 - 1) with 15.
  change (2 ^ 16) with 65536. change (2 ^ 15) with 32768.
  rewrite (Z.mod_small (src mod 256)) by lia.
  destruct (Z.ltb_spec (src mod 256) 32768); lia.
Qed.

Lemma audio_step_sample (H : host) (left : bool) (x : Z) (c c' : chunk) :
  audio_step H left x c = Some c' ->
  exists src,
    s16 <$> at_index (ext_buffer (dev c)) (index c') = Some src
    /\ card_data (dev c')
       = store (output_offset x (dev c))
           (u8 (Z.land (quantise src (s16 (residual left (dev c)))) 0xFF))
           (card_data (dev c))
    /\ residual left (dev c') = Z.land src 0xFF
    /\ residual (negb left) (dev c') = residual (negb left) (dev c).
Proof.
  unfold audio_step. cbv zeta. intros Hs.
  match type of Hs with
  | (?e ≫= _) = _ => destruct e as [src |] eqn:Hsrc; [| discriminate]
  end.
  cbn [mbind option_bind] in Hs. apply (inj Some) in Hs. subst c'.
  exists src.
  assert (Hrange : - 2 ^ 15 <= src < 2 ^ 15).
  { destruct (at_index _ _) as [v |] in Hsrc; [| discriminate].
    apply (inj Some) in Hsrc. subst src. apply s16_range. }
  destruct (u32 (ext_length (dev c) / 2) <=? source_index H left (dev c));
    unfold emit, residual, output_offset; cbv zeta;
    (destruct left; simpl;
     rewrite dither_sample_quantise by (exact Hrange || apply s16_range);
     rewrite ?low_byte_s16;
     (split; [exact Hsrc |]); repeat split; reflexivity).
Qed.

Lemma view_of_eq (m1 m2 : AGB_MMU) :
  view_of m1 = view_of m2 ->
  l_audio_dither_error m1 = l_audio_dither_error m2
  /\ r_audio_dither_error m1 = r_audio_dither_error m2
  /\ audio_sample_index m1 = audio_sample_index m2
  /\ audio_sample_rate m1 = audio_sample_rate m2
  /\ audio_channels m1 = audio_channels m2
  /\ ext_length m1 = ext_length m2
  /\ ext_buffer m1 = ext_buffer m2
  /\ card_data m1 = card_data m2.
Proof.
  intros Hv.
  repeat split;
    [ apply (f_equal v_left_error) in Hv | apply (f_equal v_right_error) in Hv
    | apply (f_equal v_sample_index) in Hv | apply (f_equal v_sample_rate) in Hv
    | apply (f_equal v_channels) in Hv | apply (f_equal v_length) in Hv
    | apply (f_equal v_buffer) in Hv | apply (f_equal v_block) in Hv ];
    exact Hv.
Qed.

(** One iteration on two devices with the same view gives the same view,
    or fails on both. *)
Lemma audio_step_view (H : host) (left : bool) (x : Z) (c1 c2 : chunk) :
  view_of (dev c1) = view_of (dev c2) ->
  (view_of ∘ dev) <$> audio_step H left x c1
  = (view_of ∘ dev) <$> audio_step H left x c2.
Proof.
  intros Hv. apply view_of_eq in Hv as (Hl & Hr & Hi & Hrate & Hch & Hlen & Hbuf & Hblock).
  unfold audio_step. cbv zeta.
  assert (Hsrc : source_index H left (dev c1) = source_index H left (dev c2)).
  { unfold source_index. cbv zeta. now rewrite Hi, Hrate, Hch. }
  rewrite Hsrc, Hlen.
  destruct (u32 (ext_length (dev c2) / 2) <=? source_index H left (dev c2));
    simpl (ext_buffer _); rewrite Hbuf;
    (destruct (at_index (ext_buffer (dev c2)) _) as [v |]; [| reflexivity]);
    cbn [fmap option_fmap option_map mbind option_bind compose];
    f_equal; unfold emit, view_of; cbv zeta; destruct left; simpl;
    rewrite ?Hl, ?Hr, ?Hi, ?Hrate, ?Hch, ?Hlen, ?Hbuf, ?Hblock; reflexivity.
Qed.

Lemma audio_loop_view (H : host) (left : bool) (n : nat) (x : Z) (c1 c2 : chunk) :
  view_of (dev c1) = view_of (dev c2) ->
  (view_of ∘ dev) <$> audio_loop H left n x c1
  = (view_of ∘ dev) <$> audio_loop H left n x c2.
Proof.
  revert x c1 c2. induction n as [| n IH]; intros x c1 c2 Hv.
  - simpl. now rewrite Hv.
  - cbn [audio_loop].
    pose proof (audio_step_view H left x c1 c2 Hv) as Hstep.
    destruct (audio_step H left x c1) as [c1' |],
             (audio_step H left x c2) as [c2' |];
      cbn [fmap option_fmap option_map mbind option_bind compose] in *;
      try discriminate; [| reflexivity].
    apply IH. now apply (inj Some) in Hstep.
Qed.

(** The first left chunk of the sample track: four source samples at half
    the device rate, eight output bytes. *)
Example dither_sample_chunk :
  let m := store_loaded (play_yan_load_audio Sample.machine "")
             (Sample.power_on <| card_data := replicate 10 0 |>) in
  (fun c => (card_data (dev c), l_audio_dither_error (dev c)))
    <$> audio_loop Sample.machine true 8 2
          {| dev := m; index := 0; sample_count := 0; trigger_timestamp := false |}
  = Some ([0; 0; 18; 18; 0; 0; 127; 127; 128; 128], 0).
Proof. vm_compute. reflexivity. Qed.

(** * Further properties *)

(** ** Register assembly *)

Lemma testbit_small (v k n : Z) :
  0 <= v < 2 ^ k -> 0 <= k <= n -> Z.testbit v n = false.
Proof.
  intros Hv Hk. destruct (Z.eq_dec v 0) as [-> | Hnz]; [apply Z.bits_0 |].
  apply Z.bits_above_log2; [lia |].
  assert (Z.log2 v < k) by (apply Z.log2_lt_pow2; lia). lia.
Qed.

Lemma testbit_FF (n : Z) : 0 <= n -> Z.testbit 0xFF n = (n <? 8).
Proof. intros Hn. change 0xFF with (Z.ones 8). apply Z.testbit_ones_nonneg; lia. Qed.

Lemma testbit_FF00 (n : Z) :
  0 <= n -> Z.testbit 0xFF00 n = (8 <=? n) && (n <? 16).
Proof.
  intros Hn. change 0xFF00 with (Z.shiftl (Z.ones 8) 8).
  rewrite Z.shiftl_spec by lia.
  destruct (Z.leb_spec 8 n).
  - rewrite Z.testbit_ones_nonneg by lia. simpl.
    destruct (Z.ltb_spec (n - 8) 8), (Z.ltb_spec n 16); lia || reflexivity.
  - rewrite Z.testbit_neg_r by lia. reflexivity.
Qed.

(** The bit operations of the two byte writes, on a 16-bit register. *)
Lemma write_high_byte (x v : Z) :
  0 <= x < 2 ^ 16 -> 0 <= v < 256 ->
  Z.lor (Z.land x (Z.lnot 0xFF00)) (Z.shiftl v 8) = v * 256 + x mod 256.
Proof.
  intros Hx Hv.
  assert (Hdisj : Z.land (v * 2 ^ 8) (x mod 2 ^ 8) = 0).
  { apply Z.bits_inj'. intros n Hn. rewrite Z.land_spec, Z.bits_0.
    destruct (Z.lt_ge_cases n 8).
    - rewrite Z.mul_pow2_bits_low by lia. reflexivity.
    - rewrite Z.mod_pow2_bits_high by lia. apply andb_false_r. }
  change 256 with (2 ^ 8).
  rewrite (Z.add_nocarry_lxor _ _ Hdisj), (Z.lxor_lor _ _ Hdisj).
  apply Z.bits_inj'. intros n Hn.
  rewrite !Z.lor_spec, Z.land_spec, Z.lnot_spec, testbit_FF00, Z.shiftl_spec by lia.
  destruct (Z.lt_ge_cases n 8).
  - rewrite Z.mul_pow2_bits_low, Z.mod_pow2_bits_low, (Z.testbit_neg_r v (n - 8)) by lia.
    destruct (Z.leb_spec 8 n); [lia |]. simpl. now rewrite andb_true_r, !orb_false_r.
  - rewrite Z.mul_pow2_bits, Z.mod_pow2_bits_high by lia.
    rewrite orb_false_r.
    destruct (Z.lt_ge_cases n 16).
    + destruct (Z.leb_spec 8 n), (Z.ltb_spec n 16); try lia.
      simpl. now rewrite andb_false_r.
    + rewrite (testbit_small x 16 n) by lia. reflexivity.
Qed.

Lemma write_low_byte (x v : Z) :
  0 <= x < 2 ^ 16 -> 0 <= v < 256 ->
  Z.lor (Z.land x (Z.lnot 0xFF)) v = x / 256 * 256 + v.
Proof.
  intros Hx Hv.
  assert (Hdisj : Z.land (x / 2 ^ 8 * 2 ^ 8) v = 0).
  { apply Z.bits_inj'. intros n Hn. rewrite Z.land_spec, Z.bits_0.
    destruct (Z.lt_ge_cases n 8).
    - rewrite Z.mul_pow2_bits_low by lia. reflexivity.
    - rewrite (testbit_small v 8 n) by (change (2 ^ 8) with 256; lia).
      apply andb_false_r. }
  change 256 with (2 ^ 8).
  rewrite (Z.add_nocarry_lxor _ _ Hdisj), (Z.lxor_lor _ _ Hdisj).
  apply Z.bits_inj'. intros n Hn.
  rewrite !Z.lor_spec, Z.land_spec, Z.lnot_spec, testbit_FF by lia.
  f_equal.
  destruct (Z.lt_ge_cases n 8).
  - rewrite Z.mul_pow2_bits_low by lia.
    destruct (Z.ltb_spec n 8); [| lia]. apply andb_false_r.
  - rewrite Z.mul_pow2_bits, Z.div_pow2_bits by lia.
    destruct (Z.ltb_spec n 8); [lia |]. rewrite andb_true_r.
    f_equal. lia.
Qed.

Lemma high_then_low (hi lo x : Z) :
  0 <= x -> (hi * 256 + x mod 256) / 256 * 256 + lo = hi * 256 + lo.
Proof.
  intros Hx. pose proof (Z.mod_pos_bound x 256 ltac:(lia)) as Hr.
  rewrite <- (Z.div_unique (hi * 256 + x mod 256) 256 hi (x mod 256)); lia.
Qed.

Lemma high_byte_range (hi x : Z) :
  0 <= hi < 256 -> 0 <= x -> 0 <= hi * 256 + x mod 256 < 2 ^ 16.
Proof.
  intros Hhi Hx. pose proof (Z.mod_pos_bound x 256 ltac:(lia)).
  change (2 ^ 16) with 65536. lia.
Qed.

(** The bits of a number put together from an upper part and [k] lower
    bits. *)
Lemma testbit_join (a b k n : Z) :
  0 <= k -> 0 <= b < 2 ^ k -> 0 <= n ->
  Z.testbit (a * 2 ^ k + b) n = if n <? k then Z.testbit b n else Z.testbit a (n - k).
Proof.
  intros Hk Hb Hn. assert (Hp : 0 < 2 ^ k) by (apply Z.pow_pos_nonneg; lia).
  destruct (Z.ltb_spec n k).
  - rewrite <- (Z.mod_pow2_bits_low (a * 2 ^ k + b) k n) by lia.
    rewrite Z.add_comm, Z.mod_add, Z.mod_small by lia. reflexivity.
  - replace n with (n - k + k) at 1 by lia.
    rewrite <- Z.div_pow2_bits by lia.
    rewrite Z.div_add_l, Z.div_small by lia. now rewrite Z.add_0_r.
Qed.

(** The same byte writes on a register of any width: the bits above the
    low sixteen are kept. *)
Lemma write_high_byte_wide (x v : Z) :
  0 <= x -> 0 <= v < 256 ->
  Z.lor (Z.land x (Z.lnot 0xFF00)) (Z.shiftl v 8)
  = x / 65536 * 65536 + (v * 256 + x mod 256).
Proof.
  intros Hx Hv.
  pose proof (Z.mod_pos_bound x 256 ltac:(lia)) as Hr.
  apply Z.bits_inj'. intros n Hn.
  rewrite Z.lor_spec, Z.land_spec, Z.lnot_spec, testbit_FF00, Z.shiftl_spec by lia.
  change 65536 with (2 ^ 16) at 2.
  rewrite testbit_join by (change (2 ^ 16) with 65536; lia).
  change 256 with (2 ^ 8) at 1 2.
  rewrite testbit_join by (change (2 ^ 8) with 256; lia).
  destruct (Z.ltb_spec n 16) as [Hlt | Hge].
  - destruct (Z.ltb_spec n 8).
    + rewrite Z.mod_pow2_bits_low, (Z.testbit_neg_r v (n - 8)) by lia.
      destruct (Z.leb_spec 8 n); [lia |]. simpl. now rewrite andb_true_r, orb_false_r.
    + destruct (Z.leb_spec 8 n); [| lia]. simpl. now rewrite andb_false_r.
  - destruct (Z.leb_spec 8 n); [| lia]. simpl. rewrite andb_true_r.
    rewrite (testbit_small v 8 (n - 8)) by (change (2 ^ 8) with 256; lia).
    rewrite orb_false_r. change 65536 with (2 ^ 16).
    rewrite Z.div_pow2_bits by lia. f_equal. lia.
Qed.

Lemma write_low_byte_wide (x v : Z) :
  0 <= v < 256 ->
  Z.lor (Z.land x (Z.lnot 0xFF)) v = x / 256 * 256 + v.
Proof.
  intros Hv.
  apply Z.bits_inj'. intros n Hn.
  rewrite Z.lor_spec, Z.land_spec, Z.lnot_spec, testbit_FF by lia.
  change 256 with (2 ^ 8) at 2.
  rewrite testbit_join by (change (2 ^ 8) with 256; lia).
  destruct (Z.ltb_spec n 8).
  - simpl. now rewrite andb_false_r.
  - simpl. rewrite andb_true_r.
    rewrite (testbit_small v 8 n) by (change (2 ^ 8) with 256; lia).
    rewrite orb_false_r. change 256 with (2 ^ 8).
    rewrite Z.div_pow2_bits by lia. f_equal. lia.
Qed.

(** The parameter after both byte writes, and what a shift to the upper
    half leaves of it. *)
Lemma parameter_joined (hi lo x : Z) :
  0 <= x -> 0 <= hi < 256 -> 0 <= lo < 256 ->
  (x / 65536 * 65536 + (hi * 256 + x mod 256)) / 256 * 256 + lo
  = x / 65536 * 65536 + (hi * 256 + lo).
Proof.
  intros Hx Hhi Hlo. pose proof (Z.mod_pos_bound x 256 ltac:(lia)) as Hr.
  rewrite <- (Z.div_unique (x / 65536 * 65536 + (hi * 256 + x mod 256)) 256
                (x / 65536 * 256 + hi) (x mod 256)); lia.
Qed.

Lemma parameter_shifted (hi lo u : Z) :
  0 <= hi < 256 -> 0 <= lo < 256 ->
  u32 (Z.shiftl (u * 65536 + (hi * 256 + lo)) 16) = (hi * 256 + lo) * 65536.
Proof.
  intros Hhi Hlo. rewrite Z.shiftl_mul_pow2 by lia. unfold u32.
  change (2 ^ 16) with 65536. change (2 ^ 32) with 4294967296.
  symmetry. apply (Z.mod_unique _ _ u); lia.
Qed.

Lemma registers_apart (K : nmp_consts) :
  distinct_registers K ->
  let c := PY_NMP_CNT K in
  let p := PY_NMP_PARAMETER K in
  let d := PY_NMP_DATA_IN K in
  c <> p /\ c <> p + 1 /\ c <> d /\ c <> d + 1
  /\ c + 1 <> p /\ c + 1 <> p + 1 /\ c + 1 <> d /\ c + 1 <> d + 1
  /\ p <> d /\ p <> d + 1 /\ p + 1 <> d /\ p + 1 <> d + 1.
Proof.
  unfold distinct_registers. intros Hd.
  repeat (apply NoDup_cons in Hd as [? Hd]).
  repeat match goal with
         | Hx : _ ∉ _ :: _ |- _ => apply not_elem_of_cons in Hx as [? ?]
         end.
  cbv zeta. repeat split; assumption.
Qed.

Lemma sample_registers_distinct : distinct_registers Sample.consts.
Proof. apply (bool_decide_unpack _). vm_compute. reflexivity. Qed.

(** Decides the address tests of [write_nmp] in the goal. *)
Ltac address_tests Hd :=
  let Ha := fresh "Ha" in
  pose proof (registers_apart _ Hd) as Ha; cbv zeta in Ha;
  repeat match goal with
         | |- context [?a =? ?a] => rewrite (Z.eqb_refl a)
         | |- context [?a =? ?b] =>
             rewrite (proj2 (Z.eqb_neq a b)) by (clear -Ha; lia)
         end;
  clear Ha.

Section Registers.

Variables (K : nmp_consts) (H : host) (irq : AGB_MMU -> option AGB_MMU).
Hypothesis Hd : distinct_registers K.

Lemma write_seq_one (a v : Z) (m : AGB_MMU) :
  write_seq K H irq [(a, v)] m = write_nmp K H irq a v m.
Proof. cbn [write_seq]. now destruct (write_nmp K H irq a v m). Qed.

Lemma write_seq_cons (a v : Z) (ws : list (Z * Z)) (m : AGB_MMU) :
  write_seq K H irq ((a, v) :: ws) m
  = write_nmp K H irq a v m ≫= write_seq K H irq ws.
Proof. reflexivity. Qed.

Lemma write_seq_app (ws1 ws2 : list (Z * Z)) (m : AGB_MMU) :
  write_seq K H irq (ws1 ++ ws2) m
  = write_seq K H irq ws1 m ≫= write_seq K H irq ws2.
Proof.
  revert m. induction ws1 as [| [a v] ws1 IH]; intros m; [reflexivity |].
  rewrite <- app_comm_cons, !write_seq_cons.
  destruct (write_nmp K H irq a v m) as [m' |]; [apply IH | reflexivity].
Qed.

Lemma write_control_high (v : Z) (m : AGB_MMU) :
  0 <= access_mode m < 2 ^ 16 -> 0 <= v < 256 ->
  write_nmp K H irq (PY_NMP_CNT K) v m
  = Some (m <| access_mode := v * 256 + access_mode m mod 256 |>).
Proof.
  intros Hm Hv. unfold write_nmp. rewrite Z.eqb_refl. cbv zeta.
  simpl (access_mode _). now rewrite write_high_byte.
Qed.

Lemma write_control_low (v : Z) (m : AGB_MMU) :
  0 <= access_mode m < 2 ^ 16 -> 0 <= v < 256 ->
  write_nmp K H irq (PY_NMP_CNT K + 1) v m
  = let mode := access_mode m / 256 * 256 + v in
    let m1 := m <| access_mode := mode |> in
    if (mode =? 0x0808) && bool_decide (op_state m = PLAY_YAN_INIT) then
      Some (m1 <| irq_delay := 30 |> <| op_state := PLAY_YAN_BOOT_SEQUENCE |>)
    else if (mode =? 0x0404) && bool_decide (op_state m = PLAY_YAN_PROCESS_CMD) then
      match command_stream m with
      | b0 :: b1 :: _ =>
          process_nmp_cmd K H irq (m1 <| cmd := Z.lor (Z.shiftl b0 8) b1 |>)
      | _ => Some m1
      end
    else Some m1.
Proof.
  intros Hm Hv. unfold write_nmp. address_tests Hd. cbv zeta.
  simpl (access_mode _). simpl (op_state _). simpl (command_stream _).
  rewrite write_low_byte by assumption. reflexivity.
Qed.

Lemma write_control (hi lo : Z) (m : AGB_MMU) :
  0 <= access_mode m < 2 ^ 16 -> 0 <= hi < 256 -> 0 <= lo < 256 ->
  write_seq K H irq [(PY_NMP_CNT K, hi); (PY_NMP_CNT K + 1, lo)] m
  = write_nmp K H irq (PY_NMP_CNT K + 1) lo
      (m <| access_mode := hi * 256 + access_mode m mod 256 |>).
Proof.
  intros Hm Hhi Hlo. rewrite write_seq_cons, write_control_high by assumption.
  cbn [mbind option_bind]. apply write_seq_one.
Qed.

(** X1. Writing the two bytes of the control register, high byte first,
    leaves the 16-bit value [hi * 256 + lo] in [access_mode] and changes
    nothing else, unless the value completes one of the two transitions
    the low-byte write tests for (0x0808 in the INIT state, 0x0404 in the
    PROCESS_CMD state). *)
Theorem control_register_assembly (hi lo : Z) (m : AGB_MMU) :
  0 <= access_mode m < 2 ^ 16 -> 0 <= hi < 256 -> 0 <= lo < 256 ->
  (hi * 256 + lo = 0x0808 -> op_state m <> PLAY_YAN_INIT) ->
  (hi * 256 + lo = 0x0404 -> op_state m <> PLAY_YAN_PROCESS_CMD) ->
  write_seq K H irq [(PY_NMP_CNT K, hi); (PY_NMP_CNT K + 1, lo)] m
  = Some (m <| access_mode := hi * 256 + lo |>).
Proof.
  intros Hm Hhi Hlo Hboot Hcmd.
  rewrite write_control, write_control_low by
    (assumption || (simpl; apply high_byte_range; lia)).
  cbv zeta. simpl (access_mode _). simpl (op_state _).
  rewrite high_then_low by lia.
  destruct (Z.eqb_spec (hi * 256 + lo) 0x0808) as [E8 | _].
  - rewrite bool_decide_eq_false_2 by auto. simpl.
    destruct (Z.eqb_spec (hi * 256 + lo) 0x0404); [lia |]. reflexivity.
  - simpl. destruct (Z.eqb_spec (hi * 256 + lo) 0x0404) as [E4 | _].
    + rewrite bool_decide_eq_false_2 by auto. reflexivity.
    + reflexivity.
Qed.

(** X2. In the INIT state, writing 0x0808 to the control register starts
    the boot sequence: the interrupt delay is set to 30 and the responder
    enters BOOT_SEQUENCE, with 0x0808 left in [access_mode]. *)
Theorem boot_write (m : AGB_MMU) :
  0 <= access_mode m < 2 ^ 16 -> op_state m = PLAY_YAN_INIT ->
  write_seq K H irq (write16 (PY_NMP_CNT K) 0x0808) m
  = Some (m <| access_mode := 0x0808 |> <| irq_delay := 30 |>
            <| op_state := PLAY_YAN_BOOT_SEQUENCE |>).
Proof.
  intros Hm Hop. unfold write16. change (Z.shiftr 0x0808 8) with 8.
  change (Z.land 0x0808 0xFF) with 8.
  rewrite write_control, write_control_low by
    (assumption || lia || (simpl; apply high_byte_range; lia)).
  cbv zeta. simpl (access_mode _). simpl (op_state _).
  rewrite high_then_low by lia.
  change (8 * 256 + 8 =? 0x0808) with true. rewrite Hop.
  rewrite bool_decide_eq_true_2 by reflexivity. reflexivity.
Qed.

Lemma write_parameter_high (v : Z) (m : AGB_MMU) :
  0 <= access_param m -> 0 <= v < 256 ->
  write_nmp K H irq (PY_NMP_PARAMETER K) v m
  = Some (m <| access_param :=
            access_param m / 65536 * 65536 + (v * 256 + access_param m mod 256) |>).
Proof.
  intros Hm Hv. unfold write_nmp. address_tests Hd. cbv zeta.
  simpl (access_param _). now rewrite write_high_byte_wide.
Qed.

Lemma write_parameter_low (v : Z) (m : AGB_MMU) :
  0 <= v < 256 ->
  write_nmp K H irq (PY_NMP_PARAMETER K + 1) v m
  = let m1 := m <| access_param := access_param m / 256 * 256 + v |> in
    if access_mode m =? 0x1010 then
      Some (m1 <| access_param := u32 (Z.shiftl (access_param m1) 16) |>)
    else if access_mode m =? 0 then access_nmp_io K H irq m1
    else Some m1.
Proof.
  intros Hv. unfold write_nmp. address_tests Hd. cbv zeta.
  simpl (access_param _). simpl (access_mode _).
  rewrite write_low_byte_wide by assumption. reflexivity.
Qed.

Lemma write_parameter (hi lo : Z) (m : AGB_MMU) :
  0 <= access_param m -> 0 <= hi < 256 -> 0 <= lo < 256 ->
  write_seq K H irq [(PY_NMP_PARAMETER K, hi); (PY_NMP_PARAMETER K + 1, lo)] m
  = write_nmp K H irq (PY_NMP_PARAMETER K + 1) lo
      (m <| access_param :=
         access_param m / 65536 * 65536 + (hi * 256 + access_param m mod 256) |>).
Proof.
  intros Hm Hhi Hlo. rewrite write_seq_cons, write_parameter_high by assumption.
  cbn [mbind option_bind]. apply write_seq_one.
Qed.

(** X3. Writing the two bytes of the parameter register, high byte first,
    replaces the low sixteen bits of the parameter by [hi * 256 + lo] and
    keeps the bits above them; what the low-byte write then does depends
    on [access_mode]: under 0x1010 the parameter is shifted up by sixteen
    bits, which leaves [(hi * 256 + lo) * 65536] whatever the upper half
    was; under 0 an access of the device is carried out with the
    assembled parameter; and under any other mode it is only stored. *)
Theorem parameter_register_assembly (hi lo : Z) (m : AGB_MMU) :
  0 <= access_param m < 2 ^ 32 -> 0 <= hi < 256 -> 0 <= lo < 256 ->
  write_seq K H irq [(PY_NMP_PARAMETER K, hi); (PY_NMP_PARAMETER K + 1, lo)] m
  = let upper := access_param m / 65536 * 65536 in
    if access_mode m =? 0x1010 then
      Some (m <| access_param := (hi * 256 + lo) * 65536 |>)
    else if access_mode m =? 0 then
      access_nmp_io K H irq (m <| access_param := upper + (hi * 256 + lo) |>)
    else Some (m <| access_param := upper + (hi * 256 + lo) |>).
Proof.
  intros Hm Hhi Hlo.
  rewrite write_parameter, write_parameter_low by lia.
  cbv zeta. simpl (access_param _). simpl (access_mode _).
  rewrite parameter_joined by lia.
  destruct (access_mode m =? 0x1010).
  - now rewrite parameter_shifted by lia.
  - destruct (access_mode m =? 0); reflexivity.
Qed.

Lemma assign_same_stream (m : AGB_MMU) :
  m <| command_stream := command_stream m |> = m.
Proof. destruct m. reflexivity. Qed.

Lemma write_data_in (a v : Z) (m : AGB_MMU) :
  a = PY_NMP_DATA_IN K \/ a = PY_NMP_DATA_IN K + 1 ->
  write_nmp K H irq a v m
  = if nz (firmware_addr m) then
      if (0 <=? firmware_addr m) && (firmware_addr m <? size (firmware m)) then
        Some (m <| firmware := store (firmware_addr m) v (firmware m) |>
                <| firmware_addr := u32 (firmware_addr m + 1) |>)
      else None
    else if bool_decide (op_state m = PLAY_YAN_PROCESS_CMD) then
      Some (m <| command_stream := command_stream m ++ [v] |>)
    else Some m.
Proof.
  intros [-> | ->]; unfold write_nmp; address_tests Hd; reflexivity.
Qed.

(** The bytes of [data_in] reach the command stream. *)
Lemma stream_input (s : list Z) (m : AGB_MMU) :
  firmware_addr m = 0 -> op_state m = PLAY_YAN_PROCESS_CMD ->
  write_seq K H irq (data_in K s) m
  = Some (m <| command_stream := command_stream m ++ s |>).
Proof.
  revert m. induction s as [| b s IH]; intros m Hfw Hop.
  - simpl. now rewrite app_nil_r, assign_same_stream.
  - unfold data_in. rewrite fmap_cons, write_seq_cons.
    rewrite write_data_in, Hfw, Hop by now left.
    change (nz 0) with false. rewrite bool_decide_eq_true_2 by reflexivity.
    cbn [mbind option_bind]. fold (data_in K s). rewrite IH by assumption.
    simpl. now rewrite <- app_assoc.
Qed.

(** X4. While the command window is open (PROCESS_CMD, firmware address
    0), any run of writes to the data-in register, at either of its two
    addresses, appends the written bytes in order to the command stream
    and changes nothing else. *)
Theorem command_bytes_accumulate (ws : list (Z * Z)) (m : AGB_MMU) :
  Forall (fun w => w.1 = PY_NMP_DATA_IN K \/ w.1 = PY_NMP_DATA_IN K + 1) ws ->
  firmware_addr m = 0 -> op_state m = PLAY_YAN_PROCESS_CMD ->
  write_seq K H irq ws m
  = Some (m <| command_stream := command_stream m ++ ws.*2 |>).
Proof.
  intros Hws. revert m. induction Hws as [| [a v] ws Ha _ IH]; intros m Hfw Hop.
  - simpl. rewrite app_nil_r. now rewrite assign_same_stream.
  - rewrite write_seq_cons, (write_data_in a v m Ha), Hfw, Hop.
    change (nz 0) with false. rewrite bool_decide_eq_true_2 by reflexivity.
    cbn [mbind option_bind]. rewrite IH by assumption.
    simpl. now rewrite <- app_assoc.
Qed.

(** X5. With a firmware address [a > 0], a run of writes to data-in
    stores the bytes in the firmware buffer from [a] on and advances the
    address by their number; the command stream takes none of them. *)
Theorem firmware_bytes_stored (ws : list (Z * Z)) (m : AGB_MMU) :
  Forall (fun w => w.1 = PY_NMP_DATA_IN K \/ w.1 = PY_NMP_DATA_IN K + 1) ws ->
  0 < firmware_addr m ->
  firmware_addr m + size ws <= size (firmware m) ->
  size (firmware m) < 2 ^ 32 ->
  exists m',
    write_seq K H irq ws m = Some m'
    /\ firmware m'
       = take (Z.to_nat (firmware_addr m)) (firmware m) ++ ws.*2
         ++ drop (Z.to_nat (firmware_addr m) + length ws) (firmware m)
    /\ firmware_addr m' = firmware_addr m + size ws
    /\ command_stream m' = command_stream m
    /\ op_state m' = op_state m.
Proof.
  intros Hws. revert m.
  induction Hws as [| [a v] ws Ha _ IH]; intros m Hfw Hfit Hmax;
    change (2 ^ 32) with 4294967296 in Hmax.
  - exists m. split; [reflexivity |]. unfold size in *. simpl.
    rewrite Nat.add_0_r, take_drop, Z.add_0_r.
    repeat split; reflexivity.
  - rewrite write_seq_cons, (write_data_in a v m Ha).
    unfold size in Hfit, Hmax. cbn [length] in Hfit.
    unfold nz. destruct (Z.eqb_spec (firmware_addr m) 0); [lia |]. cbn [negb].
    destruct (Z.leb_spec 0 (firmware_addr m)); [| lia].
    unfold size at 1.
    destruct (Z.ltb_spec (firmware_addr m) (Z.of_nat (length (firmware m)))); [| lia].
    cbn [andb mbind option_bind].
    set (m1 := m <| firmware := _ |> <| firmware_addr := _ |>).
    assert (Ha1 : firmware_addr m1 = firmware_addr m + 1).
    { subst m1. simpl. apply u32_small. change (2 ^ 32) with 4294967296. lia. }
    assert (Hl1 : length (firmware m1) = length (firmware m)).
    { subst m1. simpl. apply length_insert. }
    destruct (IH m1) as (m' & Hrun & Hfwm & Haddr & Hcs & Hop).
    { lia. }
    { unfold size. rewrite Ha1, Hl1. lia. }
    { unfold size. rewrite Hl1. change (2 ^ 32) with 4294967296. lia. }
    exists m'. split; [exact Hrun |]. split; [| split; [| split]].
    + rewrite Hfwm, Ha1. subst m1. simpl (firmware _). unfold store.
      replace (Z.to_nat (firmware_addr m + 1)) with (S (Z.to_nat (firmware_addr m))) by lia.
      rewrite fmap_cons. cbn [snd].
      rewrite (take_S_r _ _ v) by (apply list_lookup_insert_eq; lia).
      rewrite take_insert_ge by lia.
      rewrite drop_insert_lt by lia.
      rewrite <- app_assoc. cbn [length]. simpl app.
      now rewrite Nat.add_succ_r.
    + rewrite Haddr, Ha1. unfold size. cbn [length]. lia.
    + exact Hcs.
    + exact Hop.
Qed.

End Registers.

Lemma control_register_assembly_witness :
  write_seq Sample.consts Sample.machine Sample.irq
    [(PY_NMP_CNT Sample.consts, 0x10); (PY_NMP_CNT Sample.consts + 1, 0x10)]
    Sample.power_on
  = Some (Sample.power_on <| access_mode := 0x1010 |>).
Proof.
  refine (control_register_assembly Sample.consts Sample.machine Sample.irq
            sample_registers_distinct 0x10 0x10 Sample.power_on _ _ _ _ _);
    try (simpl; lia); vm_compute; discriminate.
Defined.

Lemma boot_write_witness :
  write_seq Sample.consts Sample.machine Sample.irq
    (write16 (PY_NMP_CNT Sample.consts) 0x0808) Sample.power_on
  = Some (Sample.power_on <| access_mode := 0x0808 |> <| irq_delay := 30 |>
            <| op_state := PLAY_YAN_BOOT_SEQUENCE |>).
Proof.
  refine (boot_write Sample.consts Sample.machine Sample.irq
            sample_registers_distinct Sample.power_on _ _);
    [simpl; lia | reflexivity].
Defined.

Lemma parameter_register_assembly_witness :
  write_seq Sample.consts Sample.machine Sample.irq
    [(PY_NMP_PARAMETER Sample.consts, 0x56); (PY_NMP_PARAMETER Sample.consts + 1, 0x78)]
    (Sample.power_on <| access_mode := 0x0404 |> <| access_param := 0x12340000 |>)
  = Some (Sample.power_on <| access_mode := 0x0404 |> <| access_param := 0x12345678 |>).
Proof.
  refine (parameter_register_assembly Sample.consts Sample.machine Sample.irq
            sample_registers_distinct 0x56 0x78
            (Sample.power_on <| access_mode := 0x0404 |>
               <| access_param := 0x12340000 |>) _ _ _);
    simpl; lia.
Defined.

Lemma command_bytes_accumulate_witness :
  write_seq Sample.consts Sample.machine Sample.irq
    [(PY_NMP_DATA_IN Sample.consts, 0x80); (PY_NMP_DATA_IN Sample.consts + 1, 0x01)]
    (Sample.power_on <| op_state := PLAY_YAN_PROCESS_CMD |>)
  = Some (Sample.power_on <| op_state := PLAY_YAN_PROCESS_CMD |>
            <| command_stream := [0x80; 0x01] |>).
Proof.
  refine (command_bytes_accumulate Sample.consts Sample.machine Sample.irq
            sample_registers_distinct _
            (Sample.power_on <| op_state := PLAY_YAN_PROCESS_CMD |>) _ _ _);
    [| reflexivity | reflexivity].
  constructor; [left; reflexivity |].
  constructor; [right; reflexivity | constructor].
Defined.

Lemma firmware_bytes_stored_witness :
  exists m',
    write_seq Sample.consts Sample.machine Sample.irq
      [(PY_NMP_DATA_IN Sample.consts, 0xAA); (PY_NMP_DATA_IN Sample.consts, 0xBB)]
      (Sample.power_on <| firmware_addr := 0x200 |>) = Some m'
    /\ take 3 (drop 0x1FF (firmware m')) = [0; 0xAA; 0xBB]
    /\ firmware_addr m' = 0x202
    /\ command_stream m' = [].
Proof.
  destruct (firmware_bytes_stored Sample.consts Sample.machine Sample.irq
              sample_registers_distinct
              [(PY_NMP_DATA_IN Sample.consts, 0xAA); (PY_NMP_DATA_IN Sample.consts, 0xBB)]
              (Sample.power_on <| firmware_addr := 0x200 |>))
    as (m' & Hrun & Hfw & Haddr & Hcs & _).
  - constructor; [left; reflexivity |].
    constructor; [left; reflexivity | constructor].
  - simpl. lia.
  - evaluate.
  - evaluate.
  - exists m'. split; [exact Hrun |].
    split; [rewrite Hfw; reflexivity |]. split; [exact Haddr | exact Hcs].
Defined.

(** ** Status accesses *)

Section StatusAccess.

Variables (K : nmp_consts) (H : host) (irq : AGB_MMU -> option AGB_MMU).

(** Which branch of [access_nmp_io] an access takes. *)
Lemma access_kind (m : AGB_MMU) :
  access_param m <> 0 -> access_param m <> 0x101 -> access_param m <> 0x202 ->
  access_param m <> nmp_audio_index m ->
  access_nmp_io K H irq m = access_status (m <| firmware_addr := 0 |>).
Proof.
  intros H0 H1 H2 H3. unfold access_nmp_io. cbv zeta.
  simpl (access_param _). simpl (nmp_audio_index _). unfold nz.
  destruct (Z.eqb_spec (access_param m) 0); [contradiction |].
  destruct (Z.eqb_spec (access_param m) 0x101); [contradiction |].
  destruct (Z.eqb_spec (access_param m) 0x202); [contradiction |].
  destruct (Z.eqb_spec (access_param m) (nmp_audio_index m)); [contradiction |].
  reflexivity.
Qed.

(** The access that opens the command window. *)
Lemma command_window (m : AGB_MMU) :
  access_param m = 0x10F -> nmp_audio_index m <> 0x10F ->
  exists m',
    access_nmp_io K H irq m = Some m'
    /\ op_state m' = PLAY_YAN_PROCESS_CMD
    /\ command_stream m' = []
    /\ firmware_addr m' = 0
    /\ nmp_valid_command m' = false
    /\ reg_if_hi m'
       = (if nmp_valid_command m then Z.lor (reg_if_hi m) 0x20 else reg_if_hi m)
    /\ nmp_ticks m' = u32 (nmp_ticks m + 6)
    /\ access_mode m' = access_mode m
    /\ same_player_state m m'.
Proof.
  intros Hp Hidx. rewrite access_kind by (rewrite Hp; lia || congruence).
  unfold access_status. cbv zeta. simpl (access_param _). rewrite Hp.
  cbn [Z.eqb Pos.eqb]. simpl (nmp_valid_command _).
  destruct (nmp_valid_command m) eqn:Hv; cbn [mbind option_bind];
    (eexists; split; [reflexivity |]); unfold same_player_state;
    repeat split; exact Hv.
Qed.

(** X6. An access with parameter 0x10F opens the command window: the
    responder enters PROCESS_CMD with an empty command stream and firmware
    address 0, the tick counter advances by 6 and its 16-bit value is the
    status word, a pending valid command is acknowledged by the interrupt
    flag 0x20, and neither the opcode, the card data nor the player state
    change. *)
Theorem command_window_access (m : AGB_MMU) :
  access_param m = 0x10F -> nmp_audio_index m <> 0x10F ->
  (2 <= length (nmp_status_data m))%nat ->
  exists m',
    access_nmp_io K H irq m = Some m'
    /\ op_state m' = PLAY_YAN_PROCESS_CMD
    /\ command_stream m' = []
    /\ firmware_addr m' = 0
    /\ access_param m' = 0
    /\ nmp_data_index m' = 0
    /\ nmp_ticks m' = u32 (nmp_ticks m + 6)
    /\ echoes (u16 (u32 (nmp_ticks m + 6))) m'
    /\ nmp_valid_command m' = false
    /\ reg_if_hi m'
       = (if nmp_valid_command m then Z.lor (reg_if_hi m) 0x20 else reg_if_hi m)
    /\ access_mode m' = access_mode m
    /\ cmd m' = cmd m
    /\ card_data m' = card_data m
    /\ same_player_state m m'.
Proof.
  intros Hp Hidx Hlen. rewrite access_kind by (rewrite Hp; lia || congruence).
  unfold access_status. cbv zeta. simpl (access_param _). rewrite Hp.
  cbn [Z.eqb Pos.eqb]. simpl (nmp_valid_command _).
  destruct (nmp_valid_command m) eqn:Hv; cbn [mbind option_bind];
    (eexists; split; [reflexivity |]);
    (do 6 (split; [reflexivity |]));
    (split; [apply status_word_echo; simpl; lia |]);
    unfold same_player_state; repeat split; exact Hv.
Qed.

(** One cartridge status poll during the boot phase. *)
Lemma boot_poll (m : AGB_MMU) (d : Z) :
  access_param m = 0x100 -> nmp_audio_index m <> 0x100 ->
  (2 <= length (nmp_status_data m))%nat ->
  0 <= nmp_init_stage m < 4 ->
  nmp_boot_data m !! Z.to_nat (Z.shiftr (nmp_init_stage m) 1) = Some d ->
  exists m',
    access_nmp_io K H irq m = Some m'
    /\ echoes (u16 d) m'
    /\ nmp_init_stage m' = nmp_init_stage m + 1
    /\ reg_if_hi m'
       = (if nmp_init_stage m =? 1 then Z.lor (reg_if_hi m) 0x20 else reg_if_hi m)
    /\ nmp_boot_data m' = nmp_boot_data m
    /\ nmp_audio_index m' = nmp_audio_index m
    /\ length (nmp_status_data m') = length (nmp_status_data m).
Proof.
  intros Hp Hidx Hlen Hstage Hd.
  rewrite access_kind by (rewrite Hp; lia || congruence).
  unfold access_status. cbv zeta. simpl (access_param _).
  rewrite Hp. cbn [Z.eqb Pos.eqb]. simpl (nmp_init_stage _).
  simpl (nmp_boot_data _).
  destruct (Z.ltb_spec (nmp_init_stage m) 4); [| lia].
  unfold at_index.
  destruct (Z.leb_spec 0 (Z.shiftr (nmp_init_stage m) 1)) as [_ | Hneg].
  2: { rewrite Z.shiftr_div_pow2 in Hneg by lia.
       assert (0 <= nmp_init_stage m / 2 ^ 1) by (apply Z.div_pos; lia). lia. }
  rewrite Hd. cbn [mbind option_bind].
  replace (nmp_init_stage m + 1 =? 2) with (nmp_init_stage m =? 1)
    by (destruct (Z.eqb_spec (nmp_init_stage m) 1),
                 (Z.eqb_spec (nmp_init_stage m + 1) 2); lia || reflexivity).
  destruct (nmp_init_stage m =? 1); cbn [mbind option_bind];
    (eexists; split; [reflexivity |]);
    (split; [apply status_word_echo; simpl; lia |]);
    repeat split; unfold status_write; simpl; unfold store;
    now rewrite !length_insert.
Qed.

(** X7. The boot handshake: starting at stage 0, the first four status
    polls (parameter 0x100) answer with the first boot word twice and then
    the second boot word twice, the interrupt flag 0x20 is raised by the
    second poll and by no other, and the stage counter ends at 4. *)
Theorem boot_handshake (d0 d1 : Z) (rest : list Z) (m : AGB_MMU) :
  nmp_init_stage m = 0 -> nmp_boot_data m = d0 :: d1 :: rest ->
  nmp_audio_index m <> 0x100 ->
  (2 <= length (nmp_status_data m))%nat ->
  exists m1 m2 m3 m4,
    status_poll K H irq m = Some m1 /\ echoes (u16 d0) m1
    /\ status_poll K H irq m1 = Some m2 /\ echoes (u16 d0) m2
    /\ status_poll K H irq m2 = Some m3 /\ echoes (u16 d1) m3
    /\ status_poll K H irq m3 = Some m4 /\ echoes (u16 d1) m4
    /\ reg_if_hi m1 = reg_if_hi m
    /\ reg_if_hi m2 = Z.lor (reg_if_hi m) 0x20
    /\ reg_if_hi m3 = reg_if_hi m2
    /\ reg_if_hi m4 = reg_if_hi m2
    /\ nmp_init_stage m4 = 4.
Proof.
  intros Hs Hb Hidx Hlen. unfold status_poll.
  destruct (boot_poll (m <| access_param := 0x100 |>) d0)
    as (m1 & R1 & E1 & S1 & I1 & B1 & A1 & L1);
    [reflexivity | exact Hidx | exact Hlen | simpl; lia
    | simpl; rewrite Hs, Hb; reflexivity |].
  simpl in S1, I1, B1, A1, L1. rewrite Hs in S1, I1. simpl in S1, I1.
  destruct (boot_poll (m1 <| access_param := 0x100 |>) d0)
    as (m2 & R2 & E2 & S2 & I2 & B2 & A2 & L2);
    [reflexivity | simpl; congruence | simpl; lia | simpl; lia
    | simpl; rewrite S1, B1, Hb; reflexivity |].
  simpl in S2, I2, B2, A2, L2. rewrite S1 in S2, I2. simpl in S2, I2.
  destruct (boot_poll (m2 <| access_param := 0x100 |>) d1)
    as (m3 & R3 & E3 & S3 & I3 & B3 & A3 & L3);
    [reflexivity | simpl; congruence | simpl; lia | simpl; lia
    | simpl; rewrite S2, B2, B1, Hb; reflexivity |].
  simpl in S3, I3, B3, A3, L3. rewrite S2 in S3, I3. simpl in S3, I3.
  destruct (boot_poll (m3 <| access_param := 0x100 |>) d1)
    as (m4 & R4 & E4 & S4 & I4 & B4 & A4 & L4);
    [reflexivity | simpl; congruence | simpl; lia | simpl; lia
    | simpl; rewrite S3, B3, B2, B1, Hb; reflexivity |].
  simpl in S4, I4. rewrite S3 in S4, I4. simpl in S4, I4.
  exists m1, m2, m3, m4.
  repeat split; try assumption; congruence.
Qed.

(** X8. After the boot phase a status poll answers with the status of
    the last command, and raises no interrupt flag. *)
Theorem status_poll_reply (m : AGB_MMU) :
  4 <= nmp_init_stage m -> nmp_audio_index m <> 0x100 ->
  (2 <= length (nmp_status_data m))%nat ->
  exists m',
    status_poll K H irq m = Some m'
    /\ echoes (u16 (nmp_cmd_status m)) m'
    /\ nmp_data_index m' = 0
    /\ access_param m' = 0
    /\ firmware_addr m' = 0x200
    /\ reg_if_hi m' = reg_if_hi m
    /\ nmp_init_stage m' = nmp_init_stage m
    /\ op_state m' = op_state m
    /\ card_data m' = card_data m
    /\ same_player_state m m'.
Proof.
  intros Hstage Hidx Hlen. unfold status_poll.
  rewrite access_kind by (simpl; lia || congruence).
  unfold access_status. cbv zeta. simpl (access_param _).
  cbn [Z.eqb Pos.eqb]. simpl (nmp_init_stage _). simpl (nmp_cmd_status _).
  destruct (Z.ltb_spec (nmp_init_stage m) 4); [lia |].
  unfold nz. destruct (Z.eqb_spec (nmp_cmd_status m) 0) as [E | _];
    cbn [negb mbind option_bind];
    (eexists; split; [reflexivity |]);
    (split; [rewrite ?E; apply status_word_echo; simpl; lia |]);
    unfold same_player_state; repeat split.
Qed.

(** An access with a parameter that has no meaning of its own leaves the
    responder and the command stream alone and points the firmware
    address at twice the parameter, truncated to 32 bits. *)
Lemma plain_status (m : AGB_MMU) :
  access_param m <> 0 ->
  access_param m <> 0x100 -> access_param m <> 0x101 ->
  access_param m <> 0x10F -> access_param m <> 0x110 -> access_param m <> 0x202 ->
  access_param m <> nmp_audio_index m ->
  exists m',
    access_nmp_io K H irq m = Some m'
    /\ firmware_addr m' = (access_param m * 2) mod 2 ^ 32
    /\ op_state m' = op_state m
    /\ command_stream m' = command_stream m
    /\ firmware m' = firmware m.
Proof.
  intros Hp H100 H101 H10F H110 H202 Hidx.
  rewrite access_kind by assumption.
  unfold access_status. cbv zeta. simpl (access_param _).
  destruct (Z.eqb_spec (access_param m) 0x100); [contradiction |].
  destruct (Z.eqb_spec (access_param m) 0x10F); [contradiction |].
  destruct (Z.eqb_spec (access_param m) 0x110); [contradiction |].
  cbn [mbind option_bind]. eexists. split; [reflexivity |].
  split; [simpl; now rewrite Z.shiftl_mul_pow2 by lia |].
  repeat split.
Qed.

(** X9. An access whose parameter is none of the values with a meaning
    of their own (0, 0x100, 0x101, 0x10F, 0x202, the announced audio
    index) answers with status word 0, points the firmware address at
    twice the parameter truncated to 32 bits (twice the parameter while
    it is below 2^31, that less 2^32 from there on) and resets the
    parameter; it changes the state of the responder only for 0x110,
    which puts it in WAIT. *)
Theorem plain_access (m : AGB_MMU) :
  access_param m <> 0 ->
  access_param m <> 0x100 -> access_param m <> 0x101 ->
  access_param m <> 0x10F -> access_param m <> 0x202 ->
  access_param m <> nmp_audio_index m ->
  (2 <= length (nmp_status_data m))%nat ->
  exists m',
    access_nmp_io K H irq m = Some m'
    /\ echoes 0 m'
    /\ firmware_addr m' = (access_param m * 2) mod 2 ^ 32
    /\ (0 <= access_param m < 2 ^ 31 -> firmware_addr m' = access_param m * 2)
    /\ (2 ^ 31 <= access_param m < 2 ^ 32 ->
        firmware_addr m' = access_param m * 2 - 2 ^ 32)
    /\ access_param m' = 0
    /\ nmp_data_index m' = 0
    /\ op_state m'
       = (if access_param m =? 0x110 then PLAY_YAN_WAIT else op_state m)
    /\ command_stream m' = command_stream m
    /\ card_data m' = card_data m
    /\ firmware m' = firmware m
    /\ reg_if_hi m' = reg_if_hi m
    /\ same_player_state m m'.
Proof.
  intros Hp H100 H101 H10F H202 Hidx Hlen.
  rewrite access_kind by assumption.
  unfold access_status. cbv zeta. simpl (access_param _).
  destruct (Z.eqb_spec (access_param m) 0x100); [contradiction |].
  destruct (Z.eqb_spec (access_param m) 0x10F); [contradiction |].
  assert (Hfw : u32 (Z.shiftl (access_param m) 1) = (access_param m * 2) mod 2 ^ 32).
  { rewrite Z.shiftl_mul_pow2 by lia. reflexivity. }
  assert (Hlow : 0 <= access_param m < 2 ^ 31 ->
                 u32 (Z.shiftl (access_param m) 1) = access_param m * 2).
  { intros Hr. rewrite Hfw. apply Z.mod_small.
    change (2 ^ 31) with 2147483648 in Hr. change (2 ^ 32) with 4294967296. lia. }
  assert (Hhigh : 2 ^ 31 <= access_param m < 2 ^ 32 ->
                  u32 (Z.shiftl (access_param m) 1) = access_param m * 2 - 2 ^ 32).
  { intros Hr. rewrite Hfw. symmetry.
    change (2 ^ 31) with 2147483648 in Hr. change (2 ^ 32) with 4294967296 in *.
    apply (Z.mod_unique _ _ 1); lia. }
  destruct (access_param m =? 0x110); cbn [mbind option_bind];
    (eexists; split; [reflexivity |]);
    (split; [apply (status_word_echo 0); simpl; lia |]);
    (split; [exact Hfw |]); (split; [exact Hlow |]); (split; [exact Hhigh |]);
    unfold same_player_state; repeat split.
Qed.

End StatusAccess.

Lemma command_window_access_witness :
  exists m',
    access_nmp_io Sample.consts Sample.machine Sample.irq
      (Sample.power_on <| access_param := 0x10F |> <| nmp_valid_command := true |>)
    = Some m'
    /\ op_state m' = PLAY_YAN_PROCESS_CMD
    /\ nmp_ticks m' = 6
    /\ echoes 6 m'
    /\ reg_if_hi m' = 0x20.
Proof.
  destruct (command_window_access Sample.consts Sample.machine Sample.irq
              (Sample.power_on <| access_param := 0x10F |> <| nmp_valid_command := true |>))
    as (m' & Hrun & Hop & _ & _ & _ & _ & Hticks & Hecho & _ & Hif & _).
  - reflexivity.
  - evaluate.
  - simpl. lia.
  - exists m'. split; [exact Hrun |]. split; [exact Hop |].
    split; [exact Hticks |]. split; [exact Hecho | exact Hif].
Defined.

Lemma boot_handshake_witness :
  exists m4,
    (m1 ← status_poll Sample.consts Sample.machine Sample.irq Sample.power_on;
     m2 ← status_poll Sample.consts Sample.machine Sample.irq m1;
     m3 ← status_poll Sample.consts Sample.machine Sample.irq m2;
     status_poll Sample.consts Sample.machine Sample.irq m3) = Some m4
    /\ echoes 0x8600 m4
    /\ reg_if_hi m4 = 0x20
    /\ nmp_init_stage m4 = 4.
Proof.
  destruct (boot_handshake Sample.consts Sample.machine Sample.irq
              0x8001 0x8600 [] Sample.power_on)
    as (m1 & m2 & m3 & m4 & R1 & _ & R2 & _ & R3 & _ & R4 & E4 & _ & I2 & _ & I4 & S4).
  - reflexivity.
  - reflexivity.
  - evaluate.
  - simpl. lia.
  - exists m4. rewrite R1. cbn [mbind option_bind]. rewrite R2.
    cbn [mbind option_bind]. rewrite R3. cbn [mbind option_bind].
    split; [exact R4 |]. split; [exact E4 |].
    split; [rewrite I4, I2; reflexivity | exact S4].
Defined.

Lemma status_poll_reply_witness :
  exists m',
    status_poll Sample.consts Sample.machine Sample.irq
      (Sample.power_on <| nmp_init_stage := 4 |> <| nmp_cmd_status := 0x4010 |>)
    = Some m'
    /\ echoes 0x4010 m'
    /\ firmware_addr m' = 0x200
    /\ reg_if_hi m' = 0.
Proof.
  destruct (status_poll_reply Sample.consts Sample.machine Sample.irq
              (Sample.power_on <| nmp_init_stage := 4 |> <| nmp_cmd_status := 0x4010 |>))
    as (m' & Hrun & Hecho & _ & _ & Hfw & Hif & _).
  - simpl. lia.
  - evaluate.
  - simpl. lia.
  - exists m'. split; [exact Hrun |]. split; [exact Hecho |].
    split; [exact Hfw | exact Hif].
Defined.

Lemma plain_access_witness :
  exists m',
    access_nmp_io Sample.consts Sample.machine Sample.irq
      (Sample.power_on <| access_param := 0x80000110 |>) = Some m'
    /\ echoes 0 m'
    /\ firmware_addr m' = 0x220
    /\ op_state m' = op_state Sample.power_on.
Proof.
  destruct (plain_access Sample.consts Sample.machine Sample.irq
              (Sample.power_on <| access_param := 0x80000110 |>))
    as (m' & Hrun & Hecho & Hfw & _ & _ & _ & _ & Hop & _).
  - evaluate.
  - evaluate.
  - evaluate.
  - evaluate.
  - evaluate.
  - evaluate.
  - simpl. lia.
  - exists m'. split; [exact Hrun |]. split; [exact Hecho |].
    split; [exact Hfw | exact Hop].
Defined.

(** ** The command transaction *)

Section Transaction.

Variables (K : nmp_consts) (H : host) (irq : AGB_MMU -> option AGB_MMU).
Hypothesis Hd : distinct_registers K.

(** The first two register writes of a transaction: mode 0, then the
    parameter, whose low-byte write carries out the access. *)
Lemma transaction_opening (m : AGB_MMU) :
  0 <= access_mode m < 2 ^ 16 -> 0 <= access_param m ->
  write_seq K H irq (write16 (PY_NMP_CNT K) 0 ++ write16 (PY_NMP_PARAMETER K) 0x10F) m
  = access_nmp_io K H irq
      (m <| access_mode := 0 |>
         <| access_param := access_param m / 65536 * 65536 + 0x10F |>).
Proof.
  intros Hmode Hparam. rewrite (write_seq_app K H irq).
  change (write16 (PY_NMP_CNT K) 0) with [(PY_NMP_CNT K, 0); (PY_NMP_CNT K + 1, 0)].
  rewrite (write_control K H irq), (write_control_low K H irq Hd)
    by (assumption || lia || (simpl; apply high_byte_range; lia)).
  cbv zeta. simpl (access_mode _). rewrite high_then_low by lia.
  change (0 * 256 + 0) with 0. cbn [Z.eqb andb].
  cbn [mbind option_bind].
  change (write16 (PY_NMP_PARAMETER K) 0x10F)
    with [(PY_NMP_PARAMETER K, 1); (PY_NMP_PARAMETER K + 1, 0x0F)].
  rewrite (write_parameter K H irq Hd), (write_parameter_low K H irq Hd)
    by (assumption || lia).
  cbv zeta. simpl (access_mode _). simpl (access_param _).
  rewrite (parameter_joined) by lia.
  change (1 * 256 + 0x0F) with 0x10F.
  cbn [Z.eqb]. reflexivity.
Qed.

(** X10. A whole command as the guest issues it over the bus: mode 0,
    parameter 0x10F, the stream through data-in, mode 0x0404. The
    parameter write keeps the upper half of the register, so the access
    sees that upper half plus 0x10F. With the upper half clear, as every
    access leaves it, the transaction runs the dispatcher exactly once,
    on a device whose opcode is the first two stream bytes, whose command
    stream is the bytes sent, and whose player state is the one before
    the transaction. With the upper half set, as a parameter write under
    mode 0x1010 leaves it, the access is a plain one: the command window
    is not opened, the state of the responder and the command stream stay
    as they were, the firmware address is not 0, and a data-in byte that
    is stored goes to [firmware], not to the command stream. *)
Theorem command_transaction_dispatch (b0 b1 : Z) (rest : list Z) (m : AGB_MMU) :
  0 <= access_mode m < 2 ^ 16 -> 0 <= access_param m ->
  nmp_audio_index m <> access_param m / 65536 * 65536 + 0x10F ->
  (access_param m < 2 ^ 16 ->
   exists m1,
     write_seq K H irq (command_transaction K (b0 :: b1 :: rest)) m
     = process_nmp_cmd K H irq m1
     /\ cmd m1 = Z.lor (Z.shiftl b0 8) b1
     /\ command_stream m1 = b0 :: b1 :: rest
     /\ op_state m1 = PLAY_YAN_PROCESS_CMD
     /\ access_mode m1 = 0x0404
     /\ nmp_valid_command m1 = false
     /\ reg_if_hi m1
        = (if nmp_valid_command m then Z.lor (reg_if_hi m) 0x20 else reg_if_hi m)
     /\ nmp_ticks m1 = u32 (nmp_ticks m + 6)
     /\ same_player_state m m1)
  /\ (2 ^ 16 <= access_param m ->
      exists m',
        write_seq K H irq
          (write16 (PY_NMP_CNT K) 0 ++ write16 (PY_NMP_PARAMETER K) 0x10F) m = Some m'
        /\ write_seq K H irq (command_transaction K (b0 :: b1 :: rest)) m
           = write_seq K H irq
               (data_in K (b0 :: b1 :: rest) ++ write16 (PY_NMP_CNT K) 0x0404) m'
        /\ firmware_addr m'
           = ((access_param m / 65536 * 65536 + 0x10F) * 2) mod 2 ^ 32
        /\ firmware_addr m' <> 0
        /\ op_state m' = op_state m
        /\ command_stream m' = command_stream m
        /\ forall a v m'',
             a = PY_NMP_DATA_IN K \/ a = PY_NMP_DATA_IN K + 1 ->
             write_nmp K H irq a v m' = Some m'' ->
             command_stream m'' = command_stream m
             /\ op_state m'' = op_state m
             /\ firmware m'' = store (firmware_addr m') v (firmware m)).
Proof.
  intros Hmode Hparam Hidx. split.
  - intros Hlow. unfold command_transaction.
    rewrite app_assoc, (write_seq_app K H irq).
    rewrite transaction_opening by assumption.
    assert (Hup : access_param m / 65536 = 0)
      by (apply Z.div_small; change (2 ^ 16) with 65536 in Hlow; lia).
    rewrite Hup in Hidx |- *. change (0 * 65536 + 0x10F) with 0x10F in *.
    match goal with
    | |- context [access_nmp_io K H irq ?x] =>
        destruct (command_window K H irq x)
          as (mw & -> & Hop & Hcs & Hfw & Hvalid & Hif & Hticks & Hmw & Hsame);
          [reflexivity | simpl; congruence |]
    end.
    simpl in Hif, Hticks, Hmw.
    cbn [mbind option_bind]. rewrite (write_seq_app K H irq).
    rewrite (stream_input K H irq Hd) by assumption.
    cbn [mbind option_bind]. rewrite Hcs, app_nil_l.
    change (write16 (PY_NMP_CNT K) 0x0404)
      with [(PY_NMP_CNT K, 4); (PY_NMP_CNT K + 1, 4)].
    rewrite (write_control K H irq), (write_control_low K H irq Hd)
      by first [ lia
               | simpl (access_mode _); rewrite Hmw; lia
               | simpl (access_mode _); apply high_byte_range; rewrite ?Hmw; lia ].
    cbv zeta. simpl (access_mode _). simpl (op_state _). simpl (command_stream _).
    rewrite Hmw, Hop. simpl (access_mode _).
    change ((4 * 256 + 0 mod 256) / 256 * 256 + 4) with 0x0404.
    cbn [Z.eqb Pos.eqb andb]. rewrite bool_decide_eq_true_2 by reflexivity.
    eexists. split; [reflexivity |].
    split; [reflexivity |]. split; [reflexivity |]. split; [exact Hop |].
    split; [reflexivity |]. split; [exact Hvalid |]. split; [exact Hif |].
    split; [exact Hticks | exact Hsame].
  - intros Hhigh.
    assert (Hu : 1 <= access_param m / 65536).
    { apply Z.div_le_lower_bound; change (2 ^ 16) with 65536 in Hhigh; lia. }
    set (p := access_param m / 65536 * 65536 + 0x10F) in *.
    assert (Hp : 65536 <= p) by (subst p; lia).
    assert (Hfwnz : (p * 2) mod 2 ^ 32 <> 0).
    { intros Hz. apply Z.mod_divide in Hz; [| discriminate].
      destruct Hz as [q Hq]. subst p. change (2 ^ 32) with 4294967296 in Hq. lia. }
    destruct (plain_status K H irq (m <| access_mode := 0 |> <| access_param := p |>))
      as (m' & Hrun & Hfw & Hop & Hcs & Hfirm);
      try (simpl (access_param _); lia); try (simpl; congruence).
    simpl (access_param _) in Hfw. simpl in Hop, Hcs, Hfirm.
    exists m'. split; [rewrite transaction_opening by assumption; exact Hrun |].
    split.
    { unfold command_transaction.
      rewrite app_assoc, (write_seq_app K H irq).
      rewrite transaction_opening by assumption. fold p.
      rewrite Hrun. reflexivity. }
    split; [exact Hfw |]. split; [rewrite Hfw; exact Hfwnz |].
    split; [exact Hop |]. split; [exact Hcs |].
    intros a v m'' Ha Hw. unfold write_nmp in Hw.
    assert (Hin : (a =? PY_NMP_DATA_IN K) || (a =? PY_NMP_DATA_IN K + 1) = true).
    { destruct Ha as [-> | ->]; rewrite Z.eqb_refl; [reflexivity | apply orb_true_r]. }
    pose proof (registers_apart _ Hd) as Hap. cbv zeta in Hap.
    rewrite (proj2 (Z.eqb_neq a (PY_NMP_CNT K))) in Hw by (clear -Ha Hap; lia).
    rewrite (proj2 (Z.eqb_neq a (PY_NMP_CNT K + 1))) in Hw by (clear -Ha Hap; lia).
    rewrite (proj2 (Z.eqb_neq a (PY_NMP_PARAMETER K))) in Hw by (clear -Ha Hap; lia).
    rewrite (proj2 (Z.eqb_neq a (PY_NMP_PARAMETER K + 1))) in Hw by (clear -Ha Hap; lia).
    rewrite Hin in Hw. unfold nz in Hw.
    rewrite (proj2 (Z.eqb_neq (firmware_addr m') 0)) in Hw by (rewrite Hfw; exact Hfwnz).
    cbn [negb] in Hw. cbv zeta in Hw.
    destruct ((0 <=? firmware_addr m') && (firmware_addr m' <? size (firmware m')));
      [| discriminate].
    unsome Hw. subst m''. simpl. rewrite Hcs, Hop, Hfirm. repeat split.
Qed.

End Transaction.

Lemma command_transaction_dispatch_witness :
  (exists m1,
     write_seq Sample.consts Sample.machine Sample.irq
       (command_transaction Sample.consts [0x80; 0x01]) Sample.power_on
     = process_nmp_cmd Sample.consts Sample.machine Sample.irq m1
     /\ cmd m1 = 0x8001
     /\ command_stream m1 = [0x80; 0x01]
     /\ nmp_ticks m1 = 6)
  /\ (exists m',
        write_seq Sample.consts Sample.machine Sample.irq
          (write16 (PY_NMP_CNT Sample.consts) 0
             ++ write16 (PY_NMP_PARAMETER Sample.consts) 0x10F)
          (Sample.power_on <| access_param := 0x12340000 |>) = Some m'
        /\ firmware_addr m' = 0x2468021E
        /\ op_state m' = PLAY_YAN_INIT
        /\ command_stream m' = []).
Proof.
  split.
  - destruct (command_transaction_dispatch Sample.consts Sample.machine Sample.irq
                sample_registers_distinct 0x80 0x01 [] Sample.power_on)
      as [Hlow _].
    + simpl. lia.
    + simpl. lia.
    + evaluate.
    + destruct Hlow as (m1 & Hrun & Hcmd & Hcs & _ & _ & _ & _ & Hticks & _);
        [simpl; lia |].
      exists m1. split; [exact Hrun |]. split; [exact Hcmd |].
      split; [exact Hcs | exact Hticks].
  - destruct (command_transaction_dispatch Sample.consts Sample.machine Sample.irq
                sample_registers_distinct 0x80 0x01 []
                (Sample.power_on <| access_param := 0x12340000 |>))
      as [_ Hhigh].
    + simpl. lia.
    + simpl. lia.
    + evaluate.
    + destruct Hhigh as (m' & Hrun & _ & Hfw & _ & Hop & Hcs & _);
        [simpl; lia |].
      exists m'. split; [exact Hrun |]. split; [exact Hfw |].
      split; [exact Hop | exact Hcs].
Defined.

(** ** Reading back through data-out *)

Lemma assign_same_index (m : AGB_MMU) :
  m <| nmp_data_index := nmp_data_index m |> = m.
Proof. destruct m. reflexivity. Qed.

(** One read at data-out, in terms of [out_buffer]. *)
Lemma read_data_out (K : nmp_consts) (a : Z) (m : AGB_MMU) :
  a = PY_NMP_DATA_OUT K \/ a = PY_NMP_DATA_OUT K + 1 ->
  (16 <= length (nmp_status_data m))%nat ->
  0 <= nmp_data_index m ->
  read_nmp K a m
  = match out_buffer m !! Z.to_nat (nmp_data_index m) with
    | Some b => Some (b, m <| nmp_data_index := nmp_data_index m + 1 |>)
    | None => Some (0, m)
    end.
Proof.
  intros Ha Hlen Hidx. unfold read_nmp, out_buffer.
  assert (Hsel : (a =? PY_NMP_DATA_OUT K) || (a =? PY_NMP_DATA_OUT K + 1) = true).
  { destruct Ha as [-> | ->]; rewrite Z.eqb_refl; [reflexivity | apply orb_true_r]. }
  rewrite Hsel. unfold at_index.
  destruct (Z.leb_spec 0 (nmp_data_index m)); [| lia].
  destruct (bool_decide (op_state m = PLAY_YAN_GET_SD_DATA)).
  - unfold size.
    destruct (Z.ltb_spec (nmp_data_index m) (Z.of_nat (length (card_data m)))) as [Hlt | Hge].
    + destruct (card_data m !! Z.to_nat (nmp_data_index m)) eqn:Hl; [reflexivity |].
      apply lookup_ge_None in Hl. lia.
    + rewrite (proj2 (lookup_ge_None _ _)) by lia. reflexivity.
  - destruct (Z.ltb_spec (nmp_data_index m) 16) as [Hlt | Hge].
    + rewrite lookup_take_lt by lia.
      destruct (nmp_status_data m !! Z.to_nat (nmp_data_index m)) eqn:Hl; [reflexivity |].
      apply lookup_ge_None in Hl. lia.
    + rewrite lookup_take_ge by lia. reflexivity.
Qed.

(** X11. Reading the data-out register [n] times returns the bytes of
    the buffer being read (the card data in GET_SD_DATA, the 16 status
    bytes otherwise) from the read cursor on, and 0 for every read at or
    past its end; the cursor advances by one per byte delivered and stops
    at the end of the buffer, and nothing else of the device changes. *)
Theorem read_back (K : nmp_consts) (a : Z) (n : nat) (m : AGB_MMU) :
  a = PY_NMP_DATA_OUT K \/ a = PY_NMP_DATA_OUT K + 1 ->
  (16 <= length (nmp_status_data m))%nat ->
  0 <= nmp_data_index m ->
  exists m',
    read_seq K a n m
    = Some ((fun k => default 0 (out_buffer m !! (Z.to_nat (nmp_data_index m) + k)%nat))
              <$> seq 0 n, m')
    /\ nmp_data_index m'
       = Z.min (nmp_data_index m + Z.of_nat n)
               (Z.max (nmp_data_index m) (size (out_buffer m)))
    /\ m' = m <| nmp_data_index := nmp_data_index m' |>.
Proof.
  intros Ha. revert m. induction n as [| n IH]; intros m Hlen Hidx.
  - exists m. split; [reflexivity |]. split; [lia |].
    now rewrite assign_same_index.
  - cbn [read_seq]. rewrite (read_data_out K a m Ha Hlen Hidx).
    rewrite <- cons_seq, <- fmap_S_seq, fmap_cons, <- list_fmap_compose.
    rewrite Nat.add_0_r.
    destruct (out_buffer m !! Z.to_nat (nmp_data_index m)) as [b |] eqn:Hb.
    + cbn [mbind option_bind].
      destruct (IH (m <| nmp_data_index := nmp_data_index m + 1 |>))
        as (m' & Hrun & Hfinal & Hsame); [exact Hlen | simpl; lia |].
      rewrite Hrun. cbn [mbind option_bind]. exists m'.
      apply lookup_lt_Some in Hb. unfold size in *.
      change (out_buffer (m <| nmp_data_index := nmp_data_index m + 1 |>))
        with (out_buffer m) in *.
      simpl (nmp_data_index (_ <| nmp_data_index := _ |>)) in *.
      split; [| split].
      * f_equal. f_equal. cbn [default from_option id]. f_equal.
        apply list_fmap_ext. intros i k _. unfold compose.
        do 2 f_equal. lia.
      * lia.
      * rewrite Hsame at 1. reflexivity.
    + cbn [mbind option_bind].
      destruct (IH m Hlen Hidx) as (m' & Hrun & Hfinal & Hsame).
      rewrite Hrun. cbn [mbind option_bind]. exists m'.
      apply lookup_ge_None in Hb. unfold size in *.
      split; [| split].
      * f_equal. f_equal. cbn [default from_option id]. f_equal.
        apply list_fmap_ext. intros i k _. unfold compose.
        rewrite !(proj2 (lookup_ge_None _ _)) by lia. reflexivity.
      * lia.
      * exact Hsame.
Qed.

Lemma read_back_witness :
  exists m',
    read_seq Sample.consts (PY_NMP_DATA_OUT Sample.consts) 4
      (Sample.power_on <| nmp_status_data := replicate 16 7 |>
         <| nmp_data_index := 14 |>)
    = Some ([7; 7; 0; 0], m')
    /\ nmp_data_index m' = 16.
Proof.
  destruct (read_back Sample.consts (PY_NMP_DATA_OUT Sample.consts) 4
              (Sample.power_on <| nmp_status_data := replicate 16 7 |>
                 <| nmp_data_index := 14 |>))
    as (m' & Hrun & Hidx & _).
  - left. reflexivity.
  - simpl. lia.
  - simpl. lia.
  - exists m'. split; [exact Hrun | exact Hidx].
Defined.

(** ** Layout of the text blocks *)

(** What [write_text] leaves at every index of the block. *)
Lemma write_text_lookup (chars : list Z) (pos : nat) (data : list Z) (i : nat) :
  (pos + 2 * length chars <= length data)%nat ->
  write_text (Z.of_nat pos) chars data !! i
  = if decide (pos <= i < pos + 2 * length chars)%nat
    then Some (if Nat.even (i - pos) then 0
               else default 0 (chars !! ((i - pos) / 2)%nat))
    else data !! i.
Proof.
  revert pos data. induction chars as [| c rest IH]; intros pos data Hfit.
  - simpl. destruct (decide _) as [Hin | _]; [lia | reflexivity].
  - cbn [write_text length] in *.
    replace (Z.of_nat pos + 2) with (Z.of_nat (pos + 2)) by lia.
    rewrite IH by (rewrite !length_store; lia).
    unfold store. rewrite Nat2Z.id.
    replace (Z.to_nat (Z.of_nat pos + 1)) with (S pos) by lia.
    destruct (decide (pos + 2 <= i < pos + 2 + 2 * length rest)%nat) as [Hin | Hout].
    + destruct (decide (pos <= i < pos + 2 * S (length rest))%nat) as [_ | Hn]; [| lia].
      replace (i - pos)%nat with (i - (pos + 2) + 1 * 2)%nat by lia.
      rewrite Nat.div_add by lia.
      rewrite (Nat.mul_comm 1 2), Nat.even_add_mul_2.
      replace (((i - (pos + 2)) / 2 + 1)%nat) with (S ((i - (pos + 2)) / 2)) by lia.
      reflexivity.
    + destruct (decide (i = pos)) as [-> | Hne0].
      { destruct (decide (pos <= pos < pos + 2 * S (length rest))%nat) as [_ | Hn]; [| lia].
        rewrite list_lookup_insert_ne by lia.
        rewrite list_lookup_insert_eq by lia.
        now rewrite Nat.sub_diag. }
      destruct (decide (i = S pos)) as [-> | Hne1].
      { destruct (decide (pos <= S pos < pos + 2 * S (length rest))%nat) as [_ | Hn]; [| lia].
        rewrite list_lookup_insert_eq by (rewrite length_insert; lia).
        replace (S pos - pos)%nat with 1%nat by lia. reflexivity. }
      destruct (decide (pos <= i < pos + 2 * S (length rest))%nat) as [Hn | _]; [lia |].
      now rewrite !list_lookup_insert_ne by lia.
Qed.

(** Every byte of the ID3 block. *)
Lemma id3_block_lookup (m : AGB_MMU) (i : nat) :
  (i < 272)%nat ->
  id3_block m !! i
  = Some (if decide (136 <= i)%nat then
            if Nat.even (i - 136) then 0
            else default 0 (take 68 (str_bytes (nmp_artist m)) !! ((i - 136) / 2)%nat)
          else if decide (4 <= i)%nat then
            if Nat.even (i - 4) then 0
            else default 0 (take 66 (str_bytes (nmp_title m)) !! ((i - 4) / 2)%nat)
          else 0).
Proof.
  intros Hi.
  assert (Ht : (length (take 66 (str_bytes (nmp_title m))) <= 66)%nat)
    by (rewrite length_take; lia).
  assert (Ha : (length (take 68 (str_bytes (nmp_artist m))) <= 68)%nat)
    by (rewrite length_take; lia).
  unfold id3_block. cbv zeta.
  change 136 with (Z.of_nat 136). change 4 with (Z.of_nat 4).
  rewrite write_text_lookup
    by (rewrite length_write_text, length_replicate; lia).
  set (a := take 68 _) in *. set (t := take 66 _) in *.
  destruct (decide (136 <= i < 136 + 2 * length a)%nat) as [Hin | Hout].
  - destruct (decide (136 <= i)%nat); [reflexivity | lia].
  - rewrite write_text_lookup by (rewrite length_replicate; lia).
    destruct (decide (136 <= i)%nat) as [Hhi | Hlo].
    + destruct (decide (4 <= i < 4 + 2 * length t)%nat); [lia |].
      rewrite lookup_replicate_2 by lia. f_equal.
      destruct (Nat.even (i - 136)); [reflexivity |].
      rewrite (proj2 (lookup_ge_None a _)); [reflexivity |].
      apply Nat.div_le_lower_bound; lia.
    + destruct (decide (4 <= i < 4 + 2 * length t)%nat) as [Hin' | Hout'].
      * destruct (decide (4 <= i)%nat); [reflexivity | lia].
      * rewrite lookup_replicate_2 by lia. f_equal.
        destruct (decide (4 <= i)%nat); [| reflexivity].
        destruct (Nat.even (i - 4)); [reflexivity |].
        rewrite (proj2 (lookup_ge_None t _)); [reflexivity |].
        apply Nat.div_le_lower_bound; lia.
Qed.

(** Where the characters of the two tags are. *)
Lemma id3_block_chars (m : AGB_MMU) :
  (forall k, (k < 66)%nat ->
     id3_block m !! (5 + 2 * k)%nat
     = Some (default 0 (str_bytes (nmp_title m) !! k)))
  /\ (forall k, (k < 68)%nat ->
        id3_block m !! (137 + 2 * k)%nat
        = Some (default 0 (str_bytes (nmp_artist m) !! k))).
Proof.
  split.
  - intros k Hk. rewrite id3_block_lookup by lia.
    destruct (decide (136 <= 5 + 2 * k)%nat); [lia |].
    destruct (decide (4 <= 5 + 2 * k)%nat); [| lia].
    replace (5 + 2 * k - 4)%nat with (1 + k * 2)%nat by lia.
    rewrite Nat.div_add by lia. rewrite (Nat.mul_comm k 2), Nat.even_add_mul_2.
    simpl (Nat.even 1). change (1 / 2)%nat with 0%nat. simpl (0 + k)%nat.
    now rewrite lookup_take_lt by lia.
  - intros k Hk. rewrite id3_block_lookup by lia.
    destruct (decide (136 <= 137 + 2 * k)%nat); [| lia].
    replace (137 + 2 * k - 136)%nat with (1 + k * 2)%nat by lia.
    rewrite Nat.div_add by lia. rewrite (Nat.mul_comm k 2), Nat.even_add_mul_2.
    simpl (Nat.even 1). change (1 / 2)%nat with 0%nat. simpl (0 + k)%nat.
    now rewrite lookup_take_lt by lia.
Qed.

(** X12. The ID3 block is 272 bytes: the title, cut at 66 characters, is at
    the odd offsets from 5 on and the artist, cut at 68 characters, at the
    odd offsets from 137 on; every other byte is zero, so the title never
    reaches the artist field and the artist ends with the block. *)
Theorem id3_block_layout (m : AGB_MMU) :
  length (id3_block m) = 272%nat
  /\ (forall k, (k < 66)%nat ->
        id3_block m !! (5 + 2 * k)%nat
        = Some (default 0 (str_bytes (nmp_title m) !! k)))
  /\ (forall k, (k < 68)%nat ->
        id3_block m !! (137 + 2 * k)%nat
        = Some (default 0 (str_bytes (nmp_artist m) !! k)))
  /\ (forall i, (i < 272)%nat -> Nat.even i = true \/ (i < 4)%nat ->
        id3_block m !! i = Some 0).
Proof.
  split; [apply length_id3_block |].
  destruct (id3_block_chars m) as [Htitle Hartist].
  split; [exact Htitle |]. split; [exact Hartist |].
  intros i Hi Hcase. rewrite id3_block_lookup by lia. f_equal.
  destruct Hcase as [Hev | Hlow].
  - destruct (decide (136 <= i)%nat).
    + replace (Nat.even (i - 136)) with (Nat.even i); [now rewrite Hev |].
      replace i with (i - 136 + 2 * 68)%nat at 1 by lia.
      apply Nat.even_add_mul_2.
    + destruct (decide (4 <= i)%nat); [| reflexivity].
      replace (Nat.even (i - 4)) with (Nat.even i); [now rewrite Hev |].
      replace i with (i - 4 + 2 * 2)%nat at 1 by lia.
      apply Nat.even_add_mul_2.
  - destruct (decide (136 <= i)%nat); [lia |].
    destruct (decide (4 <= i)%nat); [lia | reflexivity].
Qed.

(** Every byte of the block of one list entry. *)
Lemma entry_block_lookup (name : string) (is_folder : bool) (i : nat) :
  (i < 528)%nat ->
  entry_block name is_folder !! i
  = Some (if decide (i = 1 \/ i = 525)%nat then (if is_folder then 1 else 2)
          else if Nat.even i then 0
          else default 0 (take 255 (str_bytes name) !! ((i - 2) / 2)%nat)).
Proof.
  intros Hi. unfold entry_block. cbv zeta.
  set (flag := if is_folder then 1 else 2).
  set (t := take 255 (str_bytes name)).
  assert (Ht : (length t <= 255)%nat) by (subst t; rewrite length_take; lia).
  unfold store. change (Z.to_nat 525) with 525%nat.
  change (Z.to_nat 1) with 1%nat. change (Z.to_nat 0) with 0%nat.
  change 2 with (Z.of_nat 2) at 1.
  destruct (decide (i = 525%nat)) as [-> | H525].
  { rewrite list_lookup_insert_eq
      by (rewrite length_write_text, !length_insert, length_replicate; lia).
    destruct (decide _) as [_ | Hn]; [reflexivity | lia]. }
  rewrite list_lookup_insert_ne by lia.
  rewrite write_text_lookup by (rewrite !length_insert, length_replicate; lia).
  destruct (decide (2 <= i < 2 + 2 * length t)%nat) as [Hin | Hout].
  - destruct (decide (i = 1 \/ i = 525)%nat) as [Hc | _]; [lia |].
    replace (Nat.even (i - 2)) with (Nat.even i); [reflexivity |].
    replace i with (i - 2 + 2 * 1)%nat at 1 by lia.
    apply Nat.even_add_mul_2.
  - destruct (decide (i = 1%nat)) as [-> | H1].
    { rewrite list_lookup_insert_eq by (rewrite length_insert, length_replicate; lia).
      destruct (decide _) as [_ | Hn]; [reflexivity | lia]. }
    rewrite list_lookup_insert_ne by lia.
    destruct (decide (i = 1 \/ i = 525)%nat) as [Hc | _]; [lia |].
    destruct (decide (i = 0%nat)) as [-> | H0].
    { rewrite list_lookup_insert_eq by (rewrite length_replicate; lia). reflexivity. }
    rewrite list_lookup_insert_ne by lia.
    rewrite lookup_replicate_2 by lia. f_equal.
    destruct (Nat.even i); [reflexivity |].
    rewrite (proj2 (lookup_ge_None t _)); [reflexivity |].
    apply Nat.div_le_lower_bound; lia.
Qed.

(** X13. The block of a list entry: the entry kind (1 for a folder, 2 for a
    track) is at offsets 1 and 525, the name, cut at 255 characters, is at
    the odd offsets from 3 on, and every other byte of the 528 is zero. *)
Theorem list_block_layout (m : AGB_MMU) (name : string) :
  1 <= nmp_entry_count m < 2 ^ 32 -> size (folders m) < 2 ^ 32 ->
  (folders m ++ music_files m) !! (Z.to_nat (nmp_entry_count m) - 1)%nat = Some name ->
  exists data,
    list_block m = Some data
    /\ length data = 528%nat
    /\ data !! 1%nat
       = Some (if bool_decide (nmp_entry_count m <= size (folders m)) then 1 else 2)
    /\ data !! 525%nat = data !! 1%nat
    /\ (forall k, (k < 255)%nat ->
          data !! (3 + 2 * k)%nat = Some (default 0 (str_bytes name !! k)))
    /\ (forall i, (i < 528)%nat -> i <> 1%nat -> i <> 525%nat ->
          Nat.even i = true \/ (513 <= i)%nat -> data !! i = Some 0).
Proof.
  intros Hc HF Hname.
  pose proof (list_block_entry (folders m) (music_files m)
                (Z.to_nat (nmp_entry_count m)) m name eq_refl eq_refl) as Hb.
  rewrite Hb by (unfold size in *; assumption || lia). clear Hb.
  set (f := bool_decide _).
  assert (Hf : f = bool_decide (nmp_entry_count m <= size (folders m))).
  { subst f. unfold size. apply bool_decide_ext. lia. }
  rewrite <- Hf. clear Hf.
  eexists. split; [reflexivity |].
  split.
  { unfold entry_block. cbv zeta.
    now rewrite length_store, length_write_text, !length_store, length_replicate. }
  split; [now rewrite entry_block_lookup by lia |].
  split; [now rewrite !entry_block_lookup by lia |].
  split.
  - intros k Hk. rewrite entry_block_lookup by lia.
    destruct (decide _) as [Hx | _]; [lia |].
    replace (3 + 2 * k)%nat with (1 + 2 * (k + 1))%nat at 1 by lia.
    rewrite Nat.even_add_mul_2. simpl (Nat.even 1).
    replace (3 + 2 * k - 2)%nat with (1 + k * 2)%nat by lia.
    rewrite Nat.div_add by lia. change (1 / 2)%nat with 0%nat. simpl (0 + k)%nat.
    now rewrite lookup_take_lt by lia.
  - intros i Hi H1 H525 Hcase. rewrite entry_block_lookup by lia.
    destruct (decide _) as [Hx | _]; [lia |]. f_equal.
    destruct (Nat.even i) eqn:Hev; [reflexivity |].
    destruct Hcase as [Hcase | Hhigh]; [discriminate |].
    rewrite (proj2 (lookup_ge_None _ _)); [reflexivity |].
    rewrite length_take. apply Nat.div_le_lower_bound; lia.
Qed.

Lemma list_block_layout_witness :
  exists data,
    list_block (Sample.power_on <| folders := ["rock"; "jazz"]%string |>
                  <| music_files := ["a.mp3"]%string |> <| nmp_entry_count := 3 |>)
    = Some data
    /\ data !! 1%nat = Some 2
    /\ data !! 525%nat = data !! 1%nat
    /\ data !! 3%nat = Some 97.
Proof.
  destruct (list_block_layout
              (Sample.power_on <| folders := ["rock"; "jazz"]%string |>
                 <| music_files := ["a.mp3"]%string |> <| nmp_entry_count := 3 |>)
              "a.mp3")
    as (data & Hb & _ & H1 & H525 & Hname & _).
  - simpl. lia.
  - evaluate.
  - reflexivity.
  - exists data. split; [exact Hb |]. split; [exact H1 |].
    split; [exact H525 |]. exact (Hname 0%nat ltac:(lia)).
Defined.

(** ** Bookkeeping of the audio chunks *)

Lemma loop_frame_refl (m : AGB_MMU) : loop_frame m m.
Proof. constructor; auto. Qed.

Lemma loop_frame_trans (m1 m2 m3 : AGB_MMU) :
  loop_frame m1 m2 -> loop_frame m2 m3 -> loop_frame m1 m3.
Proof.
  intros [] []. constructor; try congruence; auto.
Qed.

(** One iteration on a backed source: it returns, and counts one sample. *)
Lemma audio_step_counts (H : host) (left : bool) (x : Z) (c : chunk) :
  source_backed (dev c) ->
  exists c',
    audio_step H left x c = Some c'
    /\ audio_sample_index (dev c') = u32 (audio_sample_index (dev c) + 1)
    /\ sample_count c' = u32 (sample_count c + 1)
    /\ (left = true -> trigger_timestamp c' = trigger_timestamp c)
    /\ loop_frame (dev c) (dev c').
Proof.
  intros [Hpos Hfit]. unfold audio_step. cbv zeta.
  set (ss := u32 (ext_length (dev c) / 2)) in *.
  assert (Hss : 0 <= ss < 2 ^ 32) by (apply Z.mod_pos_bound; lia).
  assert (Hidx : 0 <= source_index H left (dev c) < 2 ^ 32).
  { unfold source_index. cbv zeta. apply Z.mod_pos_bound. lia. }
  set (idx := source_index H left (dev c)) in *.
  unfold size in Hfit.
  destruct (Z.leb_spec ss idx) as [Hend | Hin].
  - simpl (ext_buffer _).
    rewrite (u32_small (ss - 1)) by lia.
    unfold at_index. destruct (Z.leb_spec 0 (ss - 1)); [| lia].
    destruct (ext_buffer (dev c) !! Z.to_nat (ss - 1)) as [v |] eqn:Hv.
    2: { apply lookup_ge_None in Hv. lia. }
    cbn [fmap option_fmap option_map mbind option_bind].
    eexists. split; [reflexivity |].
    unfold emit. cbv zeta.
    destruct left; simpl; rewrite ?andb_false_r;
      (repeat split; auto; intros; discriminate).
  - unfold at_index. destruct (Z.leb_spec 0 idx); [| lia].
    destruct (ext_buffer (dev c) !! Z.to_nat idx) as [v |] eqn:Hv.
    2: { apply lookup_ge_None in Hv. lia. }
    cbn [fmap option_fmap option_map mbind option_bind].
    eexists. split; [reflexivity |].
    unfold emit. cbv zeta.
    destruct left; simpl; rewrite ?andb_false_r;
      (repeat split; auto; intros; discriminate).
Qed.

Lemma audio_loop_counts (H : host) (left : bool) (n : nat) (x : Z) (c : chunk) :
  source_backed (dev c) ->
  0 <= audio_sample_index (dev c) ->
  audio_sample_index (dev c) + Z.of_nat n < 2 ^ 32 ->
  0 <= sample_count c -> sample_count c + Z.of_nat n < 2 ^ 32 ->
  exists c',
    audio_loop H left n x c = Some c'
    /\ audio_sample_index (dev c') = audio_sample_index (dev c) + Z.of_nat n
    /\ sample_count c' = sample_count c + Z.of_nat n
    /\ (left = true -> trigger_timestamp c' = trigger_timestamp c)
    /\ loop_frame (dev c) (dev c').
Proof.
  revert x c. induction n as [| n IH]; intros x c Hb Hi Hin Hs Hsn;
    change (2 ^ 32) with 4294967296 in *.
  - exists c. split; [reflexivity |]. rewrite !Z.add_0_r.
    repeat split; auto using loop_frame_refl.
  - cbn [audio_loop].
    destruct (audio_step_counts H left x c Hb) as (c1 & -> & Hi1 & Hs1 & Ht1 & Hf1).
    cbn [mbind option_bind].
    rewrite u32_small in Hi1, Hs1 by (change (2 ^ 32) with 4294967296; lia).
    destruct (IH (x + 1) c1) as (c' & Hrun & Hi' & Hs' & Ht' & Hf').
    { destruct Hf1. unfold source_backed in *. congruence. }
    { lia. } { lia. } { lia. } { lia. }
    exists c'. split; [exact Hrun |].
    split; [lia |]. split; [lia |].
    split; [intros Hl; rewrite Ht', Ht1 by exact Hl; reflexivity |].
    eapply loop_frame_trans; eassumption.
Qed.

(** One chunk built from a backed source. *)
Lemma audio_chunk_frame (H : host) (m : AGB_MMU) :
  audio_sample_rate m <> 0 -> source_backed m ->
  0 <= audio_sample_index m ->
  audio_sample_index m + Z.of_nat (chunk_samples m) < 2 ^ 32 ->
  exists m' t,
    audio_block H m = Some (m', t)
    /\ audio_frame_count m' = u32 (audio_frame_count m + 1)
    /\ nmp_data_index m' = 0
    /\ length (card_data m') = Z.to_nat (audio_buffer_size m + 2)
    /\ audio_sample_index m'
       = (if next_is_left m then audio_sample_index m
          else audio_sample_index m + Z.of_nat (chunk_samples m))
    /\ (next_is_left m = true -> t = false)
    /\ op_state m' = op_state m
    /\ (is_music_playing m' = true -> is_music_playing m = true)
    /\ (is_media_playing m' = true -> is_media_playing m = true).
Proof.
  intros Hrate Hb Hi Hin. unfold audio_block. cbv zeta.
  simpl (audio_sample_rate _). simpl (audio_frame_count _).
  simpl (audio_sample_index _). simpl (audio_buffer_size _).
  unfold nz at 1. destruct (Z.eqb_spec (audio_sample_rate m) 0); [contradiction |].
  cbn [negb]. fold (next_is_left m). fold (chunk_samples m).
  match goal with
  | |- context [audio_loop H ?l ?n ?x ?c] =>
      destruct (audio_loop_counts H l n x c)
        as (c' & Hrun & Hi' & Hs' & Ht' & Hf')
  end; try (simpl; assumption || lia).
  rewrite Hrun. cbn [mbind option_bind].
  simpl in Hi', Hs', Ht'.
  pose proof (audio_loop_shape _ _ _ _ _ _ Hrun) as Hshape.
  unfold block_shape in Hshape. simpl in Hshape. rewrite length_resize in Hshape.
  assert (Hlen : length (card_data (dev c')) = Z.to_nat (audio_buffer_size m + 2))
    by congruence.
  destruct Hf' as [_ _ _ _ Hfc Hcur Hst _ Hmu Hme].
  simpl in Hfc, Hcur, Hst, Hmu, Hme.
  destruct (next_is_left m) eqn:Hleft.
  - eexists _, _. split; [reflexivity |]. simpl.
    split; [exact Hfc |]. split; [exact Hcur |]. split; [exact Hlen |].
    split.
    { rewrite Hi', Hs'. replace (_ + _ - _) with (audio_sample_index m) by lia.
      apply u32_small. change (2 ^ 32) with 4294967296 in *. lia. }
    split.
    { intros _. rewrite Ht' by reflexivity. apply andb_false_r. }
    split; [exact Hst |]. split; assumption.
  - eexists _, _. split; [reflexivity |]. simpl.
    split; [exact Hfc |]. split; [exact Hcur |]. split; [exact Hlen |].
    split; [exact Hi' |]. split; [discriminate |].
    split; [exact Hst |]. split; assumption.
Qed.

(** The output offsets of the loop are inside the block. *)
Lemma output_offset_in_block (bytes x : Z) (m : AGB_MMU) :
  0 <= bytes < 2 ^ 31 -> 2 <= x < u32 (bytes / 2 + 2) ->
  0 <= output_offset x m < bytes + 2.
Proof.
  intros Hsize Hx. change (2 ^ 31) with 2147483648 in Hsize.
  pose proof (Z.mul_div_le bytes 2 ltac:(lia)) as Hhalf.
  assert (0 <= bytes / 2) by (apply Z.div_pos; lia).
  rewrite u32_small in Hx by (change (2 ^ 32) with 4294967296; lia).
  unfold output_offset. destruct (nz _); lia.
Qed.

(** X14. A stereo frame is delivered as two chunks. An access that builds a
    chunk from a backed source always returns, with every output byte
    written inside the block; it counts the frame and resets the read
    cursor; the left chunk puts [audio_sample_index] back where it was, so
    that the right chunk resamples the same positions, and the right chunk
    advances it by the samples of one chunk. Neither asks for a timestamp
    on the left channel nor sets a playing flag. *)
Theorem audio_chunk_bookkeeping (H : host) (m : AGB_MMU) :
  audio_sample_rate m <> 0 -> source_backed m ->
  0 <= audio_buffer_size m < 2 ^ 31 ->
  0 <= audio_sample_index m ->
  audio_sample_index m + Z.of_nat (chunk_samples m) < 2 ^ 32 ->
  exists m' t,
    audio_block H m = Some (m', t)
    /\ audio_frame_count m' = u32 (audio_frame_count m + 1)
    /\ nmp_data_index m' = 0
    /\ size (card_data m') = audio_buffer_size m + 2
    /\ (forall x d, 2 <= x < u32 (audio_buffer_size m / 2 + 2) ->
          0 <= output_offset x d < size (card_data m'))
    /\ audio_sample_index m'
       = (if next_is_left m then audio_sample_index m
          else audio_sample_index m + Z.of_nat (chunk_samples m))
    /\ (next_is_left m = true -> t = false)
    /\ (is_music_playing m' = true -> is_music_playing m = true)
    /\ (is_media_playing m' = true -> is_media_playing m = true).
Proof.
  intros Hrate Hb Hsize Hi Hin.
  destruct (audio_chunk_frame H m Hrate Hb Hi Hin)
    as (m' & t & Hrun & Hfc & Hcur & Hlen & Hasi & Ht & _ & Hmu & Hme).
  assert (Hsz : size (card_data m') = audio_buffer_size m + 2).
  { unfold size. rewrite Hlen. lia. }
  exists m', t. split; [exact Hrun |]. split; [exact Hfc |].
  split; [exact Hcur |]. split; [exact Hsz |].
  split.
  { intros x d Hx. rewrite Hsz. now apply output_offset_in_block. }
  split; [exact Hasi |]. split; [exact Ht |]. split; assumption.
Qed.

Lemma audio_chunk_bookkeeping_witness :
  exists m' t,
    audio_block Sample.machine
      (store_loaded (play_yan_load_audio Sample.machine "")
         (Sample.power_on <| audio_buffer_size := 8 |> <| audio_frame_count := 1 |>))
    = Some (m', t)
    /\ audio_frame_count m' = 2
    /\ size (card_data m') = 10
    /\ audio_sample_index m' = 4.
Proof.
  destruct (audio_chunk_bookkeeping Sample.machine
              (store_loaded (play_yan_load_audio Sample.machine "")
                 (Sample.power_on <| audio_buffer_size := 8 |>
                    <| audio_frame_count := 1 |>)))
    as (m' & t & Hrun & Hfc & _ & Hlen & _ & Hasi & _).
  - evaluate.
  - evaluate.
  - evaluate.
  - evaluate.
  - evaluate.
  - exists m', t. split; [exact Hrun |]. split; [exact Hfc |].
    split; [exact Hlen | exact Hasi].
Defined.

(** ** When a chunk asks for a timestamp *)

(** Crossing a multiple of 16384, one sample at a time. *)
Lemma crossing_step (s n : Z) :
  0 <= s -> 0 <= n ->
  (s / 16384 <? (s + (n + 1)) / 16384)
  = ((s + 1) mod 16384 =? 0) || ((s + 1) / 16384 <? (s + 1 + n) / 16384).
Proof.
  intros Hs Hn.
  destruct (Z.ltb_spec (s / 16384) ((s + (n + 1)) / 16384)),
           (Z.eqb_spec ((s + 1) mod 16384) 0),
           (Z.ltb_spec ((s + 1) / 16384) ((s + 1 + n) / 16384));
    try reflexivity; exfalso;
    Z.to_euclidean_division_equations; lia.
Qed.

(** The flag of a right-channel iteration. *)
Lemma audio_step_trigger (H : host) (x : Z) (c c' : chunk) :
  audio_step H false x c = Some c' ->
  trigger_timestamp c'
  = (u32 (audio_sample_index (dev c) + 1) mod 16384 =? 0) || trigger_timestamp c.
Proof.
  unfold audio_step. cbv zeta. intros Hs.
  match type of Hs with
  | (?e ≫= _) = _ => destruct e as [src |]; [| discriminate]
  end.
  cbn [mbind option_bind] in Hs. unsome Hs. subst c'.
  unfold emit. cbv zeta.
  destruct (u32 (ext_length (dev c) / 2) <=? source_index H false (dev c));
    simpl; rewrite andb_true_r;
    now destruct (_ =? 0).
Qed.

Lemma audio_loop_trigger (H : host) (n : nat) (x : Z) (c c' : chunk) :
  source_backed (dev c) ->
  0 <= audio_sample_index (dev c) ->
  audio_sample_index (dev c) + Z.of_nat n < 2 ^ 32 ->
  audio_loop H false n x c = Some c' ->
  trigger_timestamp c'
  = trigger_timestamp c
    || (audio_sample_index (dev c) / 16384
        <? (audio_sample_index (dev c) + Z.of_nat n) / 16384).
Proof.
  revert x c. induction n as [| n IH]; intros x c Hb Hi Hin Hrun;
    change (2 ^ 32) with 4294967296 in *.
  - simpl in Hrun. unsome Hrun. subst c'.
    now rewrite Z.add_0_r, Z.ltb_irrefl, orb_false_r.
  - cbn [audio_loop] in Hrun.
    destruct (audio_step_counts H false x c Hb) as (c1 & Hstep & Hi1 & _ & _ & Hf1).
    pose proof (audio_step_trigger H x c c1 Hstep) as Ht1.
    rewrite Hstep in Hrun. cbn [mbind option_bind] in Hrun.
    rewrite u32_small in Hi1, Ht1 by (change (2 ^ 32) with 4294967296; lia).
    rewrite (IH (x + 1) c1); try assumption.
    + rewrite Ht1, Hi1.
      replace (audio_sample_index (dev c) + Z.of_nat (S n))
        with (audio_sample_index (dev c) + (Z.of_nat n + 1)) by lia.
      rewrite (crossing_step _ (Z.of_nat n)) by lia.
      destruct (trigger_timestamp c), (_ =? 0); reflexivity.
    + destruct Hf1. unfold source_backed in *. congruence.
    + lia.
    + change (2 ^ 32) with 4294967296. lia.
Qed.

(** X15. A right chunk asks for a timestamp exactly when it starts the
    track (sample position 0) or carries the sample position across a
    multiple of 16384, that is once per second of output; the position
    advances by the samples of the chunk. *)
Theorem timestamp_trigger (H : host) (m : AGB_MMU) :
  audio_sample_rate m <> 0 -> source_backed m ->
  next_is_left m = false ->
  0 <= audio_sample_index m ->
  audio_sample_index m + Z.of_nat (chunk_samples m) < 2 ^ 32 ->
  exists m' t,
    audio_block H m = Some (m', t)
    /\ audio_sample_index m' = audio_sample_index m + Z.of_nat (chunk_samples m)
    /\ t = (audio_sample_index m =? 0)
           || (audio_sample_index m / 16384
               <? (audio_sample_index m + Z.of_nat (chunk_samples m)) / 16384).
Proof.
  intros Hrate Hb Hright Hi Hin.
  destruct (audio_chunk_frame H m Hrate Hb Hi Hin)
    as (m' & t & Hrun & _ & _ & _ & Hasi & _).
  rewrite Hright in Hasi.
  exists m', t. split; [exact Hrun |]. split; [exact Hasi |].
  unfold audio_block in Hrun. cbv zeta in Hrun.
  simpl (audio_sample_rate _) in Hrun. simpl (audio_frame_count _) in Hrun.
  simpl (audio_sample_index _) in Hrun. simpl (audio_buffer_size _) in Hrun.
  unfold nz at 1 in Hrun.
  destruct (Z.eqb_spec (audio_sample_rate m) 0); [contradiction |].
  cbn [negb] in Hrun. fold (next_is_left m) in Hrun. fold (chunk_samples m) in Hrun.
  rewrite Hright in Hrun.
  match type of Hrun with
  | (?e ≫= _) = _ => destruct e as [c |] eqn:Hloop; [| discriminate]
  end.
  cbn [mbind option_bind] in Hrun. unsome Hrun. unpair Hrun E1 E2.
  apply audio_loop_trigger in Hloop; try (simpl; assumption).
  simpl in Hloop. rewrite <- E2, Hloop.
  unfold nz. now rewrite negb_involutive, andb_true_r.
Qed.

Lemma timestamp_trigger_witness :
  exists m' t,
    audio_block Sample.machine
      (store_loaded (play_yan_load_audio Sample.machine "")
         (Sample.power_on <| audio_buffer_size := 8 |> <| audio_frame_count := 1 |>
            <| audio_sample_index := 16382 |>))
    = Some (m', t)
    /\ audio_sample_index m' = 16386
    /\ t = true.
Proof.
  destruct (timestamp_trigger Sample.machine
              (store_loaded (play_yan_load_audio Sample.machine "")
                 (Sample.power_on <| audio_buffer_size := 8 |>
                    <| audio_frame_count := 1 |> <| audio_sample_index := 16382 |>)))
    as (m' & t & Hrun & Hasi & Ht).
  - evaluate.
  - evaluate.
  - reflexivity.
  - evaluate.
  - evaluate.
  - exists m', t. split; [exact Hrun |]. split; [exact Hasi | exact Ht].
Defined.

(** ** What the command cases leave alone *)

Ltac bus_frame :=
  cbv zeta beta; split_ifs; unfold same_bus_state, same_listing, status_write;
  simpl; repeat split.

Lemma update_audio_playing_bus (K : nmp_consts) (H : host) (m : AGB_MMU) :
  same_bus_state m (update_audio_playing K H m)
  /\ same_listing m (update_audio_playing K H m).
Proof. unfold update_audio_playing. bus_frame. Qed.

Lemma headphone_toggle_bus (K : nmp_consts) (H : host) (m : AGB_MMU) :
  same_bus_state m (headphone_toggle K H m)
  /\ same_listing m (headphone_toggle K H m).
Proof. unfold headphone_toggle. bus_frame. Qed.

Lemma same_bus_state_trans (m1 m2 m3 : AGB_MMU) :
  same_bus_state m1 m2 -> same_bus_state m2 m3 -> same_bus_state m1 m3.
Proof.
  unfold same_bus_state.
  intros (?&?&?&?&?&?&?&?&?&?&?) (?&?&?&?&?&?&?&?&?&?&?).
  repeat split; congruence.
Qed.

Lemma same_listing_trans (m1 m2 m3 : AGB_MMU) :
  same_listing m1 m2 -> same_listing m2 m3 -> same_listing m1 m3.
Proof.
  unfold same_listing. intros (?&?&?) (?&?&?). repeat split; congruence.
Qed.

(** X16. A command that raises no interrupt of its own returns, with the
    one exception of SET_DIR [".."] on a directory without a slash, and
    leaves the register interface and the responder as they were: mode and
    parameter registers, responder state, firmware buffer and address,
    command stream, card data, tick counter, boot stage and interrupt
    flags. Unless it is one of the two list commands it also leaves the
    directory snapshot and the listing cursor as they were; SET_DIR in
    particular does not refresh the listing. *)
Theorem dispatch_frame (K : nmp_consts) (H : host)
    (irq : AGB_MMU -> option AGB_MMU) (o : nmp_command) (m : AGB_MMU) :
  distinct_codes K ->
  raises_interrupt o = false ->
  (o = NMP_SET_DIR -> stream_name (command_stream m) = ".." ->
   parent_dir (current_dir m) <> None) ->
  exists m',
    dispatch K H irq o m = Some m'
    /\ same_bus_state m m'
    /\ (o <> NMP_START_FILE_LIST -> o <> NMP_CONTINUE_FILE_LIST ->
        same_listing m m').
Proof.
  intros Hd Hirq Hup. unfold dispatch, process_nmp_cmd. cbv zeta.
  simpl (cmd _). rewrite (decode_code _ _ Hd).
  destruct o; try discriminate Hirq; cbv iota beta;
    try (split_ifs; eexists; (split; [reflexivity |]);
         (split; [bus_frame | intros; bus_frame]); fail).
  - (* START_FILE_LIST *)
    split_ifs; eexists; (split; [reflexivity |]);
      (split; [bus_frame | intros Hn; now contradict Hn]).
  - (* CONTINUE_FILE_LIST *)
    split_ifs; eexists; (split; [reflexivity |]);
      (split; [bus_frame | intros _ Hn; now contradict Hn]).
  - (* SET_DIR *)
    simpl (command_stream _). simpl (current_dir _).
    destruct (String.eqb_spec (stream_name (command_stream m)) "..") as [E | _].
    + destruct (parent_dir (current_dir m)) as [up |] eqn:Hp;
        [| exfalso; now apply (Hup eq_refl E)].
      cbn [mbind option_bind]. eexists; split; [reflexivity |].
      split; [bus_frame | intros; bus_frame].
    + destruct (negb _); eexists; (split; [reflexivity |]);
        (split; [bus_frame | intros; bus_frame]).
  - (* UPDATE_AUDIO *)
    simpl (is_music_playing _).
    destruct (is_music_playing m); eexists; (split; [reflexivity |]).
    + split; [| intros _ _].
      * eapply same_bus_state_trans; [| apply update_audio_playing_bus]. bus_frame.
      * eapply same_listing_trans; [| apply update_audio_playing_bus]. bus_frame.
    + split; [bus_frame | intros; bus_frame].
  - (* HEADPHONE_STATUS *)
    eexists; split; [reflexivity |]. split; [| intros _ _].
    + eapply same_bus_state_trans; [| apply headphone_toggle_bus]. bus_frame.
    + eapply same_listing_trans; [| apply headphone_toggle_bus]. bus_frame.
Qed.

Lemma dispatch_frame_witness :
  exists m',
    dispatch Sample.consts Sample.machine Sample.irq NMP_SET_DIR
      (Sample.power_on <| command_stream := Sample.stream_of 0x20 [46; 46] |>)
    = Some m'
    /\ same_bus_state
         (Sample.power_on <| command_stream := Sample.stream_of 0x20 [46; 46] |>) m'
    /\ same_listing
         (Sample.power_on <| command_stream := Sample.stream_of 0x20 [46; 46] |>) m'.
Proof.
  destruct (dispatch_frame Sample.consts Sample.machine Sample.irq NMP_SET_DIR
              (Sample.power_on <| command_stream := Sample.stream_of 0x20 [46; 46] |>))
    as (m' & Hrun & Hbus & Hlist).
  - exact sample_codes_distinct.
  - reflexivity.
  - intros _ _. vm_compute. discriminate.
  - exists m'. split; [exact Hrun |]. split; [exact Hbus |].
    apply Hlist; discriminate.
Defined.

(** ** Pausing and resuming *)

(** X17. PAUSE followed by RESUME always returns and resumes where the
    track was paused: the sample positions and the timestamp are those
    before the pause, both playing flags are set and the seek state is
    reset. With the headphones in use the interrupt delay that PAUSE put
    aside is restored and the next interrupt is an audio update; with the
    speaker the delay stays 0 and the audio stream is re-enabled. *)
Theorem pause_resume (K : nmp_consts) (H : host)
    (irq : AGB_MMU -> option AGB_MMU) (m : AGB_MMU) :
  distinct_codes K ->
  exists m1 m2,
    dispatch K H irq NMP_PAUSE m = Some m1
    /\ dispatch K H irq NMP_RESUME m1 = Some m2
    /\ is_music_playing m1 = false /\ ext_playing m1 = false
    /\ irq_delay m1 = 0 /\ last_delay m1 = irq_delay m
    /\ is_music_playing m2 = true /\ is_media_playing m2 = true
    /\ ext_playing m2 = nz (audio_sample_rate m) && nz (audio_channels m)
    /\ audio_sample_index m2 = audio_sample_index m
    /\ ext_sample_pos m2 = ext_sample_pos m
    /\ tracker_update_size m2 = tracker_update_size m
    /\ nmp_seek_dir m2 = 0xFF /\ nmp_seek_count m2 = 0
    /\ (if ext_use_headphones m
        then irq_delay m2 = irq_delay m /\ last_delay m2 = 0
             /\ nmp_manual_cmd m2 = code K NMP_UPDATE_AUDIO
             /\ update_audio_stream m2 = false
             /\ update_trackbar_timestamp m2 = true
        else irq_delay m2 = 0 /\ last_delay m2 = irq_delay m
             /\ nmp_manual_cmd m2 = 0
             /\ update_audio_stream m2 = true
             /\ update_trackbar_timestamp m2 = false).
Proof.
  intros Hd. unfold dispatch, process_nmp_cmd. cbv zeta.
  simpl (cmd _). rewrite !(decode_code _ _ Hd). cbv iota beta.
  match goal with
  | |- exists m1 m2, Some ?A = Some m1 /\ _ => exists A
  end.
  simpl (cmd _). rewrite ?(decode_code _ _ Hd). cbv iota beta.
  simpl (audio_sample_rate _). simpl (audio_channels _).
  destruct (nz (audio_sample_rate m) && nz (audio_channels m));
    cbv iota; simpl (ext_use_headphones _);
    destruct (ext_use_headphones m);
    eexists; (split; [reflexivity |]); (split; [reflexivity |]);
    simpl; repeat split.
Qed.

Lemma pause_resume_witness :
  exists m1 m2,
    dispatch Sample.consts Sample.machine Sample.irq NMP_PAUSE
      (Sample.power_on <| ext_use_headphones := true |> <| irq_delay := 60 |>
         <| audio_sample_index := 1000 |>) = Some m1
    /\ dispatch Sample.consts Sample.machine Sample.irq NMP_RESUME m1 = Some m2
    /\ irq_delay m1 = 0
    /\ irq_delay m2 = 60
    /\ audio_sample_index m2 = 1000.
Proof.
  destruct (pause_resume Sample.consts Sample.machine Sample.irq
              (Sample.power_on <| ext_use_headphones := true |> <| irq_delay := 60 |>
                 <| audio_sample_index := 1000 |>) sample_codes_distinct)
    as (m1 & m2 & R1 & R2 & _ & _ & D1 & _ & _ & _ & _ & Hasi & _ & _ & _ & _ & Hmode).
  cbn in Hmode. destruct Hmode as (D2 & _).
  exists m1, m2. split; [exact R1 |]. split; [exact R2 |].
  split; [exact D1 |]. split; [exact D2 | exact Hasi].
Defined.

(** ** Names in the command stream *)

Lemma chr_of_byte_of (c : ascii) : chr_of (byte_of c) = c.
Proof. unfold chr_of, byte_of. rewrite N2Z.id. apply ascii_N_embedding. Qed.

Lemma byte_of_zero (c : ascii) : byte_of c = 0 -> c = Ascii.zero.
Proof.
  unfold byte_of. intros Hz.
  rewrite <- (ascii_N_embedding c).
  replace (N_of_ascii c) with 0%N by lia. reflexivity.
Qed.

(** The first unit of a name is skipped when it is a kind marker. *)
Lemma grab_name_marker (l : list Z) (f : Z) :
  l !! 0%nat = Some f -> f = 1 \/ f = 2 ->
  grab_name true l = grab_name false (drop 2 l).
Proof.
  destruct l as [| z rest]; [discriminate |]. cbn [lookup list_lookup].
  intros Hf Hm. unsome Hf. subst z. cbn [grab_name].
  destruct Hm as [-> | ->]; cbn [Z.eqb Pos.eqb andb orb];
    destruct rest; reflexivity.
Qed.

(** The loop reads the low bytes of the units up to the first zero. *)
Lemma grab_name_run (cs l : list Z) :
  (forall k c, cs !! k = Some c -> l !! (2 * k)%nat = Some c /\ c <> 0) ->
  l !! (2 * length cs)%nat = Some 0 ->
  grab_name false l = chr_of <$> cs.
Proof.
  revert l. induction cs as [| c cs IH]; intros l Hcs Hend.
  - destruct l as [| z rest]; [discriminate |].
    cbn in Hend. unsome Hend. subst z. reflexivity.
  - destruct (Hcs 0%nat c eq_refl) as [Hhd Hnz].
    destruct l as [| z rest]; [discriminate |].
    cbn in Hhd. unsome Hhd. subst z.
    cbn [grab_name andb]. destruct (Z.eqb_spec c 0); [contradiction |].
    rewrite fmap_cons. f_equal.
    destruct rest as [| r rest'].
    { cbn [length] in Hend. apply lookup_lt_Some in Hend. cbn [length] in Hend. lia. }
    apply IH.
    + intros k c' Hk. destruct (Hcs (S k) c' Hk) as [Hl Hc'].
      split; [| exact Hc'].
      replace (2 * S k)%nat with (S (S (2 * k))) in Hl by lia. exact Hl.
    + cbn [length] in Hend.
      replace (2 * S (length cs))%nat with (S (S (2 * length cs))) in Hend by lia.
      exact Hend.
Qed.

(** The name read from a stream that carries the block of a list entry. *)
Lemma entry_block_name (b0 b1 : Z) (name : string) (is_folder : bool) :
  Forall (fun c => c <> Ascii.zero) (String.list_ascii_of_string name) ->
  stream_name ([b0; b1] ++ entry_block name is_folder)
  = String.string_of_list_ascii (take 255 (String.list_ascii_of_string name)).
Proof.
  intros Hname. unfold stream_name. f_equal.
  change (drop 3 ([b0; b1] ++ entry_block name is_folder))
    with (drop 1 (entry_block name is_folder)).
  rewrite (grab_name_marker _ (if is_folder then 1 else 2)).
  2: { rewrite lookup_drop. now rewrite entry_block_lookup by lia. }
  2: { destruct is_folder; auto. }
  rewrite drop_drop. change (1 + 2)%nat with 3%nat.
  set (cs := take 255 (str_bytes name)).
  assert (Hlen : (length cs <= 255)%nat) by (subst cs; rewrite length_take; lia).
  rewrite (grab_name_run cs).
  - subst cs. unfold str_bytes. rewrite <- fmap_take, <- list_fmap_compose.
    rewrite (list_fmap_ext _ id); [apply list_fmap_id |].
    intros i c _. apply chr_of_byte_of.
  - intros k c Hk. pose proof (lookup_lt_Some _ _ _ Hk) as Hlt.
    rewrite lookup_drop, entry_block_lookup by lia.
    destruct (decide _) as [Hx | _]; [lia |].
    replace (3 + 2 * k)%nat with (1 + 2 * (k + 1))%nat at 1 by lia.
    rewrite Nat.even_add_mul_2. simpl (Nat.even 1).
    replace (3 + 2 * k - 2)%nat with (1 + k * 2)%nat by lia.
    rewrite Nat.div_add by lia. change (1 / 2)%nat with 0%nat. simpl (0 + k)%nat.
    fold cs. rewrite Hk. split; [reflexivity |].
    subst cs. apply lookup_take_Some in Hk as [Hk _].
    unfold str_bytes in Hk. apply list_lookup_fmap_Some in Hk as (a & -> & Ha).
    intros Hz. apply byte_of_zero in Hz. subst a.
    rewrite Forall_forall in Hname. apply (Hname Ascii.zero); [| reflexivity].
    eapply list_elem_of_lookup_2. exact Ha.
  - rewrite lookup_drop, entry_block_lookup by lia.
    destruct (decide _) as [Hx | _]; [lia |].
    replace (3 + 2 * length cs)%nat with (1 + 2 * (length cs + 1))%nat at 1 by lia.
    rewrite Nat.even_add_mul_2. simpl (Nat.even 1).
    replace (3 + 2 * length cs - 2)%nat with (1 + length cs * 2)%nat by lia.
    rewrite Nat.div_add by lia. change (1 / 2)%nat with 0%nat.
    simpl (0 + length cs)%nat. fold cs.
    now rewrite (proj2 (lookup_ge_None cs (length cs))) by lia.
Qed.

(** X18. A listed name can be sent back as it was received: when a command
    stream carries the block of a list entry after its two opcode bytes,
    the name the command cases read from it is the name of the entry, cut
    at 255 characters, without the kind marker in front. *)
Theorem listed_name_round_trip (b0 b1 : Z) (m : AGB_MMU) (name : string) :
  1 <= nmp_entry_count m < 2 ^ 32 -> size (folders m) < 2 ^ 32 ->
  (folders m ++ music_files m) !! (Z.to_nat (nmp_entry_count m) - 1)%nat = Some name ->
  Forall (fun c => c <> Ascii.zero) (String.list_ascii_of_string name) ->
  exists data,
    list_block m = Some data
    /\ stream_name ([b0; b1] ++ data)
       = String.string_of_list_ascii (take 255 (String.list_ascii_of_string name)).
Proof.
  intros Hc HF Hname Hchars.
  pose proof (list_block_entry (folders m) (music_files m)
                (Z.to_nat (nmp_entry_count m)) m name eq_refl eq_refl) as Hb.
  rewrite Hb by (unfold size in *; assumption || lia).
  eexists. split; [reflexivity |]. now apply entry_block_name.
Qed.

Lemma listed_name_round_trip_witness :
  exists data,
    list_block (Sample.power_on <| folders := ["rock"; "jazz"]%string |>
                  <| music_files := ["a.mp3"]%string |> <| nmp_entry_count := 3 |>)
    = Some data
    /\ stream_name ([0x00; 0x50] ++ data) = "a.mp3"%string.
Proof.
  refine (listed_name_round_trip 0x00 0x50
            (Sample.power_on <| folders := ["rock"; "jazz"]%string |>
               <| music_files := ["a.mp3"]%string |> <| nmp_entry_count := 3 |>)
            "a.mp3" _ _ _ _).
  - simpl. lia.
  - evaluate.
  - reflexivity.
  - simpl. repeat (constructor; [discriminate |]). constructor.
Defined.

(** ** Moving down and up again *)

Lemma list_ascii_of_append (a b : string) :
  String.list_ascii_of_string (a +:+ b)
  = String.list_ascii_of_string a ++ String.list_ascii_of_string b.
Proof. induction a as [| c a IH]; simpl; [reflexivity | now rewrite IH]. Qed.

Lemma trim_to_slash_name (n r : list ascii) :
  Forall (fun c => c <> "/"%char) n ->
  trim_to_slash (n ++ "/"%char :: r) = Some r.
Proof.
  induction 1 as [| c n Hc _ IH]; simpl.
  - reflexivity.
  - destruct (Ascii.eqb_spec c "/"%char); [contradiction | exact IH].
Qed.

Lemma parent_of_child (dir name : string) :
  Forall (fun c => c <> "/"%char) (String.list_ascii_of_string name) ->
  parent_dir (dir +:+ ("/" +:+ name)) = Some dir.
Proof.
  intros Hn. unfold parent_dir.
  rewrite !list_ascii_of_append. simpl (String.list_ascii_of_string "/").
  rewrite rev_app_distr. simpl (rev (_ :: _)).
  rewrite rev_app_distr. simpl (rev ["/"%char]). rewrite <- app_assoc.
  simpl ([_] ++ _).
  rewrite trim_to_slash_name by (apply Forall_forall; intros c Hc;
    rewrite Forall_forall in Hn; apply Hn; apply list_elem_of_In, in_rev, list_elem_of_In, Hc).
  cbn [mbind option_bind]. rewrite rev_involutive.
  now rewrite String.string_of_list_ascii_of_string.
Qed.

(** X19. SET_DIR with a name that is neither empty nor [".."] and has no
    slash appends a slash and the name to the current directory, and a
    following SET_DIR [".."] returns and gives back the directory there
    was before; neither of the two touches the listing. *)
Theorem set_dir_round_trip (K : nmp_consts) (H : host)
    (irq : AGB_MMU -> option AGB_MMU) (m : AGB_MMU) (s1 s2 : list Z) :
  distinct_codes K ->
  stream_name s1 <> "" -> stream_name s1 <> ".." ->
  Forall (fun c => c <> "/"%char) (String.list_ascii_of_string (stream_name s1)) ->
  stream_name s2 = ".." ->
  exists m1 m2,
    dispatch K H irq NMP_SET_DIR (m <| command_stream := s1 |>) = Some m1
    /\ current_dir m1 = current_dir m +:+ ("/" +:+ stream_name s1)
    /\ dispatch K H irq NMP_SET_DIR (m1 <| command_stream := s2 |>) = Some m2
    /\ current_dir m2 = current_dir m
    /\ same_listing m m2.
Proof.
  intros Hd Hne Hnup Hslash Hup. unfold dispatch, process_nmp_cmd. cbv zeta.
  simpl (cmd _). rewrite !(decode_code _ _ Hd). cbv iota beta.
  simpl (command_stream _). simpl (current_dir _).
  destruct (String.eqb_spec (stream_name s1) "..") as [E | _]; [contradiction |].
  destruct (String.eqb_spec (stream_name s1) "") as [E | _]; [contradiction |].
  cbn [negb].
  match goal with
  | |- exists m1 m2, Some ?A = Some m1 /\ _ => exists A
  end.
  simpl (cmd _). rewrite ?(decode_code _ _ Hd). cbv iota beta.
  simpl (command_stream _). simpl (current_dir _).
  rewrite Hup. cbn [String.eqb Ascii.eqb Bool.eqb andb].
  rewrite parent_of_child by exact Hslash. cbn [mbind option_bind].
  eexists. split; [reflexivity |]. split; [reflexivity |].
  split; [reflexivity |]. split; [reflexivity |].
  unfold same_listing. simpl. repeat split.
Qed.

Lemma set_dir_round_trip_witness :
  exists m1 m2,
    dispatch Sample.consts Sample.machine Sample.irq NMP_SET_DIR
      (Sample.power_on <| command_stream := Sample.stream_of 0x20 [114; 111; 99; 107] |>)
    = Some m1
    /\ current_dir m1 = "/music/rock"%string
    /\ dispatch Sample.consts Sample.machine Sample.irq NMP_SET_DIR
         (m1 <| command_stream := Sample.stream_of 0x20 [46; 46] |>) = Some m2
    /\ current_dir m2 = "/music"%string.
Proof.
  destruct (set_dir_round_trip Sample.consts Sample.machine Sample.irq
              Sample.power_on
              (Sample.stream_of 0x20 [114; 111; 99; 107])
              (Sample.stream_of 0x20 [46; 46]))
    as (m1 & m2 & R1 & C1 & R2 & C2 & _).
  - exact sample_codes_distinct.
  - vm_compute. discriminate.
  - vm_compute. discriminate.
  - vm_compute. repeat (constructor; [discriminate |]). constructor.
  - reflexivity.
  - exists m1, m2. split; [exact R1 |]. split; [exact C1 |].
    split; [exact R2 | exact C2].
Defined.

(** ** Requesting an audio chunk *)

Lemma default_status_holds (c : Z) (n : nat) :
  (n <= 16)%nat -> (n <= length (default_status c))%nat.
Proof.
  unfold default_status. now rewrite !length_store, length_replicate.
Qed.

(** UPDATE_AUDIO while the stream is enabled on the speaker. *)
Lemma update_audio_streaming (K : nmp_consts) (H : host) (m : AGB_MMU) :
  update_audio_stream m = true -> ext_use_headphones m = false ->
  (4 <= length (nmp_status_data m))%nat ->
  let m' := update_audio_playing K H m in
  nmp_audio_index m' = 0x322
  /\ audio_buffer_size m' = 0x480
  /\ nmp_status_data m' !! 2%nat = Some 0x04
  /\ nmp_status_data m' !! 3%nat = Some 0x80
  /\ update_audio_stream m' = true
  /\ cmd m' = cmd m
  /\ op_state m' = op_state m
  /\ audio_sample_rate m' = audio_sample_rate m
  /\ audio_sample_index m' = audio_sample_index m
  /\ audio_frame_count m' = audio_frame_count m
  /\ ext_length m' = ext_length m
  /\ ext_buffer m' = ext_buffer m.
Proof.
  intros Hs Hh Hlen. unfold update_audio_playing. cbv zeta beta.
  simpl (update_audio_stream _). simpl (ext_use_headphones _).
  rewrite Hs, Hh. cbn [negb andb].
  assert (Hbytes : forall l : list Z, (4 <= length l)%nat ->
            store 5 (u8 2) (store 4 (u8 2)
              (store 3 (u8 (Z.land 0x480 0xFF)) (store 2 (u8 (Z.shiftr 0x480 8)) l)))
              !! 2%nat = Some 0x04
            /\ store 5 (u8 2) (store 4 (u8 2)
              (store 3 (u8 (Z.land 0x480 0xFF)) (store 2 (u8 (Z.shiftr 0x480 8)) l)))
              !! 3%nat = Some 0x80).
  { intros l Hl. unfold store.
    change (Z.to_nat 5) with 5%nat. change (Z.to_nat 4) with 4%nat.
    change (Z.to_nat 3) with 3%nat. change (Z.to_nat 2) with 2%nat.
    split.
    - rewrite !list_lookup_insert_ne by lia.
      now rewrite list_lookup_insert_eq by lia.
    - rewrite !list_lookup_insert_ne by lia.
      now rewrite list_lookup_insert_eq by (rewrite length_insert; lia). }
  destruct (Hbytes (nmp_status_data m) Hlen) as [H2 H3].
  split_ifs; unfold status_write; simpl; repeat split; assumption.
Qed.

(** The dispatch of UPDATE_AUDIO that announces an audio block. *)
Lemma update_audio_announce (K : nmp_consts) (H : host)
    (irq : AGB_MMU -> option AGB_MMU) (m : AGB_MMU) :
  distinct_codes K ->
  is_music_playing m = true -> update_audio_stream m = true ->
  ext_use_headphones m = false ->
  exists m1,
    dispatch K H irq NMP_UPDATE_AUDIO m = Some m1
    /\ nmp_audio_index m1 = 0x322
    /\ audio_buffer_size m1 = 0x480
    /\ nmp_status_data m1 !! 2%nat = Some 0x04
    /\ nmp_status_data m1 !! 3%nat = Some 0x80
    /\ update_audio_stream m1 = true
    /\ cmd m1 = code K NMP_UPDATE_AUDIO
    /\ audio_sample_rate m1 = audio_sample_rate m
    /\ audio_sample_index m1 = audio_sample_index m
    /\ audio_frame_count m1 = audio_frame_count m
    /\ ext_length m1 = ext_length m
    /\ ext_buffer m1 = ext_buffer m.
Proof.
  intros Hd Hplay Hs Hh.
  unfold dispatch, process_nmp_cmd. cbv zeta.
  simpl (cmd _). rewrite (decode_code _ _ Hd). cbv iota beta.
  simpl (is_music_playing _). rewrite Hplay.
  match goal with
  | |- context [update_audio_playing K H ?A] =>
      destruct (update_audio_streaming K H A Hs Hh)
        as (Hidx & Hsize & H2 & H3 & Hs1 & Hcmd & _ & Hr & Hasi & Hfc & Hlen & Hbuf);
        [exact (default_status_holds _ 4 ltac:(lia)) |]
  end.
  eexists. split; [reflexivity |].
  split; [exact Hidx |]. split; [exact Hsize |]. split; [exact H2 |].
  split; [exact H3 |]. split; [exact Hs1 |]. split; [exact Hcmd |].
  split; [exact Hr |]. split; [exact Hasi |]. split; [exact Hfc |].
  split; [exact Hlen | exact Hbuf].
Qed.

(** The access that builds a left chunk. *)
Lemma left_chunk_access (K : nmp_consts) (H : host)
    (irq : AGB_MMU -> option AGB_MMU) (m : AGB_MMU) :
  distinct_codes K ->
  cmd m = code K NMP_UPDATE_AUDIO -> update_audio_stream m = true ->
  access_param m = nmp_audio_index m ->
  audio_sample_rate m <> 0 -> source_backed m -> next_is_left m = true ->
  0 <= audio_sample_index m ->
  audio_sample_index m + Z.of_nat (chunk_samples m) < 2 ^ 32 ->
  exists m',
    access_nmp_io K H irq m = Some m'
    /\ op_state m' = PLAY_YAN_GET_SD_DATA
    /\ length (card_data m') = Z.to_nat (audio_buffer_size m + 2)
    /\ nmp_data_index m' = 0
    /\ audio_frame_count m' = u32 (audio_frame_count m + 1)
    /\ audio_sample_index m' = audio_sample_index m.
Proof.
  intros Hd Hcmd Hs Hp Hrate Hb Hleft Hi Hin.
  assert (Hacc : access_nmp_io K H irq m
                 = access_card_data K H irq (m <| firmware_addr := 0 |>)).
  { unfold access_nmp_io. cbv zeta. simpl (access_param _).
    simpl (nmp_audio_index _). rewrite Hp, Z.eqb_refl. cbn [negb].
    now rewrite andb_false_r. }
  rewrite Hacc. unfold access_card_data. cbv zeta. simpl (cmd _). rewrite Hcmd.
  pose proof (code_inj K NMP_UPDATE_AUDIO NMP_START_FILE_LIST Hd) as N1.
  pose proof (code_inj K NMP_UPDATE_AUDIO NMP_CONTINUE_FILE_LIST Hd) as N2.
  pose proof (code_inj K NMP_UPDATE_AUDIO NMP_GET_ID3_DATA Hd) as N3.
  destruct (Z.eqb_spec (code K NMP_UPDATE_AUDIO) (code K NMP_START_FILE_LIST)) as [E | _];
    [apply N1 in E; discriminate |].
  destruct (Z.eqb_spec (code K NMP_UPDATE_AUDIO) (code K NMP_CONTINUE_FILE_LIST)) as [E | _];
    [apply N2 in E; discriminate |].
  destruct (Z.eqb_spec (code K NMP_UPDATE_AUDIO) (code K NMP_GET_ID3_DATA)) as [E | _];
    [apply N3 in E; discriminate |].
  rewrite Z.eqb_refl. cbn [orb].
  simpl (update_audio_stream _). rewrite Hs.
  match goal with
  | |- context [audio_block H ?A] =>
      destruct (audio_chunk_frame H A Hrate Hb Hi Hin)
        as (mb & t & Hrun & Hfc & Hcur & Hl & Hasi & Ht & Hst & _);
      assert (Hleft' : next_is_left A = true) by exact Hleft
  end.
  rewrite Hrun. cbn [mbind option_bind]. rewrite (Ht Hleft').
  rewrite Hleft' in Hasi.
  exists mb. split; [reflexivity |]. split; [exact Hst |].
  split; [exact Hl |]. split; [exact Hcur |]. split; [exact Hfc | exact Hasi].
Qed.

(** X20. The request for a left audio chunk, end to end: UPDATE_AUDIO on a
    playing track with the stream enabled on the speaker announces a
    buffer of 0x480 bytes under access parameter 0x322, and the access
    with that parameter returns with a block of 0x482 bytes to read from
    its start, the frame counted and the sample position kept for the
    right chunk. *)
Theorem audio_chunk_request (K : nmp_consts) (H : host)
    (irq : AGB_MMU -> option AGB_MMU) (m : AGB_MMU) :
  distinct_codes K ->
  is_music_playing m = true -> update_audio_stream m = true ->
  ext_use_headphones m = false ->
  audio_sample_rate m <> 0 -> source_backed m -> next_is_left m = true ->
  0 <= audio_sample_index m -> audio_sample_index m + 576 < 2 ^ 32 ->
  exists m1 m2,
    dispatch K H irq NMP_UPDATE_AUDIO m = Some m1
    /\ nmp_audio_index m1 = 0x322
    /\ nmp_status_data m1 !! 2%nat = Some 0x04
    /\ nmp_status_data m1 !! 3%nat = Some 0x80
    /\ access_nmp_io K H irq (m1 <| access_param := 0x322 |>) = Some m2
    /\ op_state m2 = PLAY_YAN_GET_SD_DATA
    /\ length (card_data m2) = 0x482%nat
    /\ nmp_data_index m2 = 0
    /\ audio_frame_count m2 = u32 (audio_frame_count m + 1)
    /\ audio_sample_index m2 = audio_sample_index m.
Proof.
  intros Hd Hplay Hs Hh Hrate Hb Hleft Hi Hin.
  destruct (update_audio_announce K H irq m Hd Hplay Hs Hh)
    as (m1 & Hrun & Hidx & Hsize & H2 & H3 & Hs1 & Hcmd & Hr & Hasi & Hfc & Hlen & Hbuf).
  destruct (left_chunk_access K H irq (m1 <| access_param := 0x322 |>) Hd)
    as (m2 & Hacc & Hop & Hl & Hcur & Hfc2 & Hasi2).
  - exact Hcmd.
  - exact Hs1.
  - simpl. now rewrite Hidx.
  - simpl. congruence.
  - unfold source_backed in *. simpl. now rewrite Hlen, Hbuf.
  - unfold next_is_left in *. simpl. now rewrite Hfc.
  - simpl. now rewrite Hasi.
  - unfold chunk_samples. simpl (audio_buffer_size _). rewrite Hsize.
    simpl (audio_sample_index _). rewrite Hasi.
    change (Z.of_nat (Z.to_nat (u32 (0x480 / 2 + 2) - 2))) with 576. exact Hin.
  - simpl in Hl, Hfc2, Hasi2. rewrite Hsize in Hl.
    exists m1, m2. split; [exact Hrun |]. split; [exact Hidx |].
    split; [exact H2 |]. split; [exact H3 |]. split; [exact Hacc |].
    split; [exact Hop |]. split; [exact Hl |]. split; [exact Hcur |].
    split; [rewrite Hfc2, Hfc; reflexivity |].
    rewrite Hasi2, Hasi. reflexivity.
Qed.

Lemma audio_chunk_request_witness :
  exists m1 m2,
    dispatch Sample.consts Sample.machine Sample.irq NMP_UPDATE_AUDIO
      (store_loaded (play_yan_load_audio Sample.machine "")
         (Sample.power_on <| is_music_playing := true |>
            <| update_audio_stream := true |>)) = Some m1
    /\ nmp_audio_index m1 = 0x322
    /\ access_nmp_io Sample.consts Sample.machine Sample.irq
         (m1 <| access_param := 0x322 |>) = Some m2
    /\ op_state m2 = PLAY_YAN_GET_SD_DATA
    /\ length (card_data m2) = 0x482%nat
    /\ audio_frame_count m2 = 1.
Proof.
  destruct (audio_chunk_request Sample.consts Sample.machine Sample.irq
              (store_loaded (play_yan_load_audio Sample.machine "")
                 (Sample.power_on <| is_music_playing := true |>
                    <| update_audio_stream := true |>)))
    as (m1 & m2 & R1 & Hidx & _ & _ & R2 & Hop & Hlen & _ & Hfc & _).
  - exact sample_codes_distinct.
  - reflexivity.
  - reflexivity.
  - reflexivity.
  - evaluate.
  - evaluate.
  - reflexivity.
  - evaluate.
  - evaluate.
  - exists m1, m2. split; [exact R1 |]. split; [exact Hidx |].
    split; [exact R2 |]. split; [exact Hop |]. split; [exact Hlen | exact Hfc].
Defined.

(** ** Starting a track *)

(** What PLAY_MUSIC leaves in the device. *)
Lemma play_music_state (K : nmp_consts) (H : host)
    (irq : AGB_MMU -> option AGB_MMU) (m : AGB_MMU) :
  distinct_codes K ->
  let a := play_yan_load_audio H
             (current_dir m +:+ "/" +:+ stream_name (command_stream m)) in
  exists m1,
    dispatch K H irq NMP_PLAY_MUSIC m = Some m1
    /\ is_music_playing m1 = true
    /\ is_media_playing m1 = true
    /\ current_music_file m1 = stream_name (command_stream m)
    /\ audio_sample_index m1 = 0
    /\ ext_sample_pos m1 = 0
    /\ audio_frame_count m1 = audio_frame_count m
    /\ ext_use_headphones m1 = ext_use_headphones m
    /\ update_audio_stream m1 = negb (ext_use_headphones m)
    /\ update_trackbar_timestamp m1 = ext_use_headphones m
    /\ audio_sample_rate m1 = la_sample_rate a
    /\ ext_length m1 = la_length a
    /\ ext_buffer m1 = la_buffer a
    /\ music_length m1 = (if la_ok a then la_music_length a else 2).
Proof.
  intros Hd a. unfold dispatch, process_nmp_cmd. cbv zeta.
  simpl (cmd _). rewrite (decode_code _ _ Hd). cbv iota beta.
  simpl (ext_use_headphones _).
  destruct (ext_use_headphones m) eqn:Hh; cbv iota;
    simpl (command_stream _); simpl (current_dir _);
    simpl (current_music_file _); fold a;
    destruct (la_ok a); cbn [negb];
    (eexists; split; [reflexivity |]); unfold store_loaded; simpl;
    repeat split; exact Hh.
Qed.

(** X21. Starting a track on the speaker: PLAY_MUSIC loads the file
    [current_dir/name], with [name] read from the command stream, and
    rewinds; if the loaded source is not empty and the frame count is
    even, the UPDATE_AUDIO that follows announces the audio block under
    access parameter 0x322 and the access with that parameter returns the
    first left chunk, 0x482 bytes resampled from sample position 0. A
    track that could not be loaded gets the length 2. *)
Theorem playback_start (K : nmp_consts) (H : host)
    (irq : AGB_MMU -> option AGB_MMU) (m : AGB_MMU) :
  distinct_codes K ->
  let a := play_yan_load_audio H
             (current_dir m +:+ "/" +:+ stream_name (command_stream m)) in
  ext_use_headphones m = false ->
  la_sample_rate a <> 0 ->
  0 < u32 (la_length a / 2) <= size (la_buffer a) ->
  next_is_left m = true ->
  exists m1 m2 m3,
    dispatch K H irq NMP_PLAY_MUSIC m = Some m1
    /\ is_music_playing m1 = true
    /\ current_music_file m1 = stream_name (command_stream m)
    /\ music_length m1 = (if la_ok a then la_music_length a else 2)
    /\ dispatch K H irq NMP_UPDATE_AUDIO m1 = Some m2
    /\ nmp_audio_index m2 = 0x322
    /\ access_nmp_io K H irq (m2 <| access_param := 0x322 |>) = Some m3
    /\ op_state m3 = PLAY_YAN_GET_SD_DATA
    /\ length (card_data m3) = 0x482%nat
    /\ nmp_data_index m3 = 0
    /\ audio_sample_index m3 = 0
    /\ audio_frame_count m3 = u32 (audio_frame_count m + 1).
Proof.
  intros Hd a Hh Hrate Hb Hleft.
  destruct (play_music_state K H irq m Hd)
    as (m1 & R1 & Hplay & _ & Hfile & Hasi1 & _ & Hfc1 & Hh1 & Hs1 & _
        & Hr1 & Hlen1 & Hbuf1 & Hml).
  fold a in Hr1, Hlen1, Hbuf1, Hml.
  rewrite Hh in Hs1. cbn [negb] in Hs1. rewrite Hh in Hh1.
  destruct (update_audio_announce K H irq m1 Hd Hplay Hs1 Hh1)
    as (m2 & R2 & Hidx & Hsize & _ & _ & Hs2 & Hcmd & Hr2 & Hasi2 & Hfc2 & Hlen2 & Hbuf2).
  destruct (left_chunk_access K H irq (m2 <| access_param := 0x322 |>) Hd)
    as (m3 & R3 & Hop & Hl & Hcur & Hfc3 & Hasi3).
  - exact Hcmd.
  - exact Hs2.
  - simpl. now rewrite Hidx.
  - simpl. congruence.
  - unfold source_backed. simpl. rewrite Hlen2, Hbuf2, Hlen1, Hbuf1. exact Hb.
  - unfold next_is_left in *. simpl. now rewrite Hfc2, Hfc1.
  - simpl. rewrite Hasi2, Hasi1. lia.
  - unfold chunk_samples. simpl (audio_buffer_size _). rewrite Hsize.
    simpl (audio_sample_index _). rewrite Hasi2, Hasi1.
    change (Z.of_nat (Z.to_nat (u32 (0x480 / 2 + 2) - 2))) with 576.
    change (2 ^ 32) with 4294967296. lia.
  - simpl in Hl, Hfc3, Hasi3. rewrite Hsize in Hl.
    exists m1, m2, m3. split; [exact R1 |]. split; [exact Hplay |].
    split; [exact Hfile |]. split; [exact Hml |]. split; [exact R2 |].
    split; [exact Hidx |]. split; [exact R3 |]. split; [exact Hop |].
    split; [exact Hl |]. split; [exact Hcur |].
    split; [rewrite Hasi3, Hasi2; exact Hasi1 |].
    rewrite Hfc3, Hfc2, Hfc1. reflexivity.
Qed.

Lemma playback_start_witness :
  exists m1 m2 m3,
    dispatch Sample.consts Sample.machine Sample.irq NMP_PLAY_MUSIC
      (Sample.power_on <| command_stream := Sample.stream_of 0x50 [97] |>) = Some m1
    /\ music_length m1 = 3
    /\ dispatch Sample.consts Sample.machine Sample.irq NMP_UPDATE_AUDIO m1 = Some m2
    /\ access_nmp_io Sample.consts Sample.machine Sample.irq
         (m2 <| access_param := 0x322 |>) = Some m3
    /\ length (card_data m3) = 0x482%nat
    /\ audio_sample_index m3 = 0.
Proof.
  pose proof (playback_start Sample.consts Sample.machine Sample.irq
                (Sample.power_on <| command_stream := Sample.stream_of 0x50 [97] |>)
                sample_codes_distinct) as Hx.
  cbv zeta in Hx.
  destruct Hx as (m1 & m2 & m3 & R1 & _ & _ & Hml & R2 & _ & R3 & _ & Hl & _ & Hasi & _).
  - reflexivity.
  - evaluate.
  - evaluate.
  - reflexivity.
  - exists m1, m2, m3. split; [exact R1 |]. split; [exact Hml |].
    split; [exact R2 |]. split; [exact R3 |]. split; [exact Hl | exact Hasi].
Defined.

(** ** Requesting the tags of a track *)

(** What GET_ID3_DATA leaves in the device. *)
Lemma id3_dispatch (K : nmp_consts) (H : host)
    (irq : AGB_MMU -> option AGB_MMU) (m : AGB_MMU) :
  distinct_codes K ->
  exists m1,
    dispatch K H irq NMP_GET_ID3_DATA m = Some m1
    /\ cmd m1 = code K NMP_GET_ID3_DATA
    /\ current_music_file m1 = stream_name (command_stream m)
    /\ nmp_title m1
       = make_ascii_printable H
           (play_yan_get_id3_data H
              (current_dir m +:+ "/" +:+ stream_name (command_stream m))).1
    /\ nmp_artist m1
       = make_ascii_printable H
           (play_yan_get_id3_data H
              (current_dir m +:+ "/" +:+ stream_name (command_stream m))).2
    /\ nmp_status_data m1 !! 6%nat = Some 1
    /\ nmp_status_data m1 !! 7%nat = Some 1.
Proof.
  intros Hd. unfold dispatch, process_nmp_cmd. cbv zeta.
  simpl (cmd _). rewrite (decode_code _ _ Hd). cbv iota beta.
  eexists. split; [reflexivity |]. unfold status_write. simpl.
  repeat split.
Qed.

(** A data access after GET_ID3_DATA. *)
Lemma id3_access (K : nmp_consts) (H : host)
    (irq : AGB_MMU -> option AGB_MMU) (m : AGB_MMU) :
  distinct_codes K ->
  cmd m = code K NMP_GET_ID3_DATA ->
  access_param m = 0 \/ access_param m = 0x101 \/ access_param m = 0x202 ->
  exists m',
    access_nmp_io K H irq m = Some m'
    /\ op_state m' = PLAY_YAN_GET_SD_DATA
    /\ nmp_data_index m' = 0
    /\ card_data m' = id3_block m.
Proof.
  intros Hd Hcmd Hp.
  assert (Hacc : access_nmp_io K H irq m
                 = access_card_data K H irq (m <| firmware_addr := 0 |>)).
  { unfold access_nmp_io. cbv zeta. simpl (access_param _).
    destruct Hp as [-> | [-> | ->]]; reflexivity. }
  rewrite Hacc. unfold access_card_data. cbv zeta. simpl (cmd _). rewrite Hcmd.
  pose proof (code_inj K NMP_GET_ID3_DATA NMP_START_FILE_LIST Hd) as N1.
  pose proof (code_inj K NMP_GET_ID3_DATA NMP_CONTINUE_FILE_LIST Hd) as N2.
  destruct (Z.eqb_spec (code K NMP_GET_ID3_DATA) (code K NMP_START_FILE_LIST)) as [E | _];
    [apply N1 in E; discriminate |].
  destruct (Z.eqb_spec (code K NMP_GET_ID3_DATA) (code K NMP_CONTINUE_FILE_LIST)) as [E | _];
    [apply N2 in E; discriminate |].
  rewrite Z.eqb_refl. cbn [orb].
  eexists. split; [reflexivity |]. repeat split.
Qed.

(** X22. GET_ID3_DATA followed by a data access delivers the tags of the
    named file: the command asks the host for the tags of
    [current_dir/name], with [name] read from the command stream, reports
    (1,1) in status bytes 6-7, and the access (parameter 0, 0x101 or
    0x202) returns in GET_SD_DATA with a block that holds the printable
    title at the odd offsets from 5 on and the printable artist at the odd
    offsets from 137 on. *)
Theorem id3_request (K : nmp_consts) (H : host)
    (irq : AGB_MMU -> option AGB_MMU) (m : AGB_MMU) (p : Z) :
  distinct_codes K ->
  p = 0 \/ p = 0x101 \/ p = 0x202 ->
  let tags := play_yan_get_id3_data H
                (current_dir m +:+ "/" +:+ stream_name (command_stream m)) in
  exists m1 m2,
    dispatch K H irq NMP_GET_ID3_DATA m = Some m1
    /\ current_music_file m1 = stream_name (command_stream m)
    /\ nmp_status_data m1 !! 6%nat = Some 1
    /\ nmp_status_data m1 !! 7%nat = Some 1
    /\ access_nmp_io K H irq (m1 <| access_param := p |>) = Some m2
    /\ op_state m2 = PLAY_YAN_GET_SD_DATA
    /\ nmp_data_index m2 = 0
    /\ length (card_data m2) = 272%nat
    /\ (forall k, (k < 66)%nat ->
          card_data m2 !! (5 + 2 * k)%nat
          = Some (default 0 (str_bytes (make_ascii_printable H tags.1) !! k)))
    /\ (forall k, (k < 68)%nat ->
          card_data m2 !! (137 + 2 * k)%nat
          = Some (default 0 (str_bytes (make_ascii_printable H tags.2) !! k))).
Proof.
  intros Hd Hp tags.
  destruct (id3_dispatch K H irq m Hd)
    as (m1 & Hrun & Hcmd & Hfile & Htitle & Hartist & H6 & H7).
  fold tags in Htitle, Hartist.
  destruct (id3_access K H irq (m1 <| access_param := p |>) Hd)
    as (m2 & Hacc & Hop & Hcur & Hdata); [exact Hcmd | exact Hp |].
  destruct (id3_block_chars (m1 <| access_param := p |>)) as [Ht Ha].
  rewrite <- Hdata in Ht, Ha.
  change (nmp_title (m1 <| access_param := p |>)) with (nmp_title m1) in Ht.
  change (nmp_artist (m1 <| access_param := p |>)) with (nmp_artist m1) in Ha.
  rewrite Htitle in Ht. rewrite Hartist in Ha.
  exists m1, m2. split; [exact Hrun |]. split; [exact Hfile |].
  split; [exact H6 |]. split; [exact H7 |]. split; [exact Hacc |].
  split; [exact Hop |]. split; [exact Hcur |].
  split; [rewrite Hdata; apply length_id3_block |].
  split; [exact Ht | exact Ha].
Qed.

Lemma id3_request_witness :
  exists m1 m2,
    dispatch Sample.consts Sample.machine Sample.irq NMP_GET_ID3_DATA
      (Sample.power_on <| command_stream := Sample.stream_of 0x40 [97] |>) = Some m1
    /\ access_nmp_io Sample.consts Sample.machine Sample.irq
         (m1 <| access_param := 0x101 |>) = Some m2
    /\ card_data m2 !! 5%nat = Some 84
    /\ card_data m2 !! 137%nat = Some 65.
Proof.
  pose proof (id3_request Sample.consts Sample.machine Sample.irq
                (Sample.power_on <| command_stream := Sample.stream_of 0x40 [97] |>)
                0x101 sample_codes_distinct (or_intror (or_introl eq_refl))) as Hx.
  cbv zeta in Hx.
  destruct Hx as (m1 & m2 & R1 & _ & _ & _ & R2 & _ & _ & _ & Ht & Ha).
  exists m1, m2. split; [exact R1 |]. split; [exact R2 |].
  split; [exact (Ht 0%nat ltac:(lia)) | exact (Ha 0%nat ltac:(lia))].
Defined.

(** ** Reading past the end of the listing *)

Section ListingEnd.

Variables (K : nmp_consts) (H : host) (irq : AGB_MMU -> option AGB_MMU).
Hypothesis Hd : distinct_codes K.

(** X23. The listing call that reports the end of the list leaves the
    cursor one past the last entry: with [N] entries in the directory,
    call [N + 1] returns with (0,1) in status bytes 2-3, and a data access
    made after it indexes [music_files] at its size, which has no defined
    result. An empty directory is in this state after START_FILE_LIST
    alone. *)
Theorem listing_end_access (m : AGB_MMU) :
  let F := get_folders_in_dir H (current_dir m) in
  let M := get_files_in_dir H (current_dir m) ".mp3" in
  let N := (length F + length M)%nat in
  Z.of_nat N + 1 < 2 ^ 32 ->
  exists m',
    listing K H irq N m = Some m'
    /\ nmp_entry_count m' = Z.of_nat N + 1
    /\ nmp_status_data m' !! 3%nat = Some 1
    /\ list_block m' = None
    /\ access_card_data K H irq m' = None.
Proof.
  intros F M N Hsmall.
  destruct (listing_listed K H irq Hd m N) as (m' & Hrun & Hl); [exact Hsmall |].
  fold F M in Hl. destruct Hl as [HF HM Hc Hcmd _ Hdone].
  change (2 ^ 32) with 4294967296 in Hsmall.
  assert (Hblock : list_block m' = None).
  { unfold list_block. cbv zeta. rewrite Hc, HF, HM.
    unfold nz. destruct (Z.eqb_spec (Z.of_nat (S N)) 0); [lia |]. cbn [negb].
    unfold size.
    rewrite (u32_small (Z.of_nat (S N) - 1)) by (change (2 ^ 32) with 4294967296; lia).
    rewrite (u32_small (Z.of_nat (length F)))
      by (change (2 ^ 32) with 4294967296; subst N; lia).
    destruct (Z.ltb_spec (Z.of_nat (S N) - 1) (Z.of_nat (length F))); [subst N; lia |].
    rewrite u32_small by (change (2 ^ 32) with 4294967296; subst N; lia).
    replace (Z.of_nat (S N) - 1 - Z.of_nat (length F)) with (Z.of_nat (length M))
      by (subst N; lia).
    rewrite at_index_nat, (proj2 (lookup_ge_None M (length M))) by lia.
    reflexivity. }
  exists m'. split; [exact Hrun |]. split; [rewrite Hc; lia |].
  split.
  { rewrite Hdone. rewrite bool_decide_eq_true_2 by (subst N; lia). reflexivity. }
  split; [exact Hblock |].
  unfold access_card_data. cbv zeta. simpl (cmd _).
  assert (Hsel : (cmd m' =? code K NMP_START_FILE_LIST)
                 || (cmd m' =? code K NMP_CONTINUE_FILE_LIST) = true).
  { destruct Hcmd as [-> | ->]; rewrite Z.eqb_refl;
      [reflexivity | apply orb_true_r]. }
  rewrite Hsel.
  change (list_block (m' <| card_data := [] |> <| op_state := PLAY_YAN_GET_SD_DATA |>
                         <| nmp_data_index := 0 |>))
    with (list_block m').
  rewrite Hblock. reflexivity.
Qed.

End ListingEnd.

Lemma listing_end_access_witness :
  exists m',
    listing Sample.consts Sample.machine Sample.irq 3 Sample.power_on = Some m'
    /\ nmp_entry_count m' = 4
    /\ access_card_data Sample.consts Sample.machine Sample.irq m' = None.
Proof.
  pose proof (listing_end_access Sample.consts Sample.machine Sample.irq
                sample_codes_distinct Sample.power_on) as Hx.
  cbv zeta in Hx.
  destruct Hx as (m' & Hrun & Hc & _ & _ & Hacc); [evaluate |].
  exists m'. split; [exact Hrun |]. split; [exact Hc | exact Hacc].
Defined.

(** ** The timestamp update *)

(** The two timestamp bytes hold the low 16 bits of the seconds. *)
Lemma timestamp_bytes (t : Z) :
  u8 (Z.land (Z.shiftr t 8) 0xFF) * 256 + u8 (Z.land t 0xFF) = t mod 65536.
Proof.
  change 0xFF with (Z.ones 8). rewrite !Z.land_ones, Z.shiftr_div_pow2 by lia.
  unfold u8. rewrite !Z.mod_mod by lia. change (2 ^ 8) with 256.
  change 65536 with (256 * 256). rewrite Z.rem_mul_r by lia. lia.
Qed.

(** UPDATE_AUDIO on a playing track whose timestamp is due and whose end
    is not reached. *)
Lemma update_audio_timestamp (K : nmp_consts) (H : host) (m : AGB_MMU) :
  update_audio_stream m && negb (ext_use_headphones m) = false ->
  update_trackbar_timestamp m = true ->
  (u32 (music_length m - 1) <> 0 ->
   Fp.fge (progress (elapsed m) (music_length m)) (Fp.float_of_Z 100) = false) ->
  (14 <= length (nmp_status_data m))%nat ->
  let m1 := update_audio_playing K H m in
  tracker_update_size m1 = elapsed m
  /\ nmp_status_data m1 !! 12%nat = Some (u8 (Z.land (Z.shiftr (elapsed m) 8) 0xFF))
  /\ nmp_status_data m1 !! 13%nat = Some (u8 (Z.land (elapsed m) 0xFF))
  /\ audio_frame_count m1 = 0
  /\ nmp_manual_cmd m1 = code K NMP_UPDATE_AUDIO
  /\ (ext_use_headphones m = true ->
      irq_delay m1 = 60 /\ update_audio_stream m1 = false
      /\ update_trackbar_timestamp m1 = true)
  /\ (ext_use_headphones m = false ->
      irq_delay m1 = irq_delay m /\ update_audio_stream m1 = true
      /\ update_trackbar_timestamp m1 = false).
Proof.
  intros Hprio Htrack Hlt Hlen.
  unfold update_audio_playing. cbv zeta.
  simpl (update_audio_stream _). simpl (ext_use_headphones _).
  simpl (update_trackbar_timestamp _). rewrite Hprio, Htrack.
  simpl (music_length _). simpl (ext_sample_pos _). simpl (audio_sample_index _).
  simpl (audio_sample_rate _).
  unfold elapsed in *. cbv zeta in *.
  assert (Hbytes : forall (l : list Z) a b, (14 <= length l)%nat ->
            store 13 b (store 12 a l) !! 12%nat = Some a
            /\ store 13 b (store 12 a l) !! 13%nat = Some b).
  { intros l a b Hl. unfold store.
    change (Z.to_nat 13) with 13%nat. change (Z.to_nat 12) with 12%nat. split.
    - rewrite list_lookup_insert_ne by lia. now rewrite list_lookup_insert_eq by lia.
    - now rewrite list_lookup_insert_eq by (rewrite length_insert; lia). }
  destruct (nz (if ext_use_headphones m then audio_sample_rate m else 16384));
    simpl (music_length _); simpl (tracker_update_size _);
    (destruct (nz (u32 (music_length m - 1))) eqn:Hnz;
     [ rewrite Hlt by (unfold nz in Hnz; intros E; rewrite E in Hnz; discriminate) | ]);
    destruct (ext_use_headphones m) eqn:Hh; simpl (ext_use_headphones _);
    rewrite ?Hh; cbv iota; split_ifs;
    unfold status_write; simpl;
    (split; [reflexivity |]);
    (split; [apply Hbytes; rewrite ?length_store; exact Hlen |]);
    (split; [apply Hbytes; rewrite ?length_store; exact Hlen |]);
    repeat split; discriminate.
Qed.

(** X24. An UPDATE_AUDIO tick that finds the timestamp due on a playing
    track before its end stores the elapsed seconds, whose low 16 bits are
    the two bytes at status offsets 12-13, and restarts the frame count. On the speaker it
    hands over to the audio stream, whose next chunk is a left one; with
    the headphones it asks for the next timestamp after a delay of 60. *)
Theorem timestamp_update (K : nmp_consts) (H : host)
    (irq : AGB_MMU -> option AGB_MMU) (m : AGB_MMU) :
  distinct_codes K ->
  is_music_playing m = true ->
  update_trackbar_timestamp m = true ->
  update_audio_stream m && negb (ext_use_headphones m) = false ->
  (u32 (music_length m - 1) <> 0 ->
   Fp.fge (progress (elapsed m) (music_length m)) (Fp.float_of_Z 100) = false) ->
  exists m1 b12 b13,
    dispatch K H irq NMP_UPDATE_AUDIO m = Some m1
    /\ tracker_update_size m1 = elapsed m
    /\ nmp_status_data m1 !! 12%nat = Some b12
    /\ nmp_status_data m1 !! 13%nat = Some b13
    /\ 0 <= b12 < 256 /\ 0 <= b13 < 256
    /\ b12 * 256 + b13 = elapsed m mod 65536
    /\ audio_frame_count m1 = 0
    /\ nmp_manual_cmd m1 = code K NMP_UPDATE_AUDIO
    /\ (ext_use_headphones m = true ->
        irq_delay m1 = 60 /\ update_audio_stream m1 = false
        /\ update_trackbar_timestamp m1 = true)
    /\ (ext_use_headphones m = false ->
        irq_delay m1 = irq_delay m /\ update_audio_stream m1 = true
        /\ update_trackbar_timestamp m1 = false
        /\ next_is_left m1 = true).
Proof.
  intros Hd Hplay Htrack Hprio Hlt.
  unfold dispatch, process_nmp_cmd. cbv zeta.
  simpl (cmd _). rewrite (decode_code _ _ Hd). cbv iota beta.
  simpl (is_music_playing _). rewrite Hplay.
  match goal with
  | |- context [update_audio_playing K H ?A] =>
      destruct (update_audio_timestamp K H A Hprio Htrack Hlt)
        as (Ht & H12 & H13 & Hfc & Hcmd & Hhp & Hsp)
  end.
  { exact (default_status_holds _ 14 ltac:(lia)). }
  eexists _, _, _. split; [reflexivity |].
  split; [exact Ht |]. split; [exact H12 |]. split; [exact H13 |].
  split; [apply u8_range |]. split; [apply u8_range |].
  split; [apply timestamp_bytes |]. split; [exact Hfc |]. split; [exact Hcmd |].
  split; [exact Hhp |].
  intros Hoff. destruct (Hsp Hoff) as (Hdelay & Hs & Htt).
  split; [exact Hdelay |]. split; [exact Hs |]. split; [exact Htt |].
  unfold next_is_left. rewrite Hfc. reflexivity.
Qed.

Lemma timestamp_update_witness :
  exists m1 b12 b13,
    dispatch Sample.consts Sample.machine Sample.irq NMP_UPDATE_AUDIO
      (Sample.power_on <| is_music_playing := true |>
         <| update_trackbar_timestamp := true |> <| music_length := 300 |>
         <| audio_sample_index := 81920 |>) = Some m1
    /\ nmp_status_data m1 !! 12%nat = Some b12
    /\ nmp_status_data m1 !! 13%nat = Some b13
    /\ b12 * 256 + b13 = 5
    /\ update_audio_stream m1 = true.
Proof.
  destruct (timestamp_update Sample.consts Sample.machine Sample.irq
              (Sample.power_on <| is_music_playing := true |>
                 <| update_trackbar_timestamp := true |> <| music_length := 300 |>
                 <| audio_sample_index := 81920 |>))
    as (m1 & b12 & b13 & R & _ & H12 & H13 & _ & _ & Hb & _ & _ & _ & Hsp).
  - exact sample_codes_distinct.
  - reflexivity.
  - reflexivity.
  - reflexivity.
  - intros _. vm_compute. reflexivity.
  - exists m1, b12, b13. split; [exact R |]. split; [exact H12 |].
    split; [exact H13 |]. split; [exact Hb |]. apply (Hsp eq_refl).
Defined.

(** * The data block and the chunk as a whole *)

(** ** The data block an access builds *)

(** [list_block] has a result exactly while the listing cursor is inside
    the snapshot. *)
Lemma list_block_returns (m : AGB_MMU) :
  0 <= nmp_entry_count m < 2 ^ 32 ->
  size (folders m) + size (music_files m) < 2 ^ 32 ->
  nmp_entry_count m <= size (folders m) + size (music_files m) ->
  exists data, list_block m = Some data /\ length data = 528%nat.
Proof.
  intros Hc Hs Hin.
  assert (Hsome : is_Some (list_block m)); [| destruct Hsome as [data Hb];
    exists data; split; [exact Hb | exact (length_list_block _ _ Hb)]].
  destruct (Z.eq_dec (nmp_entry_count m) 0) as [Hz | Hnz].
  - unfold list_block. cbv zeta. rewrite Hz. eexists. reflexivity.
  - unfold size in *.
    assert (Hj : (Z.to_nat (nmp_entry_count m) - 1 < length (folders m ++ music_files m))%nat)
      by (rewrite length_app; lia).
    apply lookup_lt_is_Some_2 in Hj as [name Hname].
    eexists. eapply (list_block_entry (folders m) (music_files m)
                       (Z.to_nat (nmp_entry_count m)) m name);
      try reflexivity; try lia; exact Hname.
Qed.

Lemma list_block_past_end (m : AGB_MMU) :
  nmp_entry_count m < 2 ^ 32 ->
  size (folders m) + size (music_files m) < nmp_entry_count m ->
  list_block m = None.
Proof.
  intros Hc Hout. unfold size in *. unfold list_block. cbv zeta. unfold size.
  change (2 ^ 32) with 4294967296 in Hc.
  unfold nz. destruct (Z.eqb_spec (nmp_entry_count m) 0) as [| _]; [lia |].
  cbn [negb].
  rewrite (u32_small (nmp_entry_count m - 1)) by (change (2 ^ 32) with 4294967296; lia).
  rewrite (u32_small (Z.of_nat (length (folders m))))
    by (change (2 ^ 32) with 4294967296; lia).
  destruct (Z.ltb_spec (nmp_entry_count m - 1) (Z.of_nat (length (folders m)))); [lia |].
  rewrite u32_small by (change (2 ^ 32) with 4294967296; lia).
  unfold at_index.
  destruct (Z.leb_spec 0 (nmp_entry_count m - 1 - Z.of_nat (length (folders m)))); [| lia].
  rewrite (proj2 (lookup_ge_None (music_files m) _)) by lia.
  reflexivity.
Qed.



(** ** The chunk as a whole *)

Lemma output_offset_at (x : Z) (m : AGB_MMU) :
  output_offset x m = offset_at x (audio_sample_index m).
Proof. reflexivity. Qed.

Lemma offset_at_range (x i : Z) : x - 1 <= offset_at x i <= x + 1.
Proof. unfold offset_at. destruct (nz _); lia. Qed.

Lemma land_one (z : Z) : Z.land z 0x01 = z mod 2.
Proof. change 0x01 with (Z.ones 1). now rewrite Z.land_ones by lia. Qed.

(** Two different iterations of a chunk never store at the same offset. *)
Lemma offset_at_apart (x i j : Z) :
  0 < j -> offset_at x i <> offset_at (x + j) (i + j).
Proof.
  intros Hj. unfold offset_at, nz. rewrite !land_one.
  destruct (Z.eqb_spec (i mod 2) 0), (Z.eqb_spec ((i + j) mod 2) 0); cbn [negb];
    try lia.
  intros Heq. assert (j = 2) by lia. subst j.
  rewrite <- (Z.mod_add i 1 2) in e by lia. change (1 * 2) with 2 in e. contradiction.
Qed.

(** The sample an iteration reads depends on the source, the rate and
    the channel count alone. *)
Lemma source_sample_frame (H : host) (left : bool) (m m' : AGB_MMU) (i : Z) :
  loop_frame m m' -> source_sample H left m' i = source_sample H left m i.
Proof.
  intros [Hlen Hbuf Hrate Hch _ _ _ _ _ _].
  unfold source_sample, read_index, source_index. cbv zeta. simpl.
  now rewrite Hlen, Hbuf, Hrate, Hch.
Qed.

(** One iteration that returns, in full: the sample it has read, the byte
    it has stored and the error it leaves. *)
Lemma audio_step_returns (H : host) (left : bool) (x : Z) (c c' : chunk) :
  audio_step H left x c = Some c' ->
  let m := dev c in
  let i := audio_sample_index m in
  s16 <$> at_index (ext_buffer m) (read_index H left m i)
  = Some (source_sample H left m i)
  /\ card_data (dev c')
     = store (offset_at x i)
         (u8 (Z.land (quantise (source_sample H left m i) (s16 (residual left m))) 0xFF))
         (card_data m)
  /\ residual left (dev c') = Z.land (source_sample H left m i) 0xFF
  /\ residual (negb left) (dev c') = residual (negb left) m
  /\ audio_sample_index (dev c') = u32 (i + 1)
  /\ loop_frame m (dev c').
Proof.
  intros Hrun m i.
  destruct (audio_step_sample H left x c c' Hrun) as (src & Hsrc & Hout & Herr & Hoth).
  assert (Hrest : index c' = read_index H left m i
                  /\ audio_sample_index (dev c') = u32 (i + 1)
                  /\ loop_frame m (dev c')).
  { clear Hsrc Hout Herr Hoth. unfold audio_step in Hrun. cbv zeta in Hrun.
    match type of Hrun with
    | (?e ≫= _) = _ => destruct e as [v |]; [| discriminate]
    end.
    cbn [mbind option_bind] in Hrun. unsome Hrun. subst c'.
    split; [unfold read_index, source_index; cbv zeta; simpl; reflexivity |].
    unfold emit. cbv zeta. subst m i.
    destruct (u32 (ext_length (dev c) / 2) <=? source_index H left (dev c));
      destruct left; simpl;
      (split; [reflexivity |]); constructor; simpl; auto; intros; discriminate. }
  destruct Hrest as (Hidx & Hi & Hf).
  rewrite Hidx in Hsrc. fold m in Hsrc.
  assert (Hs : source_sample H left m i = src).
  { unfold source_sample. rewrite Hsrc. reflexivity. }
  rewrite Hs.
  split; [exact Hsrc |]. split; [exact Hout |].
  split; [exact Herr |]. split; [exact Hoth |]. split; [exact Hi | exact Hf].
Qed.

Lemma carried_shift (H : host) (left : bool) (m m1 : AGB_MMU) (s : Z) (k : nat) :
  loop_frame m m1 ->
  residual left m1 = Z.land (source_sample H left m s) 0xFF ->
  carried H left m1 (s + 1) k = carried H left m s (S k).
Proof.
  intros Hf Hr. destruct k as [| k]; cbn [carried].
  - rewrite Hr, low_byte_s16. change (Z.of_nat 0) with 0. now rewrite Z.add_0_r.
  - rewrite (source_sample_frame H left m m1 _ Hf).
    do 2 f_equal. lia.
Qed.

Lemma chunk_byte_shift (H : host) (left : bool) (m m1 : AGB_MMU) (s : Z) (k : nat) :
  loop_frame m m1 ->
  residual left m1 = Z.land (source_sample H left m s) 0xFF ->
  chunk_byte H left m1 (s + 1) k = chunk_byte H left m s (S k).
Proof.
  intros Hf Hr. unfold chunk_byte.
  rewrite (carried_shift H left m m1 s k Hf Hr).
  rewrite (source_sample_frame H left m m1 _ Hf).
  replace (s + 1 + Z.of_nat k) with (s + Z.of_nat (S k)) by lia. reflexivity.
Qed.

(** The loop that returns, in full: the [k]-th iteration has read its
    sample inside the buffer and its byte is in the block at its offset;
    every other byte of the block is untouched; the channel's error is
    the low byte of the last sample read. *)
Lemma audio_loop_chunk (H : host) (left : bool) (n : nat) (x : Z) (c c' : chunk) :
  audio_loop H left n x c = Some c' ->
  0 <= audio_sample_index (dev c) ->
  audio_sample_index (dev c) + Z.of_nat n < 2 ^ 32 ->
  2 <= x ->
  ((0 < n)%nat -> x + Z.of_nat n < size (card_data (dev c))) ->
  let m := dev c in
  let s := audio_sample_index m in
  (forall k, (k < n)%nat ->
     s16 <$> at_index (ext_buffer m) (read_index H left m (s + Z.of_nat k))
     = Some (source_sample H left m (s + Z.of_nat k))
     /\ card_data (dev c') !! Z.to_nat (offset_at (x + Z.of_nat k) (s + Z.of_nat k))
        = Some (chunk_byte H left m s k))
  /\ (forall p : nat,
        (forall k, (k < n)%nat ->
           p <> Z.to_nat (offset_at (x + Z.of_nat k) (s + Z.of_nat k))) ->
        card_data (dev c') !! p = card_data m !! p)
  /\ s16 (residual left (dev c')) = carried H left m s n
  /\ residual (negb left) (dev c') = residual (negb left) m
  /\ length (card_data (dev c')) = length (card_data m)
  /\ loop_frame m (dev c').
Proof.
  revert x c. induction n as [| n IH]; intros x c Hrun Hi Hin Hx Hfit m s;
    change (2 ^ 32) with 4294967296 in *.
  - simpl in Hrun. unsome Hrun. subst c'.
    split; [intros k Hk; lia |]. split; [reflexivity |].
    split; [reflexivity |]. split; [reflexivity |].
    split; [reflexivity | apply loop_frame_refl].
  - cbn [audio_loop] in Hrun.
    destruct (audio_step H left x c) as [c1 |] eqn:Hstep; [| discriminate].
    cbn [mbind option_bind] in Hrun.
    destruct (audio_step_returns H left x c c1 Hstep)
      as (Hsrc & Hout & Herr & Hoth & Hi1 & Hf1).
    fold m in Hsrc, Hout, Herr, Hoth, Hi1, Hf1. fold s in Hsrc, Hout, Herr, Hi1.
    rewrite u32_small in Hi1 by (change (2 ^ 32) with 4294967296; subst s m; lia).
    assert (Hlen1 : length (card_data (dev c1)) = length (card_data m)).
    { rewrite Hout. apply length_store. }
    specialize (Hfit ltac:(lia)). unfold size in Hfit. fold m in Hfit.
    destruct (IH (x + 1) c1 Hrun) as (Hbytes & Hframe & Hres & Hoth' & Hlen' & Hf').
    { rewrite Hi1. subst s m. lia. }
    { rewrite Hi1. subst s m. lia. }
    { lia. }
    { intros _. unfold size. rewrite Hlen1. lia. }
    rewrite Hi1 in Hbytes, Hframe, Hres.
    pose proof (offset_at_range x s) as Hr0.
    assert (Hfirst : card_data (dev c') !! Z.to_nat (offset_at x s)
                     = Some (chunk_byte H left m s 0)).
    { rewrite Hframe.
      - rewrite Hout. unfold store, chunk_byte. cbn [carried].
        change (Z.of_nat 0) with 0. rewrite Z.add_0_r.
        apply list_lookup_insert_eq. lia.
      - intros k Hk Heq. apply Z2Nat.inj in Heq.
        + replace (x + 1 + Z.of_nat k) with (x + (Z.of_nat k + 1)) in Heq by lia.
          replace (s + 1 + Z.of_nat k) with (s + (Z.of_nat k + 1)) in Heq by lia.
          revert Heq. apply offset_at_apart. lia.
        + lia.
        + pose proof (offset_at_range (x + 1 + Z.of_nat k) (s + 1 + Z.of_nat k)). lia. }
    split.
    { intros [| k] Hk.
      - change (Z.of_nat 0) with 0. rewrite !Z.add_0_r.
        split; [exact Hsrc | exact Hfirst].
      - destruct (Hbytes k ltac:(lia)) as [Hs Hbyte].
        replace (s + Z.of_nat (S k)) with (s + 1 + Z.of_nat k) by lia.
        replace (x + Z.of_nat (S k)) with (x + 1 + Z.of_nat k) by lia.
        rewrite <- (chunk_byte_shift H left m (dev c1) s k Hf1 Herr).
        rewrite <- (source_sample_frame H left m (dev c1) _ Hf1).
        split; [| exact Hbyte].
        rewrite <- Hs. unfold read_index, source_index. cbv zeta. simpl.
        destruct Hf1 as [Hl1 Hb1 Hr1 Hc1 _ _ _ _ _ _]. now rewrite Hl1, Hb1, Hr1, Hc1. }
    split.
    { intros p Hp. rewrite Hframe.
      - rewrite Hout. unfold store. apply list_lookup_insert_ne.
        specialize (Hp 0%nat ltac:(lia)). change (Z.of_nat 0) with 0 in Hp.
        rewrite !Z.add_0_r in Hp. congruence.
      - intros k Hk. specialize (Hp (S k) ltac:(lia)).
        replace (x + Z.of_nat (S k)) with (x + 1 + Z.of_nat k) in Hp by lia.
        replace (s + Z.of_nat (S k)) with (s + 1 + Z.of_nat k) in Hp by lia.
        exact Hp. }
    split.
    { rewrite Hres. apply carried_shift; assumption. }
    split; [congruence |]. split; [congruence |].
    eapply loop_frame_trans; eassumption.
Qed.

(** The chunk [audio_block] has built, whenever it returns one. *)
Lemma audio_block_chunk (H : host) (m m' : AGB_MMU) (t : bool) :
  audio_block H m = Some (m', t) ->
  audio_sample_rate m <> 0 ->
  0 <= audio_buffer_size m < 2 ^ 31 ->
  0 <= audio_sample_index m ->
  audio_sample_index m + Z.of_nat (chunk_samples m) < 2 ^ 32 ->
  let left := next_is_left m in
  let s := audio_sample_index m in
  length (card_data m') = Z.to_nat (audio_buffer_size m + 2)
  /\ (forall k, (k < chunk_samples m)%nat ->
        s16 <$> at_index (ext_buffer m) (read_index H left m (s + Z.of_nat k))
        = Some (source_sample H left m (s + Z.of_nat k))
        /\ card_data m' !! Z.to_nat (offset_at (2 + Z.of_nat k) (s + Z.of_nat k))
           = Some (chunk_byte H left m s k))
  /\ (forall p : nat,
        (forall k, (k < chunk_samples m)%nat ->
           p <> Z.to_nat (offset_at (2 + Z.of_nat k) (s + Z.of_nat k))) ->
        card_data m' !! p
        = resize (Z.to_nat (audio_buffer_size m + 2)) 0x00 (card_data m) !! p)
  /\ s16 (residual left m') = carried H left m s (chunk_samples m)
  /\ residual (negb left) m' = residual (negb left) m.
Proof.
  intros Hrun Hrate Hsize Hi Hin left s. unfold audio_block in Hrun. cbv zeta in Hrun.
  simpl (audio_sample_rate _) in Hrun. simpl (audio_frame_count _) in Hrun.
  simpl (audio_sample_index _) in Hrun. simpl (audio_buffer_size _) in Hrun.
  unfold nz at 1 in Hrun.
  destruct (Z.eqb_spec (audio_sample_rate m) 0); [contradiction |].
  cbn [negb] in Hrun. fold (next_is_left m) in Hrun. fold left in Hrun.
  fold (chunk_samples m) in Hrun.
  match type of Hrun with
  | (?e ≫= _) = _ => destruct e as [c' |] eqn:Hloop; [| discriminate]
  end.
  cbn [mbind option_bind] in Hrun.
  apply audio_loop_chunk in Hloop
    as (Hbytes & Hframe & Hres & Hoth & Hlen & _); try (simpl; assumption || lia).
  2: { intros Hn. simpl. unfold size. rewrite length_resize.
       unfold chunk_samples in *.
       change (2 ^ 31) with 2147483648 in Hsize.
       pose proof (Z.mul_div_le (audio_buffer_size m) 2 ltac:(lia)) as Hhalf.
       assert (0 <= audio_buffer_size m / 2) by (apply Z.div_pos; lia).
       rewrite u32_small in * by (change (2 ^ 32) with 4294967296; lia).
       lia. }
  simpl in Hlen. rewrite length_resize in Hlen.
  unsome Hrun. unpair Hrun E1 E2. subst m'.
  destruct left eqn:Hleft; simpl;
    (split; [exact Hlen |]); (split; [exact Hbytes |]);
    (split; [exact Hframe |]); (split; [exact Hres | exact Hoth]).
Qed.

(** C7. Every iteration of the resampler that reads a source sample
    [src] stores, at its output offset, the byte of
    [(src + (residual >> 4) * 7) >> 8] clipped to [-128,127], where
    [residual] is the error carried for the channel, and leaves the low
    byte of [src] as the new error of that channel, the other channel's
    error untouched. The loop is a function of the errors, the position
    and the source stream alone: two devices that agree on those produce
    the same block and the same errors, whatever the rest of their
    state. And a chunk holds the outputs of all its iterations: on a
    backed source [audio_block] returns a chunk, and in every chunk it
    returns, for every [k] below the number of samples of the chunk, the
    source sample of position [audio_sample_index + k] has been read
    inside the buffer and the byte at the offset of iteration [k] is its
    quantisation with the error carried into that iteration, which is
    the stored error of the channel for [k = 0] and the low byte of the
    previous source sample afterwards; every other byte of the block is
    as the resize left it; after the chunk the error of the channel is
    the low byte of the last sample read, and the error of the other
    channel is unchanged. *)
Theorem dither_output (H : host) (m : AGB_MMU) :
  (forall left x c c',
      audio_step H left x c = Some c' ->
      exists src,
        s16 <$> at_index (ext_buffer (dev c)) (index c') = Some src
        /\ card_data (dev c')
           = store (output_offset x (dev c))
               (u8 (Z.land (quantise src (s16 (residual left (dev c)))) 0xFF))
               (card_data (dev c))
        /\ signed 8 (u8 (Z.land (quantise src (s16 (residual left (dev c)))) 0xFF))
           = quantise src (s16 (residual left (dev c)))
        /\ residual left (dev c') = Z.land src 0xFF
        /\ residual (negb left) (dev c') = residual (negb left) (dev c))
  /\ (forall left n x c c2,
         view_of (dev c) = view_of (dev c2) ->
         (view_of ∘ dev) <$> audio_loop H left n x c
         = (view_of ∘ dev) <$> audio_loop H left n x c2)
  /\ (audio_sample_rate m <> 0 ->
      0 <= audio_buffer_size m < 2 ^ 31 ->
      0 <= audio_sample_index m ->
      audio_sample_index m + Z.of_nat (chunk_samples m) < 2 ^ 32 ->
      let left := next_is_left m in
      let s := audio_sample_index m in
      (source_backed m -> exists m' t, audio_block H m = Some (m', t))
      /\ forall m' t,
           audio_block H m = Some (m', t) ->
           length (card_data m') = Z.to_nat (audio_buffer_size m + 2)
           /\ (forall k, (k < chunk_samples m)%nat ->
                 let src := source_sample H left m (s + Z.of_nat k) in
                 let err := carried H left m s k in
                 s16 <$> at_index (ext_buffer m) (read_index H left m (s + Z.of_nat k))
                 = Some src
                 /\ card_data m' !! Z.to_nat (offset_at (2 + Z.of_nat k) (s + Z.of_nat k))
                    = Some (u8 (Z.land (quantise src err) 0xFF))
                 /\ signed 8 (u8 (Z.land (quantise src err) 0xFF)) = quantise src err)
           /\ (forall p : nat,
                 (forall k, (k < chunk_samples m)%nat ->
                    p <> Z.to_nat (offset_at (2 + Z.of_nat k) (s + Z.of_nat k))) ->
                 card_data m' !! p
                 = resize (Z.to_nat (audio_buffer_size m + 2)) 0x00 (card_data m) !! p)
           /\ s16 (residual left m') = carried H left m s (chunk_samples m)
           /\ residual (negb left) m' = residual (negb left) m).
Proof.
  split; [| split].
  - intros left x c c' Hstep.
    destruct (audio_step_sample H left x c c' Hstep) as (src & Hsrc & Hout & Herr & Hoth).
    exists src. split; [exact Hsrc |]. split; [exact Hout |].
    split; [apply signed8_byte, quantise_range |]. split; assumption.
  - intros left n x c c2. apply audio_loop_view.
  - intros Hrate Hsize Hi Hin left s. split.
    + intros Hb.
      destruct (audio_chunk_frame H m Hrate Hb Hi Hin) as (m' & t & Hrun & _).
      exists m', t. exact Hrun.
    + intros m' t Hrun.
      destruct (audio_block_chunk H m m' t Hrun Hrate Hsize Hi Hin)
        as (Hlen & Hbytes & Hframe & Hres & Hoth).
      split; [exact Hlen |].
      split.
      { intros k Hk src err. destruct (Hbytes k Hk) as [Hs Hbyte].
        split; [exact Hs |]. split; [exact Hbyte |].
        apply signed8_byte, quantise_range. }
      split; [exact Hframe |]. split; [exact Hres | exact Hoth].
Qed.

Lemma dither_output_witness :
  let m := store_loaded (play_yan_load_audio Sample.machine "")
             (Sample.power_on <| audio_buffer_size := 8 |>
                <| l_audio_dither_error := 0x34 |>) in
  exists m' t,
    audio_block Sample.machine m = Some (m', t)
    /\ card_data m' !! 3%nat = Some 18
    /\ card_data m' !! 2%nat = Some 18
    /\ card_data m' !! 5%nat = Some 0
    /\ card_data m' !! 4%nat = Some 0
    /\ card_data m' !! 6%nat = Some 0
    /\ s16 (l_audio_dither_error m') = 0xFE.
Proof.
  intros m.
  destruct (proj2 (proj2 (dither_output Sample.machine m))) as [Hex Hall].
  - evaluate.
  - evaluate.
  - evaluate.
  - evaluate.
  - destruct Hex as (m' & t & Hrun); [evaluate |].
    destruct (Hall m' t Hrun) as (_ & Hbytes & Hframe & Hres & _).
    exists m', t. split; [exact Hrun |].
    cbv zeta in Hbytes.
    pose proof (Hbytes 0%nat ltac:(vm_compute; lia)) as (_ & H0 & _).
    pose proof (Hbytes 1%nat ltac:(vm_compute; lia)) as (_ & H1 & _).
    pose proof (Hbytes 2%nat ltac:(vm_compute; lia)) as (_ & H2 & _).
    pose proof (Hbytes 3%nat ltac:(vm_compute; lia)) as (_ & H3 & _).
    assert (H6 : card_data m' !! 6%nat = Some 0).
    { rewrite (Hframe 6%nat); [reflexivity |].
      intros k Hk. change (chunk_samples m) with 4%nat in Hk.
      destruct k as [| [| [| [| k]]]]; try lia; vm_compute; lia. }
    split; [exact H0 |]. split; [exact H1 |]. split; [exact H2 |].
    split; [exact H3 |]. split; [exact H6 | exact Hres].
Defined.
